(** * TaskFlow: the task store, its API facade and the list filters of app.js

    A shallow embedding of the three classes of [app.js]:
    - [TaskDB], the CRUD layer over one [localStorage] slot;
    - [TaskAPI], the asynchronous facade returning [{success, data, message}];
    - [AppComponent], of which the status filter, the search, the statistics
      and the handlers are modelled; of the page, only which elements exist,
      what the inputs hold and how the engine sorts are taken into account.

    Conventions of the embedding.
    - A JavaScript object is a finite map from property names to values
      ([gmap string value]); the spread [{...a, ...b, k: v}] is map union
      followed by an insertion.
    - A Number is modelled when it is [NaN], infinite or an integer that a
      double represents; a sum is rounded to the nearest double, and an
      integer prints as [Number::toString] prints it. Fractions and the
      sign of zero are not modelled.
    - Strings are sequences of characters below U+0100 (Latin-1); on
      these [toLowerCase] maps character by character, and the white space
      of [trim] and [parseInt] is what the language defines.
    - A stored string is represented by what [JSON.parse] makes of it: the
      empty string, a non-empty string that is no JSON text, or the JSON text
      of an array of flat objects (the only thing [setItem] is ever given).
    - The clock is the sequence of strings that successive evaluations of
      [new Date().toISOString()] return.
    - The conversion of a string to a Number, which the program reaches only
      through [Math.max] on an id that is a string, is left to the host.
    - Storage quota and the interleaving of other scripts at [await] are not
      modelled. *)

From Stdlib Require Import ZArith Ascii String List Lia.
From Stdlib Require Import Decimal DecimalString DecimalPos.
From stdpp Require Import base option list strings gmap fin_maps.

Local Open Scope string_scope.
Local Open Scope Z_scope.

(** ** Values *)

(** The Numbers of the model: [NaN], the two infinities, and the doubles
    that are integers. *)
Inductive number : Type :=
| NaN
| NegInfinity
| Infinity
| Int (z : Z).

(** Values as they live in the heap. *)
Inductive value : Type :=
| Undefined
| Null
| Bool (b : bool)
| Num (n : number)
| Str (s : string).

(** Values as JSON text can carry them. *)
Inductive json : Type :=
| JNull
| JBool (b : bool)
| JNumber (z : Z)
| JString (s : string).

#[global] Instance number_eq_dec : EqDecision number.
Proof. solve_decision. Defined.
#[global] Instance value_eq_dec : EqDecision value.
Proof. solve_decision. Defined.
#[global] Instance json_eq_dec : EqDecision json.
Proof. solve_decision. Defined.

(** A plain object in the heap, and an object of a JSON text. *)
Abbreviation object := (gmap string value).
Abbreviation record := (gmap string json).

(** [o.k]: a missing property reads as [undefined]. *)
Definition get (o : object) (k : string) : value := default Undefined (o !! k).

(** [a === b]. [NaN] equals nothing, itself included. *)
Definition strict_equal (a b : value) : bool :=
  match a, b with
  | Undefined, Undefined => true
  | Null, Null => true
  | Bool x, Bool y => Bool.eqb x y
  | Num (Int x), Num (Int y) => x =? y
  | Num NegInfinity, Num NegInfinity => true
  | Num Infinity, Num Infinity => true
  | Str x, Str y => String.eqb x y
  | _, _ => false
  end.

(** [2^53]: every integer up to it, in absolute value, is a double. *)
Definition two_53 : Z := 9007199254740992.

(** The Number of the integer [z]: [z] itself up to [2^53]; beyond, a double
    has 53 significant bits, so the bits below them are rounded away, to the
    nearest double and to the even one of two that are equally near, and
    what rounds to [2^1024] is infinite. *)
Definition nearest_double (z : Z) : number :=
  let a := Z.abs z in
  if a <=? two_53 then Int z
  else
    let e := Z.log2 a - 52 in
    let q := a / 2 ^ e in
    let r := a mod 2 ^ e in
    let q' := if (2 ^ e <? 2 * r) || ((2 ^ e =? 2 * r) && Z.odd q) then q + 1 else q in
    if 2 ^ 1024 <=? q' * 2 ^ e
    then (if z <? 0 then NegInfinity else Infinity)
    else Int (Z.sgn z * (q' * 2 ^ e)).
Arguments nearest_double : simpl never.

(** [a + b] on Numbers: the sum of two integers is rounded. *)
Definition number_add (a b : number) : number :=
  match a, b with
  | NaN, _ | _, NaN => NaN
  | Infinity, NegInfinity | NegInfinity, Infinity => NaN
  | Infinity, _ | _, Infinity => Infinity
  | NegInfinity, _ | _, NegInfinity => NegInfinity
  | Int x, Int y => nearest_double (x + y)
  end.

(** [Math.max(a, b)] on Numbers. *)
Definition number_max (a b : number) : number :=
  match a, b with
  | NaN, _ | _, NaN => NaN
  | Infinity, _ | _, Infinity => Infinity
  | NegInfinity, y => y
  | x, NegInfinity => x
  | Int x, Int y => Int (Z.max x y)
  end.

(** [Math.max(...l)] on Numbers: [-Infinity] for no argument, [NaN] as soon
    as one argument is [NaN]. *)
Definition Math_max (l : list number) : number := foldr number_max NegInfinity l.

(** What the host decides and the program only calls: the conversion of a
    string to a Number, which [Math.max] applies to an argument that is a
    string. *)
Class Host : Type := { StringToNumber : string -> number }.

(** [ToNumber(v)], the conversion [Math.max] applies to each argument. *)
Definition ToNumber `{Host} (v : value) : number :=
  match v with
  | Undefined => NaN
  | Null => Int 0
  | Bool b => Int (if b then 1 else 0)
  | Num n => n
  | Str s => StringToNumber s
  end.

(** ** Strings: [ToString], [parseInt], [toLowerCase], [includes], [trim] *)

(** The decimal numeral of an integer. *)
Definition numeral (z : Z) : string := NilZero.string_of_int (Z.to_int z).

(** [Number::toString] prints the integer with the fewest significant digits
    that still denotes the Number, the nearest one if there are several. For
    [a] beyond [2^53] it is sought on the grids of step [p], a power of ten,
    from the coarsest one down: the neighbours of [a] on the grid are
    [a / p * p] and the next one. *)
Fixpoint shortest_from (fuel : nat) (a p : Z) : Z :=
  match fuel with
  | O => a
  | S fuel' =>
      let lo := a / p * p in
      let hi := lo + p in
      let lo_fits := bool_decide (nearest_double lo = Int a) in
      let hi_fits := bool_decide (nearest_double hi = Int a) in
      if lo_fits && hi_fits then
        if a - lo <? hi - a then lo
        else if hi - a <? a - lo then hi
        else if Z.even (lo / p) then lo else hi
      else if lo_fits then lo
      else if hi_fits then hi
      else shortest_from fuel' a (p / 10)
  end.

Definition shortest (a : Z) : Z :=
  shortest_from 17 a (10 ^ (Z.of_nat (String.length (numeral a)) - 1)).

(** A string without the zeros at its end. *)
Fixpoint strip_zeros (s : string) : string :=
  match s with
  | String c r =>
      match strip_zeros r with
      | EmptyString => if Ascii.eqb c "0" then EmptyString else String c EmptyString
      | r' => String c r'
      end
  | EmptyString => EmptyString
  end.

(** The form [d.ddde+n] in which an integer of 22 digits or more prints. *)
Definition exponent_form (c : Z) : string :=
  let digits := numeral c in
  let exponent := "e+" +:+ numeral (Z.of_nat (String.length digits) - 1) in
  match strip_zeros digits with
  | String d EmptyString => String d exponent
  | String d rest => String d ("." +:+ rest +:+ exponent)
  | EmptyString => digits
  end.

(** [Number::toString] on an integer: its decimal numeral up to [2^53], the
    shortest digits followed by zeros below [10^21], and the exponent form
    from there on. *)
Definition Number_toString (z : Z) : string :=
  if Z.abs z <=? two_53 then numeral z
  else
    let c := shortest (Z.abs z) in
    (if z <? 0 then "-" else "") +:+
    (if c <? 10 ^ 21 then numeral c else exponent_form c).
Arguments Number_toString : simpl never.

(** [ToString(v)]. *)
Definition ToString (v : value) : string :=
  match v with
  | Undefined => "undefined"
  | Null => "null"
  | Bool b => if b then "true" else "false"
  | Num NaN => "NaN"
  | Num NegInfinity => "-Infinity"
  | Num Infinity => "Infinity"
  | Num (Int z) => Number_toString z
  | Str s => s
  end.

Definition code (c : ascii) : Z := Z.of_N (N_of_ascii c).

(** The white space and the line terminators below U+0100: the characters
    9 to 13, the space and the no-break space. *)
Definition is_white_space (c : ascii) : bool :=
  let n := code c in ((9 <=? n) && (n <=? 13)) || (n =? 32) || (n =? 160).

Fixpoint skip_white_space (s : string) : string :=
  match s with
  | String c r => if is_white_space c then skip_white_space r else s
  | EmptyString => s
  end.

(** The value of a character as a digit: 0-9, then a-z or A-Z for 10-35. *)
Definition digit_value (c : ascii) : option Z :=
  let n := code c in
  if (48 <=? n) && (n <=? 57) then Some (n - 48)
  else if (97 <=? n) && (n <=? 122) then Some (n - 87)
  else if (65 <=? n) && (n <=? 90) then Some (n - 55)
  else None.

Definition radix_digit (R : Z) (c : ascii) : option Z :=
  match digit_value c with
  | Some d => if d <? R then Some d else None
  | None => None
  end.

(** The integer that the longest prefix of radix-[R] digits of [s] denotes,
    continuing from [acc]; [acc] itself when [s] starts with no digit. *)
Fixpoint digits_prefix (R : Z) (s : string) (acc : option Z) : option Z :=
  match s with
  | String c r =>
      match radix_digit R c with
      | Some d => digits_prefix R r (Some (default 0 acc * R + d))
      | None => acc
      end
  | EmptyString => acc
  end.

(** A leading sign, and the string after it. *)
Definition read_sign (s : string) : Z * string :=
  match s with
  | String c r =>
      if Ascii.eqb c "-" then (-1, r)
      else if Ascii.eqb c "+" then (1, r)
      else (1, s)
  | EmptyString => (1, s)
  end.

(** The radix, 16 after a leading [0x] or [0X] and 10 otherwise, and the
    string after the prefix. *)
Definition read_radix (s : string) : Z * string :=
  match s with
  | String c0 (String c1 r) =>
      if Ascii.eqb c0 "0" && (Ascii.eqb c1 "x" || Ascii.eqb c1 "X")
      then (16, r) else (10, s)
  | _ => (10, s)
  end.

(** [parseInt(s)] with no radix given: leading white space is skipped, a
    sign is read, [0x] or [0X] selects radix 16 and anything else radix 10,
    and the Number of the integer that the longest prefix of digits denotes
    is the result; [NaN] when the prefix is empty. The digits are all read,
    as the engines do; the language lets an engine read those after the
    twentieth as zeros. *)
Definition parseInt_string (s : string) : number :=
  let '(sign, s2) := read_sign (skip_white_space s) in
  let '(R, s3) := read_radix s2 in
  match digits_prefix R s3 None with
  | Some m => nearest_double (sign * m)
  | None => NaN
  end.

(** [parseInt(v)]: the argument is converted to a string first. *)
Definition parseInt (v : value) : number := parseInt_string (ToString v).

(** The lower case of a character below U+0100: the capitals are [A] to
    [Z] and U+00C0 to U+00DE without the multiplication sign U+00D7, and the
    small letter is 32 further on. *)
Definition lower (c : ascii) : ascii :=
  let n := code c in
  if ((65 <=? n) && (n <=? 90)) || ((192 <=? n) && (n <=? 222) && negb (n =? 215))
  then ascii_of_N (Z.to_N (n + 32)) else c.

(** [s.toLowerCase()]. *)
Fixpoint toLowerCase (s : string) : string :=
  match s with
  | String c r => String (lower c) (toLowerCase r)
  | EmptyString => EmptyString
  end.

(** [s.startsWith(q)]. *)
Fixpoint startsWith (s q : string) {struct q} : bool :=
  match q, s with
  | EmptyString, _ => true
  | String b q', String a s' => Ascii.eqb a b && startsWith s' q'
  | String _ _, EmptyString => false
  end.

(** [s.includes(q)]. *)
Fixpoint includes (s q : string) : bool :=
  startsWith s q ||
  match s with
  | String _ s' => includes s' q
  | EmptyString => false
  end.

(** [!s.trim()]: the string is empty once its white space is trimmed. *)
Fixpoint blank (s : string) : bool :=
  match s with
  | String c r => is_white_space c && blank r
  | EmptyString => true
  end.


(** ** JSON text and [localStorage] *)

Definition of_json (j : json) : value :=
  match j with
  | JNull => Null
  | JBool b => Bool b
  | JNumber z => Num (Int z)
  | JString s => Str s
  end.

(** What [JSON.stringify] writes for a property value: nothing for
    [undefined], [null] for a Number that is no finite number. *)
Definition to_json (v : value) : option json :=
  match v with
  | Undefined => None
  | Null => Some JNull
  | Bool b => Some (JBool b)
  | Num (Int z) => Some (JNumber z)
  | Num _ => Some JNull
  | Str s => Some (JString s)
  end.

(** A string as [localStorage] holds it. *)
Inductive text : Type :=
| TEmpty                      (* the empty string *)
| TMalformed                  (* a non-empty string that is no JSON text *)
| TArray (l : list record).   (* the JSON text of an array of objects *)

Inductive fault : Type := SyntaxError | TypeError.

Inductive outcome (A : Type) : Type :=
| Return (a : A)
| Throw (e : fault).
Arguments Return {A} a.
Arguments Throw {A} e.

(** The object that the JSON text of [o] denotes, and back. *)
Definition write_object (o : object) : record := omap to_json o.
Definition read_object (r : record) : object := of_json <$> r.

(** [JSON.stringify(tasks)]. *)
Definition JSON_stringify (tasks : list object) : text :=
  TArray (write_object <$> tasks).

(** [JSON.parse(s)]. *)
Definition JSON_parse (s : text) : outcome (list object) :=
  match s with
  | TArray l => Return (read_object <$> l)
  | TEmpty | TMalformed => Throw SyntaxError
  end.

(** The part of the browser the program talks to: the storage area, and the
    clock, given as the sequence of strings that successive evaluations of
    [new Date().toISOString()] return. *)
Record world : Type := World {
  localStorage : gmap string text;
  clock : nat -> string;
  ticks : nat
}.

(** A computation reads and writes the world, and returns or throws. *)
Definition M (A : Type) : Type := world -> outcome A * world.

#[global] Instance M_ret : MRet M := fun A a w => (Return a, w).

#[global] Instance M_bind : MBind M := fun A B f m w =>
  match m w with
  | (Return a, w') => f a w'
  | (Throw e, w') => (Throw e, w')
  end.

(** [try { m } catch (error) { h }]. *)
Definition try_catch {A} (m : M A) (h : fault -> M A) : M A := fun w =>
  match m w with
  | (Return a, w') => (Return a, w')
  | (Throw e, w') => h e w'
  end.

Definition lift {A} (o : outcome A) : M A := fun w => (o, w).

(** [localStorage.getItem(k)]: [None] is [null]. *)
Definition getItem (k : string) : M (option text) := fun w =>
  (Return (localStorage w !! k), w).

(** [localStorage.setItem(k, s)]. *)
Definition setItem (k : string) (s : text) : M unit := fun w =>
  (Return tt, World (<[k := s]> (localStorage w)) (clock w) (ticks w)).

(** [new Date().toISOString()]. *)
Definition Date_toISOString : M string := fun w =>
  (Return (clock w (ticks w)), World (localStorage w) (clock w) (S (ticks w))).

(** The truth value of what [getItem] returned: [null] and the empty string
    are falsy. *)
Definition truthy (item : option text) : bool :=
  match item with
  | None | Some TEmpty => false
  | Some _ => true
  end.

(** [l.findIndex(f)], [-1] when no element passes. *)
Fixpoint findIndex {A} (f : A -> bool) (l : list A) : Z :=
  match l with
  | [] => -1
  | x :: r => if f x then 0 else
                let i := findIndex f r in if i =? -1 then -1 else i + 1
  end.

(** ** TaskDB *)

Module TaskDB.

Definition storageKey : string := "meanstack_tasks".

Definition task (id : Z) (title description priority dueDate status
                 createdAt updatedAt : string) : object :=
  <["id" := Num (Int id)]> (<["title" := Str title]> (
  <["description" := Str description]> (<["priority" := Str priority]> (
  <["dueDate" := Str dueDate]> (<["status" := Str status]> (
  <["createdAt" := Str createdAt]> (<["updatedAt" := Str updatedAt]> ∅))))))).

Definition sampleTasks : list object := [
  task 1 "Complete MEAN Stack Project"
    "Build a full-stack task management application using MongoDB, Express.js, Angular, and Node.js"
    "High" "2025-09-15" "Pending" "2025-08-20T10:00:00Z" "2025-08-20T10:00:00Z";
  task 2 "Study Angular Framework"
    "Learn Angular concepts including components, services, routing, and data binding"
    "Medium" "2025-08-30" "Completed" "2025-08-18T14:30:00Z" "2025-08-21T09:15:00Z";
  task 3 "Setup Development Environment"
    "Install Node.js, MongoDB, Angular CLI, and VS Code with necessary extensions"
    "High" "2025-08-22" "Completed" "2025-08-17T11:20:00Z" "2025-08-19T16:45:00Z";
  task 4 "Design Database Schema"
    "Plan the MongoDB collection structure for tasks, users, and categories"
    "Medium" "2025-09-01" "Pending" "2025-08-19T13:10:00Z" "2025-08-19T13:10:00Z";
  task 5 "Create REST API Endpoints"
    "Develop Express.js routes for CRUD operations on tasks"
    "High" "2025-09-05" "Pending" "2025-08-20T08:45:00Z" "2025-08-20T08:45:00Z"
].

(** [initializeDatabase()]. *)
Definition initializeDatabase : M unit :=
  item ← getItem storageKey;
  if negb (truthy item)
  then setItem storageKey (JSON_stringify sampleTasks)
  else mret tt.

(** [getAllTasks()]. *)
Definition getAllTasks : M (list object) :=
  tasks ← getItem storageKey;
  match tasks with
  | Some s => if truthy tasks then lift (JSON_parse s) else mret []
  | None => mret []
  end.

(** The callback [task => task.id === parseInt(id)]. *)
Definition has_id (id : value) (task : object) : bool :=
  strict_equal (get task "id") (Num (parseInt id)).

(** [getTaskById(id)]; [None] is [undefined]. *)
Definition getTaskById (id : value) : M (option object) :=
  tasks ← getAllTasks;
  mret (List.find (has_id id) tasks).

Section with_host.
Context `{Host}.

(** [generateId()]. *)
Definition generateId : M number :=
  tasks ← getAllTasks;
  mret (if (0 <? Z.of_nat (length tasks))
        then number_add (Math_max ((fun t => ToNumber (get t "id")) <$> tasks)) (Int 1)
        else Int 1).

(** [createTask(taskData)]. *)
Definition createTask (taskData : object) : M object :=
  tasks ← getAllTasks;
  id ← generateId;
  createdAt ← Date_toISOString;
  updatedAt ← Date_toISOString;
  let newTask : object :=
    <["updatedAt" := Str updatedAt]> (<["createdAt" := Str createdAt]> (
      taskData ∪ {["id" := Num id]})) in
  _ ← setItem storageKey (JSON_stringify (tasks ++ [newTask]));
  mret newTask.

End with_host.

(** [updateTask(id, updateData)]; [None] is [null]. *)
Definition updateTask (id : value) (updateData : object) : M (option object) :=
  tasks ← getAllTasks;
  let taskIndex := findIndex (has_id id) tasks in
  if negb (taskIndex =? -1) then
    now ← Date_toISOString;
    let i := Z.to_nat taskIndex in
    let tasks' :=
      <[i := <["updatedAt" := Str now]> (updateData ∪ default ∅ (tasks !! i))]> tasks in
    _ ← setItem storageKey (JSON_stringify tasks');
    mret (tasks' !! i)
  else mret None.

(** [deleteTask(id)]. *)
Definition deleteTask (id : value) : M bool :=
  tasks ← getAllTasks;
  let filteredTasks := List.filter (fun task => negb (has_id id task)) tasks in
  _ ← setItem storageKey (JSON_stringify filteredTasks);
  mret true.

(** [new TaskDB()]: the constructor seeds the store. *)
Definition constructor : M unit := initializeDatabase.

End TaskDB.

(** ** TaskAPI *)

Module TaskAPI.

(** The [data] of a response: one task or a list of them. *)
Inductive payload : Type :=
| OneTask (t : object)
| TaskList (l : list object).

(** The response [{success, data, message}]; [data] may be left out. *)
Record response : Type := Response {
  success : bool;
  data : option payload;
  message : string
}.

(** [new TaskAPI()] constructs its [TaskDB]. *)
Definition constructor : M unit := TaskDB.constructor.

(** [await this.delay(ms)]: the caller resumes later; nothing else runs. *)
Definition delay (ms : Z) : M unit := mret tt.

(** [getTasks()]. A rejected promise is a [Throw]. *)
Definition getTasks : M response :=
  _ ← delay 50;
  tasks ← TaskDB.getAllTasks;
  mret (Response true (Some (TaskList tasks)) "Tasks retrieved successfully").

(** [getTask(id)]. *)
Definition getTask (id : value) : M response :=
  _ ← delay 50;
  task ← TaskDB.getTaskById id;
  match task with
  | Some t => mret (Response true (Some (OneTask t)) "Task retrieved successfully")
  | None => mret (Response false None "Task not found")
  end.

Section with_host.
Context `{Host}.

(** [createTask(taskData)]. *)
Definition createTask (taskData : object) : M response :=
  _ ← delay 100;
  try_catch
    (newTask ← TaskDB.createTask taskData;
     mret (Response true (Some (OneTask newTask)) "Task created successfully"))
    (fun error => mret (Response false None "Failed to create task")).

End with_host.

(** [updateTask(id, updateData)]. *)
Definition updateTask (id : value) (updateData : object) : M response :=
  _ ← delay 100;
  try_catch
    (updatedTask ← TaskDB.updateTask id updateData;
     match updatedTask with
     | Some t => mret (Response true (Some (OneTask t)) "Task updated successfully")
     | None => mret (Response false None "Task not found")
     end)
    (fun error => mret (Response false None "Failed to update task")).

(** [deleteTask(id)]. *)
Definition deleteTask (id : value) : M response :=
  _ ← delay 100;
  try_catch
    (_ ← TaskDB.deleteTask id;
     mret (Response true None "Task deleted successfully"))
    (fun error => mret (Response false None "Failed to delete task")).

End TaskAPI.

(** ** AppComponent: the fields, the status filter and the callback of the search *)

Module AppComponent.

(** The fields of the component that filtering reads and writes. *)
Record state : Type := State {
  tasks : list object;
  filteredTasks : list object;
  currentFilter : value;
  currentPage : string
}.

(** The callback [task => task.status === s]. *)
Definition has_status (s : string) (task : object) : bool :=
  strict_equal (get task "status") (Str s).

(** [getFilteredTasksByStatus()]. *)
Definition getFilteredTasksByStatus (this : state) : list object :=
  if strict_equal (currentFilter this) (Str "pending")
  then List.filter (has_status "Pending") (tasks this)
  else if strict_equal (currentFilter this) (Str "completed")
  then List.filter (has_status "Completed") (tasks this)
  else tasks this.

(** The fields after the assignment of [applyCurrentFilter()], which is
    [this.filteredTasks = this.getFilteredTasksByStatus()]. The method goes
    on to render: it is [Component.applyCurrentFilter] below. *)
Definition refiltered (this : state) : state :=
  State (tasks this) (getFilteredTasksByStatus this) (currentFilter this)
        (currentPage this).

(** The fields after the assignments of [setFilter(filter)]; the method is
    [Component.setFilter] below. *)
Definition filtered_by (filter : value) (this : state) : state :=
  refiltered (State (tasks this) (filteredTasks this) filter (currentPage this)).

(** [v.toLowerCase()]: a [TypeError] unless [v] is a string. *)
Definition toLowerCase_of (v : value) : outcome string :=
  match v with
  | Str s => Return (toLowerCase s)
  | _ => Throw TypeError
  end.

(** The callback of the search: the description is read only when the title
    does not match. *)
Definition matches_query (query : string) (task : object) : outcome bool :=
  match toLowerCase_of (get task "title") with
  | Return title =>
      if includes title (toLowerCase query) then Return true
      else match toLowerCase_of (get task "description") with
           | Return description => Return (includes description (toLowerCase query))
           | Throw e => Throw e
           end
  | Throw e => Throw e
  end.

(** [l.filter(f)] for a callback that may throw. *)
Fixpoint filter_throwing {A} (f : A -> outcome bool) (l : list A) : outcome (list A) :=
  match l with
  | [] => Return []
  | x :: r =>
      match f x with
      | Return b =>
          match filter_throwing f r with
          | Return r' => Return (if b then x :: r' else r')
          | Throw e => Throw e
          end
      | Throw e => Throw e
      end
  end.

(** The fields after the assignments of [searchTasks(query)], or the fault
    of the callback of its filter. The method goes on to render: it is
    [Component.searchTasks] below. *)
Definition searched (query : string) (this : state) : outcome state :=
  if blank query then Return (refiltered this)
  else
    match filter_throwing (matches_query query) (getFilteredTasksByStatus this) with
    | Return filtered =>
        Return (State (tasks this) filtered (currentFilter this) (currentPage this))
    | Throw e => Throw e
    end.

End AppComponent.

(** ** AppComponent: the statistics, the rendering and the handlers *)

(** What the page and the engine decide and the component only uses: which
    elements [getElementById] finds, the [value] of the inputs of the forms
    ([None] where there is no such input), and the order in which
    [Array.prototype.sort] leaves the cached tasks for the comparator of
    [renderDashboard], which is a permutation of them whatever the dates. *)
Class Browser : Type := {
  has_element : string -> bool;
  input_value : string -> option string;
  sort_recent : list object -> list object;
  sort_recent_Permutation : forall l, sort_recent l ≡ₚ l
}.

(** [s.trimEnd()] and [s.trim()]. *)
Fixpoint trimEnd (s : string) : string :=
  match s with
  | String c r =>
      match trimEnd r with
      | EmptyString => if is_white_space c then EmptyString else String c EmptyString
      | r' => String c r'
      end
  | EmptyString => EmptyString
  end.

Definition trim (s : string) : string := trimEnd (skip_white_space s).

(** [!v] is false. *)
Definition truthy_value (v : value) : bool :=
  match v with
  | Undefined | Null => false
  | Bool b => b
  | Num (Int z) => negb (z =? 0)
  | Num NaN => false
  | Num NegInfinity | Num Infinity => true
  | Str s => negb (String.eqb s "")
  end.

Module Component.

(** The object [calculateStats] returns. *)
Record stats : Type := Stats {
  total : nat;
  pending : nat;
  completed : nat;
  highPriority : nat
}.

(** The callback [t => t.priority === p]. *)
Definition has_priority (p : string) (task : object) : bool :=
  strict_equal (get task "priority") (Str p).

(** [calculateStats()]. *)
Definition calculateStats (this : AppComponent.state) : stats :=
  Stats (length (AppComponent.tasks this))
        (length (List.filter (AppComponent.has_status "Pending") (AppComponent.tasks this)))
        (length (List.filter (AppComponent.has_status "Completed") (AppComponent.tasks this)))
        (length (List.filter (has_priority "High") (AppComponent.tasks this))).

(** The component with the two fields that the filters do not use. *)
Record component : Type := Self {
  view : AppComponent.state;
  editingTaskId : value;
  deleteTaskId : value
}.

Definition tasks (c : component) : list object := AppComponent.tasks (view c).
Definition filteredTasks (c : component) : list object := AppComponent.filteredTasks (view c).
Definition currentFilter (c : component) : value := AppComponent.currentFilter (view c).
Definition currentPage (c : component) : string := AppComponent.currentPage (view c).

Definition set_view (f : AppComponent.state -> AppComponent.state) (c : component) : component :=
  Self (f (view c)) (editingTaskId c) (deleteTaskId c).
Definition set_tasks (l : list object) : component -> component :=
  set_view (fun v => AppComponent.State l (AppComponent.filteredTasks v)
                       (AppComponent.currentFilter v) (AppComponent.currentPage v)).
Definition set_filteredTasks (l : list object) : component -> component :=
  set_view (fun v => AppComponent.State (AppComponent.tasks v) l
                       (AppComponent.currentFilter v) (AppComponent.currentPage v)).
Definition set_currentFilter (f : value) : component -> component :=
  set_view (fun v => AppComponent.State (AppComponent.tasks v) (AppComponent.filteredTasks v)
                       f (AppComponent.currentPage v)).
Definition set_currentPage (page : string) : component -> component :=
  set_view (fun v => AppComponent.State (AppComponent.tasks v) (AppComponent.filteredTasks v)
                       (AppComponent.currentFilter v) page).
Definition set_editingTaskId (id : value) (c : component) : component :=
  Self (view c) id (deleteTaskId c).
Definition set_deleteTaskId (id : value) (c : component) : component :=
  Self (view c) (editingTaskId c) id.

(** A method reads and writes the component and the world, and returns or
    throws; what it wrote by the time it throws stays written. A handler runs
    to its end before the next one starts: no other handler runs while it
    awaits. *)
Definition Method (A : Type) : Type :=
  component * world -> outcome A * (component * world).

#[global] Instance Method_ret : MRet Method := fun A a s => (Return a, s).

#[global] Instance Method_bind : MBind Method := fun A B f m s =>
  match m s with
  | (Return a, s') => f a s'
  | (Throw e, s') => (Throw e, s')
  end.

(** [try { m } catch (error) { h }] and [try { m } finally { f }]. *)
Definition try_catch {A} (m : Method A) (h : fault -> Method A) : Method A := fun s =>
  match m s with
  | (Return a, s') => (Return a, s')
  | (Throw e, s') => h e s'
  end.

Definition try_finally {A} (m : Method A) (f : Method unit) : Method A := fun s =>
  match m s with
  | (o, s') =>
      match f s' with
      | (Return _, s'') => (o, s'')
      | (Throw e, s'') => (Throw e, s'')
      end
  end.

(** [await] of a call of the facade. *)
Definition call {A} (m : M A) : Method A := fun s =>
  match m (snd s) with
  | (o, w') => (o, (fst s, w'))
  end.

Definition this : Method component := fun s => (Return (fst s), s).
Definition assign (f : component -> component) : Method unit := fun s =>
  (Return tt, (f (fst s), snd s)).
Definition result {A} (o : outcome A) : Method A := fun s => (o, s).

Section with_browser.
Context `{Host} `{Browser}.

(** [showToast(message, type)]: on the page only, guarded by the presence
    of the container. *)
Definition showToast (message type : string) : Method unit := mret tt.

(** [renderTaskCard(task)], for whether it throws: [toLowerCase] is called
    on the status and on the priority. *)
Definition renderTaskCard (task : object) : outcome unit :=
  match get task "status" with
  | Str _ =>
      match get task "priority" with
      | Str _ => Return tt
      | _ => Throw TypeError
      end
  | _ => Throw TypeError
  end.

(** [l.map(task => this.renderTaskCard(task))]. *)
Fixpoint render_cards (l : list object) : outcome unit :=
  match l with
  | [] => Return tt
  | task :: r =>
      match renderTaskCard task with
      | Return _ => render_cards r
      | Throw e => Throw e
      end
  end.

(** [renderTasks()]. *)
Definition renderTasks : Method unit :=
  c ← this;
  if negb (has_element "tasks-container") || negb (has_element "empty-state")
  then mret tt
  else if (length (filteredTasks c) =? 0)%nat then mret tt
  else result (render_cards (filteredTasks c)).

(** [renderDashboard()]: the sort is in place, on the cached list. *)
Definition renderDashboard : Method unit :=
  c ← this;
  let recentTasks := take 3 (sort_recent (tasks c)) in
  _ ← assign (set_tasks (sort_recent (tasks c)));
  if has_element "recent-tasks-container"
  then result (render_cards recentTasks)
  else mret tt.

(** [applyCurrentFilter()], with the rendering that follows. *)
Definition applyCurrentFilter : Method unit :=
  _ ← assign (set_view AppComponent.refiltered);
  c ← this;
  if String.eqb (currentPage c) "tasks" then renderTasks else mret tt.

(** [navigateTo(page)]. *)
Definition navigateTo (page : string) : Method unit :=
  _ ← assign (set_currentPage page);
  if String.eqb page "tasks" then renderTasks
  else if String.eqb page "add-task" then mret tt
  else if String.eqb page "dashboard" then renderDashboard
  else mret tt.

(** The list that [response.data] is; [getTasks] answers with no other. *)
Definition data_list (r : TaskAPI.response) : list object :=
  match TaskAPI.data r with
  | Some (TaskAPI.TaskList l) => l
  | _ => []
  end.

(** [loadTasks()]. *)
Definition loadTasks : Method bool :=
  try_catch
    (response ← call TaskAPI.getTasks;
     if TaskAPI.success response then
       _ ← assign (set_tasks (data_list response));
       _ ← applyCurrentFilter;
       mret true
     else mret false)
    (fun error => _ ← showToast "Failed to load tasks" "error"; mret false).

(** The rendering of the page that is shown, after a change. *)
Definition render_current_page : Method unit :=
  c ← this;
  if String.eqb (currentPage c) "tasks" then renderTasks
  else if String.eqb (currentPage c) "dashboard" then renderDashboard
  else mret tt.

(** [toggleTaskStatus(taskId)]. *)
Definition toggleTaskStatus (taskId : value) : Method unit :=
  c ← this;
  match List.find (TaskDB.has_id taskId) (tasks c) with
  | None => mret tt
  | Some task =>
      let newStatus :=
        if strict_equal (get task "status") (Str "Completed")
        then "Pending" else "Completed" in
      try_catch
        (response ← call (TaskAPI.updateTask taskId {["status" := Str newStatus]});
         if TaskAPI.success response then
           _ ← showToast ("Task marked as " +:+ toLowerCase newStatus +:+ "!") "success";
           _ ← loadTasks;
           render_current_page
         else showToast (TaskAPI.message response) "error")
        (fun error => showToast "Failed to update task status" "error")
  end.

(** [showDeleteModal(taskId)] and [hideDeleteModal()]. *)
Definition showDeleteModal (taskId : value) : Method unit :=
  assign (set_deleteTaskId taskId).
Definition hideDeleteModal : Method unit :=
  assign (set_deleteTaskId Null).

(** [confirmDelete()]. *)
Definition confirmDelete : Method unit :=
  c ← this;
  if negb (truthy_value (deleteTaskId c)) then mret tt
  else
    try_finally
      (try_catch
         (response ← call (TaskAPI.deleteTask (deleteTaskId c));
          if TaskAPI.success response then
            _ ← showToast "Task deleted successfully!" "success";
            _ ← loadTasks;
            render_current_page
          else showToast (TaskAPI.message response) "error")
         (fun error => showToast "Failed to delete task" "error"))
      hideDeleteModal.

(** [document.getElementById(id).value]: a [TypeError] without the input. *)
Definition element_value (id : string) : outcome string :=
  match input_value id with
  | Some v => Return v
  | None => Throw TypeError
  end.

(** The object of the five properties that both forms build. *)
Definition form_data (title description priority dueDate status : string) : object :=
  <["title" := Str title]> (<["description" := Str description]> (
  <["priority" := Str priority]> (<["dueDate" := Str dueDate]> (
  <["status" := Str status]> ∅)))).

(** [getTaskFormData()]. *)
Definition getTaskFormData : Method object :=
  title ← result (element_value "task-title");
  description ← result (element_value "task-description");
  priority ← result (element_value "task-priority");
  dueDate ← result (element_value "task-due-date");
  mret (form_data (trim title) (trim description) priority dueDate "Pending").

(** [getEditTaskFormData()]. *)
Definition getEditTaskFormData : Method object :=
  title ← result (element_value "edit-task-title");
  description ← result (element_value "edit-task-description");
  priority ← result (element_value "edit-task-priority");
  dueDate ← result (element_value "edit-task-due-date");
  status ← result (element_value "edit-task-status");
  mret (form_data (trim title) (trim description) priority dueDate status).

(** [validateTaskForm(data)] and [validateEditTaskForm(data)]: the message
    is on the page only. *)
Definition validateTaskForm (data : object) : Method bool :=
  mret (truthy_value (get data "title")).
Definition validateEditTaskForm (data : object) : Method bool :=
  mret (truthy_value (get data "title")).

(** [handleTaskSubmit()]. *)
Definition handleTaskSubmit : Method unit :=
  formData ← getTaskFormData;
  valid ← validateTaskForm formData;
  if negb valid then mret tt
  else
    try_catch
      (response ← call (TaskAPI.createTask formData);
       if TaskAPI.success response then
         _ ← showToast "Task created successfully!" "success";
         _ ← loadTasks;
         _ ← renderDashboard;
         navigateTo "tasks"
       else showToast (TaskAPI.message response) "error")
      (fun error => showToast "Failed to create task" "error").

(** [handleEditTaskSubmit()]. *)
Definition handleEditTaskSubmit : Method unit :=
  taskId ← result (element_value "edit-task-id");
  formData ← getEditTaskFormData;
  valid ← validateEditTaskForm formData;
  if negb valid then mret tt
  else
    try_catch
      (response ← call (TaskAPI.updateTask (Str taskId) formData);
       if TaskAPI.success response then
         _ ← showToast "Task updated successfully!" "success";
         _ ← loadTasks;
         _ ← renderDashboard;
         navigateTo "tasks"
       else showToast (TaskAPI.message response) "error")
      (fun error => showToast "Failed to update task" "error").

(** [setFilter(filter)] and [searchTasks(query)], with the rendering that
    follows. *)
Definition setFilter (filter : value) : Method unit :=
  _ ← assign (set_currentFilter filter);
  applyCurrentFilter.

Definition searchTasks (query : string) : Method unit :=
  if blank query then applyCurrentFilter
  else
    c ← this;
    filtered ← result (AppComponent.filter_throwing (AppComponent.matches_query query)
                         (AppComponent.getFilteredTasksByStatus (view c)));
    _ ← assign (set_filteredTasks filtered);
    renderTasks.

(** [handleSearch(query)]. *)
Definition handleSearch (query : string) : Method unit := searchTasks query.

(** [init()]; the listeners it registers run the handlers above. *)
Definition init : Method unit :=
  _ ← loadTasks;
  renderDashboard.

(** The fields as the constructor sets them. *)
Definition initial : component :=
  Self (AppComponent.State [] [] (Str "all") "dashboard") Null Null.

(** [new AppComponent()], with the [init()] that it starts. *)
Definition constructor : Method unit :=
  _ ← call TaskAPI.constructor;
  _ ← assign (fun _ => initial);
  init.

End with_browser.

End Component.


(** ** Instants of ISO 8601 strings *)

(** The number that the decimal digits of [s] denote, continuing from [acc];
    [None] when a character is no digit. *)
Fixpoint all_digits (s : string) (acc : Z) : option Z :=
  match s with
  | String c r =>
      match radix_digit 10 c with
      | Some d => all_digits r (acc * 10 + d)
      | None => None
      end
  | EmptyString => Some acc
  end.

(** The number written in the [len] characters of [s] from [start]. *)
Definition digits_at (s : string) (start len : nat) : option Z :=
  let f := substring start len s in
  if (String.length f =? len)%nat then all_digits f 0 else None.

(** Days from 1970-01-01 to the day [d] of month [m] of year [y] of the
    proleptic Gregorian calendar. *)
Definition days_from_civil (y m d : Z) : Z :=
  let y' := if m <=? 2 then y - 1 else y in
  let era := y' / 400 in
  let yoe := y' - era * 400 in
  let mp := if 2 <? m then m - 3 else m + 9 in
  let doy := (153 * mp + 2) / 5 + d - 1 in
  let doe := yoe * 365 + yoe / 4 - yoe / 100 + doy in
  era * 146097 + doe - 719468.

(** The instant, in milliseconds since the epoch, of a string of the form
    [YYYY-MM-DDTHH:mm:ssZ] or [YYYY-MM-DDTHH:mm:ss.sssZ]: the form of the
    seed data and the form [toISOString] prints. The hour 24 is the end of
    the day, with no minute, second or millisecond after it. *)
Definition instant_of_ISO (s : string) : option Z :=
  y ← digits_at s 0 4;
  mo ← digits_at s 5 2;
  d ← digits_at s 8 2;
  h ← digits_at s 11 2;
  mi ← digits_at s 14 2;
  sec ← digits_at s 17 2;
  ms ← (if String.eqb (substring 19 5 s) "Z" then Some 0
        else if String.eqb (substring 19 1 s) "." && String.eqb (substring 23 2 s) "Z"
        then digits_at s 20 3 else None);
  if String.eqb (substring 4 1 s) "-" && String.eqb (substring 7 1 s) "-"
     && String.eqb (substring 10 1 s) "T" && String.eqb (substring 13 1 s) ":"
     && String.eqb (substring 16 1 s) ":"
     && (1 <=? mo) && (mo <=? 12) && (1 <=? d) && (d <=? 31)
     && ((h <? 24) || ((h =? 24) && (mi =? 0) && (sec =? 0) && (ms =? 0)))
     && (mi <? 60) && (sec <? 60)
  then Some ((((days_from_civil y mo d * 24 + h) * 60 + mi) * 60 + sec) * 1000 + ms)
  else None.

(** The timestamp [a] denotes an earlier instant than the timestamp [b]. *)
Definition earlier (a b : value) : Prop :=
  match a, b with
  | Str x, Str y =>
      match instant_of_ISO x, instant_of_ISO y with
      | Some i, Some j => i < j
      | _, _ => False
      end
  | _, _ => False
  end.

(** * Vocabulary of the properties *)

(** What a task reads back as once written to the slot. *)
Definition persisted (o : object) : object := read_object (write_object o).

(** The values JSON text carries as they are. *)
Definition storable (v : value) : Prop :=
  match v with
  | Undefined | Num NaN | Num NegInfinity | Num Infinity => False
  | _ => True
  end.

(** The slot after [setItem(storageKey, v)]. *)
Definition written (v : text) (w : world) : world :=
  World (<[TaskDB.storageKey := v]> (localStorage w)) (clock w) (ticks w).

(** The world one reading of the clock later. *)
Definition ticked (w : world) : world :=
  World (localStorage w) (clock w) (S (ticks w)).

(** Running a storage operation once the collection is known. *)
Ltac run_with H :=
  unfold mbind, M_bind; rewrite ?H; simpl;
  unfold mret, M_ret, mbind, M_bind, setItem, Date_toISOString; simpl.

(** A store whose slot holds a string that is no JSON text. *)
Definition malformed_store : world :=
  World {[TaskDB.storageKey := TMalformed]} (fun _ => "2026-01-01T00:00:00.000Z") 0.

(** The stored collection and the other keys of the storage are the same in
    [w'] as in [w]. *)
Definition same_collection (w w' : world) : Prop :=
  fst (TaskDB.getAllTasks w') = fst (TaskDB.getAllTasks w) /\
  (forall k, k <> TaskDB.storageKey -> localStorage w' !! k = localStorage w !! k).

(** The invariant of the data model: no two tasks of the collection carry
    the same id. *)
Definition unique_ids (ts : list object) : Prop :=
  NoDup ((fun t => get t "id") <$> ts).

(** The fields of [updateTask(id, {status: "Completed"})]. *)
Definition completed : object := {["status" := Str "Completed"]}.

(** A clock that stands still, an empty store with it, the store once
    seeded, and the seeded store after task 1 was completed once. *)
Definition frozen : nat -> string := fun _ => "2026-01-01T00:00:00.000Z".
Definition fresh : world := World ∅ frozen 0.
Definition seeded : world := snd (TaskDB.initializeDatabase fresh).
Definition completed_once : world :=
  snd (TaskDB.updateTask (Num (Int 1)) completed seeded).

(** [k] is the greatest id of the collection, all ids being integers. *)
Definition max_id (ts : list object) (k : Z) : Prop :=
  (exists t, t ∈ ts /\ get t "id" = Num (Int k)) /\
  (forall t, t ∈ ts -> exists n, get t "id" = Num (Int n) /\ n <= k).

(** The id [generateId] computes for the collection [ts]. *)
Definition generated `{Host} (ts : list object) : number :=
  if 0 <? Z.of_nat (length ts)
  then number_add (Math_max ((fun t => ToNumber (get t "id")) <$> ts)) (Int 1)
  else Int 1.

(** A host for the closed examples below, in which no string is ever
    converted to a Number. *)
Definition example_host : Host := {| StringToNumber := fun _ => NaN |}.

(** The seeded store after [createTask] was given fields that carry the id
    of task 2. *)
Definition second_task_2 : object :=
  <["id" := Num (Int 2)]> {["title" := Str "Second task 2"]}.
Definition duplicated : world :=
  snd (@TaskDB.createTask example_host second_task_2 seeded).

(** The response of a caught fault. *)
Definition failure (m : string) : TaskAPI.response := TaskAPI.Response false None m.

Ltac run_api :=
  unfold TaskAPI.getTasks, TaskAPI.getTask, TaskAPI.createTask, TaskAPI.updateTask,
    TaskAPI.deleteTask, TaskAPI.delay, try_catch, mbind, M_bind, mret, M_ret; simpl.

(** [q] occurs in [s]. *)
Definition occurs_in (q s : string) : Prop :=
  exists pre post, s = pre +:+ q +:+ post.

(** The query is a case-insensitive substring of the title or of the
    description of the task. *)
Definition shown (query : string) (t : object) : Prop :=
  exists s, (get t "title" = Str s \/ get t "description" = Str s) /\
            occurs_in (toLowerCase query) (toLowerCase s).


(** A task whose title and description are strings. *)
Definition searchable (t : object) : Prop :=
  exists title description,
    get t "title" = Str title /\ get t "description" = Str description.

Definition shownb (query : string) (t : object) : bool :=
  match get t "title" with
  | Str s => includes (toLowerCase s) (toLowerCase query)
  | _ => false
  end ||
  match get t "description" with
  | Str s => includes (toLowerCase s) (toLowerCase query)
  | _ => false
  end.

(** A cached list of one task, no filter, on the page of the tasks. *)
Definition hello : object :=
  <["title" := Str "Hello"]> (<["description" := Str "World"]> (
  <["priority" := Str "Low"]> (<["status" := Str "Pending"]> ∅))).
Definition one_task : AppComponent.state :=
  AppComponent.State [hello] [hello] (Str "all") "tasks".
Definition one_task_shown : Component.component := Component.Self one_task Null Null.

(** The integer that the digits of [d] denote, continuing from [acc]. *)
Fixpoint uint_value (d : uint) (acc : Z) : Z :=
  match d with
  | Nil => acc
  | D0 d => uint_value d (acc * 10)
  | D1 d => uint_value d (acc * 10 + 1)
  | D2 d => uint_value d (acc * 10 + 2)
  | D3 d => uint_value d (acc * 10 + 3)
  | D4 d => uint_value d (acc * 10 + 4)
  | D5 d => uint_value d (acc * 10 + 5)
  | D6 d => uint_value d (acc * 10 + 6)
  | D7 d => uint_value d (acc * 10 + 7)
  | D8 d => uint_value d (acc * 10 + 8)
  | D9 d => uint_value d (acc * 10 + 9)
  end.

(** The string starts with no decimal digit. *)
Definition no_digit_head (s : string) : Prop :=
  match s with
  | String c _ => radix_digit 10 c = None
  | EmptyString => True
  end.

(** The string starts with neither [x] nor [X]. *)
Definition no_x_head (s : string) : Prop :=
  match s with
  | String c _ => Ascii.eqb c "x" || Ascii.eqb c "X" = false
  | EmptyString => True
  end.

(** The task carries the integer id [k]. *)
Definition id_is (k : Z) (t : object) : Prop := t !! "id" = Some (Num (Int k)).

#[global] Instance id_is_dec k t : Decision (id_is k t).
Proof. unfold id_is. apply _. Defined.

(** The keys of the storage other than the slot of the tasks, and the clock,
    are in [w'] as in [w]; the clock was read in between or not. *)
Definition only_slot (w w' : world) : Prop :=
  (forall k, k <> TaskDB.storageKey -> localStorage w' !! k = localStorage w !! k) /\
  clock w' = clock w /\ (ticks w <= ticks w')%nat.

(** Every task of the collection has an integer as id. *)
Definition integer_ids (ts : list object) : Prop :=
  forall t, t ∈ ts -> exists n, get t "id" = Num (Int n).

(** Every task of the collection has as id an integer from [-2^53], below
    [2^53]: an integer [k] that the addition of doubles takes to [k + 1]. *)
Definition safe_ids (ts : list object) : Prop :=
  forall t, t ∈ ts -> exists n, get t "id" = Num (Int n) /\ - two_53 <= n < two_53.

(** A store whose slot holds one task that has no id. *)
Definition without_id : world := written (JSON_stringify [hello]) fresh.

(** A task that [renderTaskCard] renders: its status and its priority are
    strings. *)
Definition renderable (t : object) : Prop :=
  exists status priority,
    get t "status" = Str status /\ get t "priority" = Str priority.

(** The component [c'] is [c] with the cached tasks in some other order. *)
Definition reordered (c c' : Component.component) : Prop :=
  Component.tasks c' ≡ₚ Component.tasks c /\
  Component.filteredTasks c' = Component.filteredTasks c /\
  Component.currentFilter c' = Component.currentFilter c /\
  Component.currentPage c' = Component.currentPage c /\
  Component.editingTaskId c' = Component.editingTaskId c /\
  Component.deleteTaskId c' = Component.deleteTaskId c.

(** The component once [tasks] were loaded into it. *)
Definition loaded (ts : list object) (c : Component.component) : Component.component :=
  Component.set_view AppComponent.refiltered (Component.set_tasks ts c).

(** The status that [toggleTaskStatus] asks for, for a task of status [v]. *)
Definition toggled (v : value) : string :=
  if strict_equal v (Str "Completed") then "Pending" else "Completed".

(** A page that has every element, whose task form holds the given title and
    whose edit form is for the task [id]; its sort keeps the order as it is. *)
Definition example_input (id title : string) (element : string) : option string :=
  if String.eqb element "task-title" then Some title
  else if String.eqb element "task-description" then Some " Due on Friday "
  else if String.eqb element "task-priority" then Some "High"
  else if String.eqb element "task-due-date" then Some "2026-02-01"
  else if String.eqb element "edit-task-id" then Some id
  else if String.eqb element "edit-task-title" then Some title
  else if String.eqb element "edit-task-description" then Some "Edited"
  else if String.eqb element "edit-task-priority" then Some "Low"
  else if String.eqb element "edit-task-due-date" then Some "2026-03-01"
  else if String.eqb element "edit-task-status" then Some "In Progress"
  else None.

(** The component once the sample tasks were loaded into it. *)
Definition sample_component : Component.component :=
  loaded TaskDB.sampleTasks Component.initial.

(** The page has the four inputs of the task form, and the title in it is
    not blank. *)
Definition form_filled `{Browser} : Prop :=
  exists title description priority dueDate,
    input_value "task-title" = Some title /\
    input_value "task-description" = Some description /\
    input_value "task-priority" = Some priority /\
    input_value "task-due-date" = Some dueDate /\
    blank title = false.

Definition example_browser (id title : string) : Browser :=
  {| has_element := fun _ => true;
     input_value := example_input id title;
     sort_recent := fun l => l;
     sort_recent_Permutation := fun l => Permutation_refl l |}.

(** * Properties *)

(** ** Reading and writing the slot *)

Lemma of_json_storable j : storable (of_json j).
Proof. by destruct j. Qed.

Lemma to_json_of_json j : to_json (of_json j) = Some j.
Proof. by destruct j. Qed.

Lemma write_read_object r : write_object (read_object r) = r.
Proof.
  apply map_eq; intros k. unfold write_object, read_object.
  rewrite lookup_omap, lookup_fmap.
  destruct (r !! k) as [j|]; simpl; [apply to_json_of_json | done].
Qed.

Lemma persisted_lookup o k :
  persisted o !! k = of_json <$> (o !! k ≫= to_json).
Proof.
  unfold persisted, write_object, read_object.
  rewrite lookup_fmap, lookup_omap. by destruct (o !! k ≫= to_json).
Qed.

Lemma persisted_storable o :
  map_Forall (fun _ v => storable v) o -> persisted o = o.
Proof.
  intros Ho. apply map_eq; intros k. rewrite persisted_lookup.
  destruct (o !! k) as [v|] eqn:Hk; simpl; [|done].
  specialize (Ho k v Hk). by destruct v as [| | |[]|].
Qed.

Lemma read_object_storable r : map_Forall (fun _ v => storable v) (read_object r).
Proof.
  intros k v. unfold read_object. rewrite lookup_fmap.
  destruct (r !! k); simpl; [|done]. intros [= <-]. apply of_json_storable.
Qed.

Lemma persisted_read_object r : persisted (read_object r) = read_object r.
Proof. unfold persisted. by rewrite write_read_object. Qed.

Lemma getAllTasks_unfold w :
  TaskDB.getAllTasks w =
  (match localStorage w !! TaskDB.storageKey with
   | Some (TArray l) => Return (read_object <$> l)
   | Some TMalformed => Throw SyntaxError
   | Some TEmpty | None => Return []
   end, w).
Proof.
  unfold TaskDB.getAllTasks, mbind, M_bind, getItem, lift, mret, M_ret; simpl.
  by destruct (localStorage w !! TaskDB.storageKey) as [[| |l]|].
Qed.

Lemma getAllTasks_written l w :
  TaskDB.getAllTasks (written (JSON_stringify l) w) =
  (Return (persisted <$> l), written (JSON_stringify l) w).
Proof.
  rewrite getAllTasks_unfold. unfold written; simpl.
  rewrite lookup_insert_eq. unfold JSON_stringify.
  by rewrite <- list_fmap_compose.
Qed.

Lemma getAllTasks_persisted w ts :
  TaskDB.getAllTasks w = (Return ts, w) -> persisted <$> ts = ts.
Proof.
  rewrite getAllTasks_unfold.
  destruct (localStorage w !! TaskDB.storageKey) as [[| |l]|];
    intros [= <-]; try done.
  rewrite <- list_fmap_compose. apply list_fmap_ext.
  intros i r _. apply persisted_read_object.
Qed.

(** ** Reading the collection *)

(** C3, as stated, fails: on a slot holding a non-empty string that is no
    JSON text, [getAllTasks] raises the [SyntaxError] of [JSON.parse]
    instead of returning the empty sequence. *)
Lemma C3_getAll_raises_on_malformed :
  TaskDB.getAllTasks malformed_store = (Throw SyntaxError, malformed_store) /\
  ~ (exists ts, TaskDB.getAllTasks malformed_store = (Return ts, malformed_store)).
Proof.
  split; [reflexivity|]. intros [ts Hts]. vm_compute in Hts. discriminate.
Qed.

(** C3, amended: [getAllTasks] never changes the world; it returns the whole
    stored collection when the slot holds the JSON text of one, the empty
    sequence when nothing is stored under the key or the stored string is
    empty, and raises [SyntaxError] when the slot holds a non-empty string
    that is no JSON text. *)
Theorem C3_getAll_by_slot (w : world) :
  (forall l, localStorage w !! TaskDB.storageKey = Some (TArray l) ->
     TaskDB.getAllTasks w = (Return (read_object <$> l), w) /\
     write_object <$> (read_object <$> l) = l) /\
  (localStorage w !! TaskDB.storageKey = None \/
   localStorage w !! TaskDB.storageKey = Some TEmpty ->
     TaskDB.getAllTasks w = (Return [], w)) /\
  (localStorage w !! TaskDB.storageKey = Some TMalformed ->
     TaskDB.getAllTasks w = (Throw SyntaxError, w)).
Proof.
  rewrite getAllTasks_unfold. split; [|split].
  - intros l ->. split; [done|].
    rewrite <- list_fmap_compose. rewrite <- (list_fmap_id l) at 2.
    apply list_fmap_ext. intros i r _. apply write_read_object.
  - by intros [-> | ->].
  - by intros ->.
Qed.

(** ** Seeding *)

Lemma initializeDatabase_unfold w :
  TaskDB.initializeDatabase w =
  (Return tt,
   if truthy (localStorage w !! TaskDB.storageKey) then w
   else written (JSON_stringify TaskDB.sampleTasks) w).
Proof.
  unfold TaskDB.initializeDatabase, mbind, M_bind, getItem; simpl.
  by destruct (truthy _).
Qed.

Lemma sampleTasks_persisted : persisted <$> TaskDB.sampleTasks = TaskDB.sampleTasks.
Proof.
  unfold TaskDB.sampleTasks. simpl.
  rewrite !persisted_storable; [done|..];
    unfold TaskDB.task; repeat (apply map_Forall_insert_2; [done|]);
    apply map_Forall_empty.
Qed.

(** C4: on a store with nothing under the key, [initializeDatabase] then
    [getAllTasks] returns exactly the five seed tasks, with ids 1 to 5 and
    the five titles; on a store whose slot holds a non-empty string,
    [initializeDatabase] changes nothing; in particular a second
    [initializeDatabase] never changes what the first left. *)
Theorem C4_seeding (w : world) :
  (localStorage w !! TaskDB.storageKey = None ->
   exists w1 ts,
     TaskDB.initializeDatabase w = (Return tt, w1) /\
     TaskDB.getAllTasks w1 = (Return ts, w1) /\
     ts = TaskDB.sampleTasks /\
     length ts = 5%nat /\
     (fun t => get t "id") <$> ts =
       [Num (Int 1); Num (Int 2); Num (Int 3); Num (Int 4); Num (Int 5)] /\
     (fun t => get t "title") <$> ts =
       [Str "Complete MEAN Stack Project"; Str "Study Angular Framework";
        Str "Setup Development Environment"; Str "Design Database Schema";
        Str "Create REST API Endpoints"]) /\
  (truthy (localStorage w !! TaskDB.storageKey) = true ->
   TaskDB.initializeDatabase w = (Return tt, w)) /\
  (forall w1, TaskDB.initializeDatabase w = (Return tt, w1) ->
   TaskDB.initializeDatabase w1 = (Return tt, w1)).
Proof.
  rewrite initializeDatabase_unfold. repeat split.
  - intros Hnone. rewrite Hnone. simpl.
    exists (written (JSON_stringify TaskDB.sampleTasks) w), TaskDB.sampleTasks.
    rewrite getAllTasks_written, sampleTasks_persisted.
    repeat split; reflexivity.
  - by intros ->.
  - intros w1 [= <-]. rewrite initializeDatabase_unfold.
    destruct (truthy (localStorage w !! TaskDB.storageKey)) eqn:Ht.
    + by rewrite Ht.
    + unfold written at 1; simpl. by rewrite lookup_insert_eq.
Qed.

Lemma getAllTasks_seeded : TaskDB.getAllTasks seeded = (Return TaskDB.sampleTasks, seeded).
Proof.
  unfold seeded. rewrite initializeDatabase_unfold.
  replace (truthy (localStorage fresh !! TaskDB.storageKey)) with false by reflexivity.
  cbn [snd]. by rewrite getAllTasks_written, sampleTasks_persisted.
Qed.

Lemma elem_of_sampleTasks (P : object -> Prop) :
  Forall P TaskDB.sampleTasks -> forall t, t ∈ TaskDB.sampleTasks -> P t.
Proof. intros HP t Ht. by apply (proj1 (Forall_forall P _) HP). Qed.

Lemma max_id_sampleTasks : max_id TaskDB.sampleTasks 5.
Proof.
  split.
  - exists (TaskDB.task 5 "Create REST API Endpoints"
      "Develop Express.js routes for CRUD operations on tasks"
      "High" "2025-09-05" "Pending" "2025-08-20T08:45:00Z" "2025-08-20T08:45:00Z").
    split; [|reflexivity]. unfold TaskDB.sampleTasks. set_solver.
  - apply elem_of_sampleTasks. unfold TaskDB.sampleTasks.
    repeat (constructor; [eexists; split; [reflexivity|lia]|]). constructor.
Qed.

(** ** [find], [findIndex] and [filter] *)

Section array_methods.
Context {A : Type} (f : A -> bool).

Lemma findIndex_none (l : list A) :
  (forall x, x ∈ l -> f x = false) -> findIndex f l = -1.
Proof.
  induction l as [|x r IH]; intros Hl; simpl; [done|].
  rewrite (Hl x) by apply list_elem_of_here.
  rewrite IH; [done|]. intros y Hy. apply Hl. by apply list_elem_of_further.
Qed.

(** The index [findIndex] returns is that of the first element that passes. *)
Lemma findIndex_some (l : list A) :
  (exists x, x ∈ l /\ f x = true) ->
  exists (i : nat) (x : A),
    findIndex f l = Z.of_nat i /\ l !! i = Some x /\ f x = true /\
    (forall j y, (j < i)%nat -> l !! j = Some y -> f y = false).
Proof.
  induction l as [|a r IH]; intros (x & Hx & Hfx).
  - by apply elem_of_nil in Hx.
  - simpl. destruct (f a) eqn:Ha.
    + exists 0%nat, a. repeat split; try done. intros j y Hj. lia.
    + apply elem_of_cons in Hx as [-> | Hx]; [congruence|].
      destruct IH as (i & y & Hi & Hy & Hfy & Hmin); [by exists x|].
      exists (S i), y. rewrite Hi.
      replace (Z.of_nat i =? -1) with false by (symmetry; apply Z.eqb_neq; lia).
      repeat split; [lia|done|done|].
      intros [|j] z Hj; simpl; [by intros [= <-]|].
      apply Hmin. lia.
Qed.

Lemma find_none (l : list A) :
  (forall x, x ∈ l -> f x = false) -> List.find f l = None.
Proof.
  induction l as [|x r IH]; intros Hl; simpl; [done|].
  rewrite (Hl x) by apply list_elem_of_here.
  apply IH. intros y Hy. apply Hl. by apply list_elem_of_further.
Qed.

Lemma filter_all (l : list A) :
  (forall x, x ∈ l -> f x = true) -> List.filter f l = l.
Proof.
  induction l as [|x r IH]; intros Hl; simpl; [done|].
  rewrite (Hl x) by apply list_elem_of_here.
  f_equal. apply IH. intros y Hy. apply Hl. by apply list_elem_of_further.
Qed.

Lemma filter_filter_same (l : list A) : List.filter f (List.filter f l) = List.filter f l.
Proof.
  apply filter_all. intros x Hx. apply list_elem_of_In, filter_In in Hx. tauto.
Qed.

End array_methods.

Lemma List_filter_sublist {A} (f : A -> bool) (l : list A) : sublist (List.filter f l) l.
Proof.
  induction l as [|x r IH]; simpl; [constructor|].
  destruct (f x); by constructor.
Qed.

Lemma find_first {A} (f : A -> bool) (l : list A) i x :
  l !! i = Some x -> f x = true ->
  (forall j y, (j < i)%nat -> l !! j = Some y -> f y = false) ->
  List.find f l = Some x.
Proof.
  revert i. induction l as [|a r IH]; intros i Hi Hx Hmin; [done|].
  destruct i as [|i]; simpl in *.
  - injection Hi as ->. by rewrite Hx.
  - rewrite (Hmin 0%nat a) by (done || lia).
    apply (IH i); [done..|]. intros j y Hj Hy. apply (Hmin (S j) y); [lia|done].
Qed.

Lemma filter_fmap_commute {A} (f : A -> bool) (g : A -> A) (l : list A) :
  (forall x, x ∈ l -> g x = x) -> g <$> List.filter f l = List.filter f l.
Proof.
  intros Hg. rewrite <- (list_fmap_id (List.filter f l)) at 2.
  apply list_fmap_ext. intros i x Hx. apply Hg.
  apply list_elem_of_lookup_2 in Hx. apply list_elem_of_In, filter_In in Hx.
  apply list_elem_of_In. tauto.
Qed.

Lemma fmap_fixed_elem {A} (g : A -> A) (l : list A) x :
  g <$> l = l -> x ∈ l -> g x = x.
Proof.
  intros Hl Hx. apply list_elem_of_lookup in Hx as [i Hi].
  assert ((g <$> l) !! i = Some (g x)) as Hg by (by rewrite list_lookup_fmap, Hi).
  rewrite Hl, Hi in Hg. congruence.
Qed.

(** ** Ids that match no task *)

(** The three operations on an id that no task of the collection has. *)
Lemma operations_without_match (w : world) (ts : list object) (id : value) (fields : object) :
  TaskDB.getAllTasks w = (Return ts, w) ->
  (forall t, t ∈ ts -> TaskDB.has_id id t = false) ->
  TaskDB.getTaskById id w = (Return None, w) /\
  TaskDB.updateTask id fields w = (Return None, w) /\
  exists w', TaskDB.deleteTask id w = (Return true, w') /\
             TaskDB.getAllTasks w' = (Return ts, w') /\
             same_collection w w' /\
             clock w' = clock w /\ ticks w' = ticks w.
Proof.
  intros Hget Habs. repeat split.
  - unfold TaskDB.getTaskById. run_with Hget. by rewrite find_none.
  - unfold TaskDB.updateTask. run_with Hget. by rewrite findIndex_none.
  - exists (written (JSON_stringify ts) w).
    assert (List.filter (fun t => negb (TaskDB.has_id id t)) ts = ts) as Hf.
    { apply filter_all. intros t Ht. by rewrite Habs. }
    assert (TaskDB.getAllTasks (written (JSON_stringify ts) w) =
            (Return ts, written (JSON_stringify ts) w)) as Hget'.
    { rewrite getAllTasks_written. by rewrite (getAllTasks_persisted w). }
    repeat split; try done.
    + unfold TaskDB.deleteTask. run_with Hget. by rewrite Hf.
    + by rewrite Hget', Hget.
    + intros k Hk. unfold written; simpl. by rewrite lookup_insert_ne.
Qed.

(** C6: when no task of the collection has the id, [getTaskById] returns
    [undefined] and [updateTask] returns [null], both without touching the
    world, and [deleteTask] returns [true] and leaves the collection as it
    was. Nothing is thrown. *)
Theorem C6_absent_id (w : world) (ts : list object) (id : value) (fields : object) :
  TaskDB.getAllTasks w = (Return ts, w) ->
  (forall t, t ∈ ts -> TaskDB.has_id id t = false) ->
  TaskDB.getTaskById id w = (Return None, w) /\
  TaskDB.updateTask id fields w = (Return None, w) /\
  exists w', TaskDB.deleteTask id w = (Return true, w') /\
             TaskDB.getAllTasks w' = (Return ts, w') /\
             same_collection w w' /\
             clock w' = clock w /\ ticks w' = ticks w.
Proof. apply operations_without_match. Qed.

(** ** Deleting *)

Lemma strict_equal_Int v k : strict_equal v (Num (Int k)) = true -> v = Num (Int k).
Proof.
  destruct v as [| | |[| | |z]|]; simpl; try done.
  intros Hz. apply Z.eqb_eq in Hz. by subst.
Qed.


Lemma strict_equal_NaN v : strict_equal v (Num NaN) = false.
Proof. by destruct v as [| | |[]|]. Qed.

Lemma has_id_get id t : TaskDB.has_id id t = true -> get t "id" = Num (parseInt id).
Proof.
  unfold TaskDB.has_id. destruct (parseInt id) as [| | |k] eqn:Hk.
  - by rewrite strict_equal_NaN.
  - by destruct (get t "id") as [| | |[]|].
  - by destruct (get t "id") as [| | |[]|].
  - apply strict_equal_Int.
Qed.

(** With unique ids, removing the tasks that carry the id removes one task. *)
Lemma delete_unique_length id (ts : list object) :
  unique_ids ts ->
  (exists t, t ∈ ts /\ TaskDB.has_id id t = true) ->
  S (length (List.filter (fun t => negb (TaskDB.has_id id t)) ts)) = length ts.
Proof.
  unfold unique_ids. induction ts as [|a r IH]; intros Hnd (t & Ht & Hid).
  - by apply elem_of_nil in Ht.
  - rewrite fmap_cons in Hnd. apply NoDup_cons in Hnd as [Ha Hr]. simpl.
    destruct (TaskDB.has_id id a) eqn:Hida; simpl.
    + f_equal. f_equal. apply filter_all. intros x Hx.
      destruct (TaskDB.has_id id x) eqn:Hidx; [|done].
      exfalso. apply Ha. apply has_id_get in Hida, Hidx.
      rewrite Hida, <- Hidx. apply list_elem_of_fmap. by exists x.
    + f_equal. apply IH; [done|].
      apply elem_of_cons in Ht as [-> | Ht]; [congruence|]. by exists t.
Qed.

Lemma delete_shortens id (ts : list object) :
  (exists t, t ∈ ts /\ TaskDB.has_id id t = true) ->
  (length (List.filter (fun t => negb (TaskDB.has_id id t)) ts) < length ts)%nat.
Proof.
  induction ts as [|a r IH]; intros (t & Ht & Hid).
  - by apply elem_of_nil in Ht.
  - simpl. destruct (TaskDB.has_id id a) eqn:Hida; simpl.
    + pose proof (List_filter_sublist (fun t => negb (TaskDB.has_id id t)) r) as Hs.
      apply sublist_length in Hs. lia.
    + apply elem_of_cons in Ht as [-> | Ht]; [congruence|].
      apply Nat.succ_lt_mono in IH; [done|by exists t].
Qed.

(** What [deleteTask] does on a readable store. *)
Lemma deleteTask_run (w : world) (ts : list object) (id : value) :
  TaskDB.getAllTasks w = (Return ts, w) ->
  let ts1 := List.filter (fun t => negb (TaskDB.has_id id t)) ts in
  TaskDB.deleteTask id w = (Return true, written (JSON_stringify ts1) w) /\
  TaskDB.getAllTasks (written (JSON_stringify ts1) w) =
    (Return ts1, written (JSON_stringify ts1) w).
Proof.
  intros Hget ts1. split.
  - unfold TaskDB.deleteTask. by run_with Hget.
  - rewrite getAllTasks_written. f_equal. f_equal.
    apply filter_fmap_commute. intros x Hx.
    apply (fmap_fixed_elem _ ts); [|done]. by apply (getAllTasks_persisted w).
Qed.

(** C7, amended: on a collection that contains a task with the id, the
    first [deleteTask] removes every task that has the id, which shortens
    the collection, by exactly one task when the ids of the collection are
    unique; a second [deleteTask] of the same id changes nothing at all. *)
Theorem C7_delete_idempotent (w : world) (ts : list object) (id : value) :
  TaskDB.getAllTasks w = (Return ts, w) ->
  (exists t, t ∈ ts /\ TaskDB.has_id id t = true) ->
  exists w1 ts1,
    TaskDB.deleteTask id w = (Return true, w1) /\
    TaskDB.getAllTasks w1 = (Return ts1, w1) /\
    ts1 = List.filter (fun t => negb (TaskDB.has_id id t)) ts /\
    (length ts1 < length ts)%nat /\
    (unique_ids ts -> S (length ts1) = length ts) /\
    TaskDB.deleteTask id w1 = (Return true, w1).
Proof.
  intros Hget Hin.
  destruct (deleteTask_run w ts id Hget) as [Hdel Hget1].
  set (ts1 := List.filter (fun t => negb (TaskDB.has_id id t)) ts) in *.
  exists (written (JSON_stringify ts1) w), ts1. repeat split; try done.
  - by apply delete_shortens.
  - intros Hnd. by apply delete_unique_length.
  - destruct (deleteTask_run _ ts1 id Hget1) as [Hdel2 _]. cbv zeta in Hdel2.
    assert (List.filter (fun t => negb (TaskDB.has_id id t)) ts1 = ts1) as Hsame
      by apply filter_filter_same.
    rewrite Hdel2, Hsame. unfold written; simpl. by rewrite insert_insert_eq.
Qed.

Lemma has_id_existsb id (l : list object) :
  existsb (TaskDB.has_id id) l = true ->
  exists t, t ∈ l /\ TaskDB.has_id id t = true.
Proof.
  intros (t & Ht & Hid)%existsb_exists. exists t. by rewrite list_elem_of_In.
Qed.

(** ** Updating *)

Lemma persisted_fixed_storable o :
  persisted o = o -> map_Forall (fun _ v => storable v) o.
Proof. intros <-. apply read_object_storable. Qed.

Lemma getAllTasks_storable w ts t :
  TaskDB.getAllTasks w = (Return ts, w) -> t ∈ ts ->
  map_Forall (fun _ v => storable v) t.
Proof.
  intros Hget Ht. apply persisted_fixed_storable.
  apply (fmap_fixed_elem _ ts); [|done]. by apply (getAllTasks_persisted w).
Qed.

(** What [updateTask] does to a collection that has a task with the id. *)
Lemma updateTask_found (w : world) (ts : list object) (id : value) (fields : object) :
  TaskDB.getAllTasks w = (Return ts, w) ->
  (exists t, t ∈ ts /\ TaskDB.has_id id t = true) ->
  exists (i : nat) (old : object),
    ts !! i = Some old /\ TaskDB.has_id id old = true /\
    (forall j t, (j < i)%nat -> ts !! j = Some t -> TaskDB.has_id id t = false) /\
    let new : object := <["updatedAt" := Str (clock w (ticks w))]> (fields ∪ old) in
    TaskDB.updateTask id fields w =
      (Return (Some new), written (JSON_stringify (<[i := new]> ts)) (ticked w)).
Proof.
  intros Hget Hin.
  destruct (findIndex_some (TaskDB.has_id id) ts Hin) as (i & old & Hi & Hold & Hid & Hmin).
  exists i, old. repeat split; try done.
  unfold TaskDB.updateTask. run_with Hget. rewrite Hi.
  replace (Z.of_nat i =? -1) with false by (symmetry; apply Z.eqb_neq; lia).
  simpl. rewrite Nat2Z.id, Hold. simpl.
  rewrite list_lookup_insert_eq; [done|]. by apply lookup_lt_Some in Hold.
Qed.

(** [getTaskById] and [updateTask] when the first task that passes is the
    task [old] at index [i]. *)
Lemma getTaskById_at (w : world) (ts : list object) (id : value) i old :
  TaskDB.getAllTasks w = (Return ts, w) ->
  ts !! i = Some old -> TaskDB.has_id id old = true ->
  (forall j t, (j < i)%nat -> ts !! j = Some t -> TaskDB.has_id id t = false) ->
  TaskDB.getTaskById id w = (Return (Some old), w).
Proof.
  intros Hget Hi Hid Hmin. unfold TaskDB.getTaskById. run_with Hget.
  by rewrite (find_first _ ts i old).
Qed.

Lemma updateTask_at (w : world) (ts : list object) (id : value) (fields : object) i old :
  TaskDB.getAllTasks w = (Return ts, w) ->
  ts !! i = Some old -> TaskDB.has_id id old = true ->
  (forall j t, (j < i)%nat -> ts !! j = Some t -> TaskDB.has_id id t = false) ->
  let new : object := <["updatedAt" := Str (clock w (ticks w))]> (fields ∪ old) in
  TaskDB.updateTask id fields w =
    (Return (Some new), written (JSON_stringify (<[i := new]> ts)) (ticked w)).
Proof.
  intros Hget Hi Hid Hmin.
  destruct (updateTask_found w ts id fields Hget) as (i' & old' & Hi' & Hold' & Hm & Hrun).
  { exists old. split; [by apply list_elem_of_lookup_2 in Hi|done]. }
  assert (i' = i) as ->.
  { destruct (Nat.lt_trichotomy i' i) as [Hlt | [-> | Hlt]]; [|done|].
    - rewrite (Hmin i' old' Hlt Hi') in Hold'. done.
    - rewrite (Hm i old Hlt Hi) in Hid. done. }
  assert (old' = old) as -> by congruence. exact Hrun.
Qed.

(** C1, amended: on a collection that has a task with the id,
    [updateTask(id, {status: "Completed"})] returns the first such task, no
    task before it in the collection having the id, with [status] and
    [updatedAt] replaced and every other property as it was, stores the
    collection with that one task replaced and every other task as it was,
    and touches no other key of the storage. The new [updatedAt] is the
    reading of the clock: it is later than the old one exactly when the
    reading is. *)
Theorem C1_update_status (w : world) (ts : list object) (id : value) :
  TaskDB.getAllTasks w = (Return ts, w) ->
  (exists t, t ∈ ts /\ TaskDB.has_id id t = true) ->
  exists (i : nat) (old new : object) (w' : world),
    ts !! i = Some old /\ TaskDB.has_id id old = true /\
    (forall j t, (j < i)%nat -> ts !! j = Some t -> TaskDB.has_id id t = false) /\
    TaskDB.updateTask id completed w = (Return (Some new), w') /\
    new = <["updatedAt" := Str (clock w (ticks w))]> (<["status" := Str "Completed"]> old) /\
    new !! "status" = Some (Str "Completed") /\
    new !! "updatedAt" = Some (Str (clock w (ticks w))) /\
    (forall k, k <> "status" -> k <> "updatedAt" -> new !! k = old !! k) /\
    Forall (fun k => new !! k = old !! k)
      ["id"; "title"; "description"; "priority"; "dueDate"; "createdAt"] /\
    TaskDB.getAllTasks w' = (Return (<[i := new]> ts), w') /\
    (forall j, j <> i -> <[i := new]> ts !! j = ts !! j) /\
    length (<[i := new]> ts) = length ts /\
    (forall k, k <> TaskDB.storageKey -> localStorage w' !! k = localStorage w !! k) /\
    (earlier (get old "updatedAt") (get new "updatedAt") <->
     earlier (get old "updatedAt") (Str (clock w (ticks w)))).
Proof.
  intros Hget Hin.
  destruct (updateTask_found w ts id completed Hget Hin)
    as (i & old & Hold & Hid & Hmin & Hrun).
  set (new := <["updatedAt" := Str (clock w (ticks w))]>
                (<["status" := Str "Completed"]> old) : object).
  assert (<["updatedAt" := Str (clock w (ticks w))]> (completed ∪ old) = new) as Hnew.
  { unfold new, completed. by rewrite <- insert_union_singleton_l. }
  simpl in Hrun. rewrite Hnew in Hrun.
  assert (forall k, k <> "status" -> k <> "updatedAt" -> new !! k = old !! k) as Hframe.
  { intros k Hs Hu. unfold new. by rewrite !lookup_insert_ne. }
  exists i, old, new, (written (JSON_stringify (<[i := new]> ts)) (ticked w)).
  repeat split; try done.
  - unfold new. by rewrite lookup_insert_ne, lookup_insert_eq.
  - unfold new. by rewrite lookup_insert_eq.
  - repeat (constructor; [by apply Hframe|]). constructor.
  - rewrite getAllTasks_written. f_equal. f_equal.
    rewrite list_fmap_insert, (getAllTasks_persisted w ts Hget). f_equal.
    apply persisted_storable. unfold new.
    repeat (apply map_Forall_insert_2; [done|]).
    apply (getAllTasks_storable w ts); [done|].
    by apply list_elem_of_lookup_2 in Hold.
  - intros j Hj. by apply list_lookup_insert_ne.
  - apply length_insert.
  - intros k Hk. unfold written; simpl. by rewrite lookup_insert_ne.
  - assert (get new "updatedAt" = Str (clock w (ticks w))) as ->; [|done].
    unfold get, new. by rewrite lookup_insert_eq.
  - assert (get new "updatedAt" = Str (clock w (ticks w))) as ->; [|done].
    unfold get, new. by rewrite lookup_insert_eq.
Qed.

(** C1, as stated, fails: a second update of a task within the millisecond
    of the first gives it the [updatedAt] it already had, which is not
    strictly later. *)
Lemma C1_updatedAt_not_strictly_later :
  exists (old new : object) (w' : world),
    TaskDB.getTaskById (Num (Int 1)) completed_once = (Return (Some old), completed_once) /\
    TaskDB.updateTask (Num (Int 1)) completed completed_once = (Return (Some new), w') /\
    get new "updatedAt" = get old "updatedAt" /\
    ~ earlier (get old "updatedAt") (get new "updatedAt").
Proof.
  assert (forall (ts : list object) j t,
            (j < 0)%nat -> ts !! j = Some t -> TaskDB.has_id (Num (Int 1)) t = false)
    as Hfirst by (intros ts j t Hj; lia).
  destruct (TaskDB.sampleTasks !! 0%nat) as [task1|] eqn:Htask1; [|done].
  assert (TaskDB.has_id (Num (Int 1)) task1 = true) as Hid1
    by (by injection Htask1 as <-).
  pose proof (updateTask_at seeded TaskDB.sampleTasks (Num (Int 1)) completed 0 task1
                getAllTasks_seeded Htask1 Hid1 (Hfirst _)) as Hfirst_update.
  cbv zeta in Hfirst_update.
  set (old := <["updatedAt" := _]> _ : object) in Hfirst_update.
  assert (completed_once =
          written (JSON_stringify (<[0%nat := old]> TaskDB.sampleTasks)) (ticked seeded))
    as Honce by (unfold completed_once; by rewrite Hfirst_update).
  assert (persisted old = old) as Hold.
  { apply persisted_storable. unfold old, completed.
    apply map_Forall_insert_2; [done|]. apply map_Forall_union_2.
    - by apply map_Forall_singleton.
    - apply (getAllTasks_storable seeded TaskDB.sampleTasks); [apply getAllTasks_seeded|].
      by apply list_elem_of_lookup_2 in Htask1. }
  set (ts := <[0%nat := old]> TaskDB.sampleTasks).
  assert (TaskDB.getAllTasks completed_once = (Return ts, completed_once)) as Hget.
  { rewrite Honce, getAllTasks_written. f_equal. f_equal. unfold ts.
    by rewrite list_fmap_insert, sampleTasks_persisted, Hold. }
  assert (ts !! 0%nat = Some old) as Hold0 by done.
  assert (TaskDB.has_id (Num (Int 1)) old = true) as Hid.
  { unfold TaskDB.has_id, get, old, completed.
    rewrite lookup_insert_ne by done. rewrite lookup_union_r by done.
    apply Hid1. }
  pose proof (updateTask_at completed_once ts (Num (Int 1)) completed 0 old
                Hget Hold0 Hid (Hfirst _)) as Hsecond.
  cbv zeta in Hsecond.
  eexists old, _, _.
  split; [exact (getTaskById_at completed_once ts (Num (Int 1)) 0 old
                   Hget Hold0 Hid (Hfirst _))|].
  split; [exact Hsecond|].
  assert (clock completed_once = frozen) as Hclock by (by rewrite Honce).
  assert (get old "updatedAt" = Str (frozen (ticks seeded))) as Hstamp
    by (unfold get, old; by rewrite lookup_insert_eq).
  unfold get at 1 4. rewrite lookup_insert_eq, Hstamp, Hclock.
  cbv beta delta [frozen default]. split; [done|]. vm_compute. discriminate.
Qed.

(** ** Creating *)

Lemma Math_max_bounded (l : list number) (k : Z) :
  (forall x, x ∈ l -> exists n, x = Int n /\ n <= k) ->
  Math_max l = NegInfinity \/ exists m, Math_max l = Int m /\ m <= k.
Proof.
  induction l as [|x r IH]; intros Hl; simpl; [by left|].
  destruct (Hl x) as (n & -> & Hn); [apply list_elem_of_here|].
  destruct IH as [-> | (m & -> & Hm)].
  - intros y Hy. apply Hl. by apply list_elem_of_further.
  - right. by exists n.
  - right. exists (Z.max n m). split; [done|lia].
Qed.

Lemma Math_max_greatest (l : list number) (k : Z) :
  Int k ∈ l ->
  (forall x, x ∈ l -> exists n, x = Int n /\ n <= k) ->
  Math_max l = Int k.
Proof.
  induction l as [|x r IH]; intros Hk Hl; [by apply elem_of_nil in Hk|].
  assert (forall y, y ∈ r -> exists n, y = Int n /\ n <= k) as Hr.
  { intros y Hy. apply Hl. by apply list_elem_of_further. }
  destruct (Hl x) as (n & -> & Hn); [apply list_elem_of_here|]. simpl.
  destruct (decide (Int k ∈ r)) as [Hin | Hnin].
  - rewrite IH by done. simpl. f_equal. lia.
  - apply elem_of_cons in Hk as [[= ->] | Hk]; [|done].
    destruct (Math_max_bounded r n Hr) as [-> | (m & -> & Hm)]; [done|].
    simpl. f_equal. lia.
Qed.

Lemma nearest_double_exact z : - two_53 <= z <= two_53 -> nearest_double z = Int z.
Proof.
  intros Hz. unfold nearest_double.
  replace (Z.abs z <=? two_53) with true; [done|].
  symmetry. apply Z.leb_le. lia.
Qed.

Lemma nearest_double_two_53 : nearest_double (two_53 + 1) = Int two_53.
Proof. by vm_compute. Qed.

Section creating.
Context `{Host}.

Lemma generated_max_id ts k : max_id ts k -> generated ts = nearest_double (k + 1).
Proof.
  intros [(t & Ht & Hid) Hall]. unfold generated.
  destruct ts as [|a r]; [by apply elem_of_nil in Ht|].
  replace (0 <? Z.of_nat (length (a :: r))) with true
    by (symmetry; apply Z.ltb_lt; simpl; lia).
  rewrite (Math_max_greatest _ k); [done|..].
  - apply list_elem_of_fmap. exists t. by rewrite Hid.
  - intros x Hx. apply list_elem_of_fmap in Hx as (u & -> & Hu).
    destruct (Hall u Hu) as (n & Hn & Hle). exists n. by rewrite Hn.
Qed.

(** What [createTask] does on a readable store. *)
Lemma createTask_run (w : world) (ts : list object) (fields : object) :
  TaskDB.getAllTasks w = (Return ts, w) ->
  let new : object :=
    <["updatedAt" := Str (clock w (S (ticks w)))]> (
    <["createdAt" := Str (clock w (ticks w))]> (
      fields ∪ {["id" := Num (generated ts)]})) in
  TaskDB.createTask fields w =
    (Return new, written (JSON_stringify (ts ++ [new])) (ticked (ticked w))).
Proof.
  intros Hget. unfold TaskDB.createTask, TaskDB.generateId. by run_with Hget.
Qed.

End creating.

(** C7, as stated, fails: after [createTask] was given fields with the id 2
    on the seeded store, two of the six tasks have the id 2, and the first
    [deleteTask(2)] shortens the collection by two. *)
Lemma C7_delete_removes_every_match :
  exists (ts ts1 : list object) (w1 : world),
    TaskDB.getAllTasks duplicated = (Return ts, duplicated) /\
    (exists t, t ∈ ts /\ TaskDB.has_id (Num (Int 2)) t = true) /\
    TaskDB.deleteTask (Num (Int 2)) duplicated = (Return true, w1) /\
    TaskDB.getAllTasks w1 = (Return ts1, w1) /\
    length ts = 6%nat /\ length ts1 = 4%nat.
Proof.
  pose proof (@createTask_run example_host seeded TaskDB.sampleTasks second_task_2
                getAllTasks_seeded) as Hcreate.
  cbv zeta in Hcreate.
  set (new := <["updatedAt" := _]> _ : object) in Hcreate.
  assert (duplicated =
          written (JSON_stringify (TaskDB.sampleTasks ++ [new])) (ticked (ticked seeded)))
    as Hdup by (unfold duplicated; by rewrite Hcreate).
  set (ts := persisted <$> (TaskDB.sampleTasks ++ [new])%list).
  assert (TaskDB.getAllTasks duplicated = (Return ts, duplicated)) as Hget
    by (rewrite Hdup; apply getAllTasks_written).
  destruct (deleteTask_run duplicated ts (Num (Int 2)) Hget) as [Hdel Hget1].
  eexists ts, _, _. split; [exact Hget|].
  split; [apply has_id_existsb; by vm_compute|].
  split; [exact Hdel|]. split; [exact Hget1|].
  split; by vm_compute.
Qed.

(** C5, amended: when [fields] carries no [id] of its own, [createTask]
    returns a task whose id is one more than the greatest id [k] of the
    collection, provided [-2^53 <= k < 2^53], or 1 on the empty collection,
    and appends that task, as JSON text carries it, to the stored
    collection. The sum is the addition of doubles: whatever [k] is, the id
    is the Number nearest to [k + 1], and with [k = 2^53] that is [2^53]
    again. *)
Theorem C5_create_next_id `{Host} (w : world) (ts : list object) (fields : object) :
  TaskDB.getAllTasks w = (Return ts, w) ->
  fields !! "id" = None ->
  exists (new : object) (w' : world),
    TaskDB.createTask fields w = (Return new, w') /\
    TaskDB.getAllTasks w' = (Return (ts ++ [persisted new])%list, w') /\
    (forall k, max_id ts k -> - two_53 <= k < two_53 ->
       new !! "id" = Some (Num (Int (k + 1))) /\
       persisted new !! "id" = Some (Num (Int (k + 1)))) /\
    (forall k, max_id ts k -> new !! "id" = Some (Num (nearest_double (k + 1)))) /\
    (max_id ts two_53 ->
       new !! "id" = Some (Num (Int two_53)) /\
       persisted new !! "id" = Some (Num (Int two_53))) /\
    (ts = [] ->
       new !! "id" = Some (Num (Int 1)) /\
       persisted new !! "id" = Some (Num (Int 1))).
Proof.
  intros Hget Hid. eexists _, _. split; [by apply createTask_run|].
  assert (<["updatedAt" := Str (clock w (S (ticks w)))]> (
          <["createdAt" := Str (clock w (ticks w))]> (
            fields ∪ {["id" := Num (generated ts)]})) !! "id" =
          Some (Num (generated ts))) as Hgenerated.
  { rewrite !lookup_insert_ne by done.
    rewrite lookup_union_r by done. by rewrite lookup_singleton_eq. }
  assert (forall n, generated ts = Int n ->
    let new : object :=
      <["updatedAt" := Str (clock w (S (ticks w)))]> (
      <["createdAt" := Str (clock w (ticks w))]> (
        fields ∪ {["id" := Num (generated ts)]})) in
    new !! "id" = Some (Num (Int n)) /\
    persisted new !! "id" = Some (Num (Int n))) as Hnew.
  { intros n Hn new.
    assert (new !! "id" = Some (Num (Int n))) as Hl.
    { unfold new. rewrite !lookup_insert_ne by done.
      rewrite lookup_union_r by done. by rewrite lookup_singleton_eq, Hn. }
    split; [done|]. by rewrite persisted_lookup, Hl. }
  split; [|split; [|split; [|split]]].
  - rewrite getAllTasks_written, fmap_app. simpl.
    by rewrite (getAllTasks_persisted w ts Hget).
  - intros k Hk Hsafe. apply Hnew.
    rewrite (generated_max_id ts k Hk). apply nearest_double_exact. lia.
  - intros k Hk. by rewrite Hgenerated, (generated_max_id ts k Hk).
  - intros Hk. apply Hnew.
    rewrite (generated_max_id ts _ Hk). apply nearest_double_two_53.
  - intros ->. by apply Hnew.
Qed.

(** C9: whatever [fields] carries, the task [createTask] returns has as
    [createdAt] and [updatedAt] the two readings of the clock taken during
    the call, and as [id] the [id] of [fields] when it has one. *)
Theorem C9_create_stamps `{Host} (w : world) (ts : list object) (fields : object) :
  TaskDB.getAllTasks w = (Return ts, w) ->
  exists (new : object) (w' : world),
    TaskDB.createTask fields w = (Return new, w') /\
    new !! "createdAt" = Some (Str (clock w (ticks w))) /\
    new !! "updatedAt" = Some (Str (clock w (S (ticks w)))) /\
    ticks w' = S (S (ticks w)) /\
    (forall v, fields !! "id" = Some v -> new !! "id" = Some v) /\
    (fields !! "id" = None -> new !! "id" = Some (Num (generated ts))).
Proof.
  intros Hget. eexists _, _. split; [by apply createTask_run|].
  repeat split.
  - rewrite lookup_insert_ne by done. by rewrite lookup_insert_eq.
  - by rewrite lookup_insert_eq.
  - intros v Hv. rewrite !lookup_insert_ne by done. by apply lookup_union_Some_l.
  - intros Hv. rewrite !lookup_insert_ne by done.
    rewrite lookup_union_r by done. by rewrite lookup_singleton_eq.
Qed.

(** C5, as stated, fails: on the seeded collection, whose greatest id is 5,
    [createTask] with fields that carry the id 42 returns a task with id 42,
    not 6. *)
Lemma C5_supplied_id_wins :
  TaskDB.getAllTasks seeded = (Return TaskDB.sampleTasks, seeded) /\
  max_id TaskDB.sampleTasks 5 /\
  exists (new : object) (w' : world),
    @TaskDB.createTask example_host
      (<["id" := Num (Int 42)]> {["title" := Str "Imported"]}) seeded = (Return new, w') /\
    new !! "id" = Some (Num (Int 42)) /\
    new !! "id" <> Some (Num (Int (5 + 1))).
Proof.
  split; [apply getAllTasks_seeded|]. split; [apply max_id_sampleTasks|].
  eexists _, _. split; [apply createTask_run, getAllTasks_seeded|].
  split; [reflexivity|]. vm_compute. discriminate.
Qed.

(** ** The API facade and faults *)

(** C2, as stated, fails: on a store whose slot holds a string that is no
    JSON text, which the constructor leaves as it is, [getAllTasks] and
    [getTaskById] throw and [getTasks] and [getTask] let the fault through
    to their caller. *)
Lemma C2_reads_propagate_faults :
  TaskAPI.constructor malformed_store = (Return tt, malformed_store) /\
  TaskDB.getAllTasks malformed_store = (Throw SyntaxError, malformed_store) /\
  TaskAPI.getTasks malformed_store = (Throw SyntaxError, malformed_store) /\
  TaskDB.getTaskById (Num (Int 1)) malformed_store = (Throw SyntaxError, malformed_store) /\
  TaskAPI.getTask (Num (Int 1)) malformed_store = (Throw SyntaxError, malformed_store) /\
  ~ (exists r w', TaskAPI.getTasks malformed_store = (Return r, w')).
Proof.
  repeat split; try reflexivity. intros (r & w' & Hr). vm_compute in Hr. discriminate.
Qed.

(** C2, amended: [createTask], [updateTask] and [deleteTask] of the facade
    always return a response, and when the storage operation under them
    throws, the response is [{success: false}] with the message of the
    operation; [getTasks] and [getTask] have no handler, and a fault of the
    storage operation under them reaches their caller. *)
Theorem C2_faults_by_operation `{Host} (w : world) (id : value) (fields : object) :
  ((exists r w', TaskAPI.createTask fields w = (Return r, w')) /\
   (forall e w', TaskDB.createTask fields w = (Throw e, w') ->
      TaskAPI.createTask fields w = (Return (failure "Failed to create task"), w'))) /\
  ((exists r w', TaskAPI.updateTask id fields w = (Return r, w')) /\
   (forall e w', TaskDB.updateTask id fields w = (Throw e, w') ->
      TaskAPI.updateTask id fields w = (Return (failure "Failed to update task"), w'))) /\
  ((exists r w', TaskAPI.deleteTask id w = (Return r, w')) /\
   (forall e w', TaskDB.deleteTask id w = (Throw e, w') ->
      TaskAPI.deleteTask id w = (Return (failure "Failed to delete task"), w'))) /\
  (forall e w', TaskDB.getAllTasks w = (Throw e, w') ->
      TaskAPI.getTasks w = (Throw e, w')) /\
  (forall e w', TaskDB.getTaskById id w = (Throw e, w') ->
      TaskAPI.getTask id w = (Throw e, w')).
Proof.
  repeat split; run_api.
  - destruct (TaskDB.createTask fields w) as [[a|e] w1]; eauto.
  - by intros e w' ->.
  - destruct (TaskDB.updateTask id fields w) as [[[a|]|e] w1]; eauto.
  - by intros e w' ->.
  - destruct (TaskDB.deleteTask id w) as [[a|e] w1]; eauto.
  - by intros e w' ->.
  - by intros e w' ->.
  - by intros e w' ->.
Qed.

(** The storage operations under the three writes do throw on the malformed
    store, and the facade answers with the failure response. *)
Example C2_writes_on_malformed_store :
  @TaskAPI.createTask example_host {["title" := Str "x"]} malformed_store =
    (Return (failure "Failed to create task"), malformed_store) /\
  TaskAPI.updateTask (Num (Int 1)) completed malformed_store =
    (Return (failure "Failed to update task"), malformed_store) /\
  TaskAPI.deleteTask (Num (Int 1)) malformed_store =
    (Return (failure "Failed to delete task"), malformed_store).
Proof. repeat split. Qed.

(** ** Filtering and searching the cached list *)

Lemma startsWith_spec s q : startsWith s q = true <-> exists post, s = q +:+ post.
Proof.
  revert s. induction q as [|b q IH]; intros s; simpl.
  - split; [intros _; by exists s|done].
  - destruct s as [|a s]; simpl.
    + split; [done|]. by intros [post Hp].
    + rewrite andb_true_iff, IH. split.
      * intros [Hab [post ->]]. apply Ascii.eqb_eq in Hab as ->. by exists post.
      * intros [post [= -> ->]]. split; [apply Ascii.eqb_refl|by exists post].
Qed.

Lemma includes_spec s q : includes s q = true <-> occurs_in q s.
Proof.
  unfold occurs_in. induction s as [|a s IH]; simpl.
  - rewrite orb_false_r, startsWith_spec. split.
    + intros [post Hp]. by exists "", post.
    + intros ([|c pre] & post & Hp); [by exists post|done].
  - rewrite orb_true_iff, startsWith_spec, IH. split.
    + intros [[post Hp] | (pre & post & ->)].
      * by exists "", post.
      * by exists (String a pre), post.
    + intros ([|c pre] & post & Hp).
      * left. by exists post.
      * right. injection Hp as -> ->. by exists pre, post.
Qed.

Lemma shownb_spec query t : shownb query t = true <-> shown query t.
Proof.
  unfold shownb, shown. rewrite orb_true_iff. split.
  - intros [Ht | Hd].
    + destruct (get t "title") as [| | | |s]; try done.
      exists s. split; [by left|]. by apply includes_spec.
    + destruct (get t "description") as [| | | |s]; try done.
      exists s. split; [by right|]. by apply includes_spec.
  - intros (s & [-> | ->] & Hs); [left | right]; by apply includes_spec.
Qed.

Lemma List_filter_decide {A} (f : A -> bool) (P : A -> Prop) `{!forall x, Decision (P x)}
    (l : list A) :
  (forall x, f x = true <-> P x) -> List.filter f l = filter P l.
Proof.
  intros Hf. induction l as [|x r IH]; simpl; [done|].
  rewrite filter_cons, IH. destruct (decide (P x)) as [Hx | Hx].
  - apply Hf in Hx. by rewrite Hx.
  - destruct (f x) eqn:Hfx; [|done]. by apply Hf in Hfx.
Qed.

Lemma has_status_spec s t :
  AppComponent.has_status s t = true <-> get t "status" = Str s.
Proof.
  unfold AppComponent.has_status.
  destruct (get t "status") as [| | |[]|x]; simpl; try done.
  rewrite String.eqb_eq. split; congruence.
Qed.

Lemma matches_query_searchable query t :
  searchable t -> AppComponent.matches_query query t = Return (shownb query t).
Proof.
  intros (title & description & Ht & Hd).
  unfold AppComponent.matches_query, shownb. rewrite Ht, Hd. simpl.
  by destruct (includes (toLowerCase title) (toLowerCase query)).
Qed.

Lemma filter_throwing_searchable query (l : list object) :
  Forall searchable l ->
  AppComponent.filter_throwing (AppComponent.matches_query query) l =
  Return (List.filter (shownb query) l).
Proof.
  induction 1 as [|t r Ht Hr IH]; simpl; [done|].
  by rewrite (matches_query_searchable query t Ht), IH.
Qed.

Lemma getFilteredTasksByStatus_sublist this :
  sublist (AppComponent.getFilteredTasksByStatus this) (AppComponent.tasks this).
Proof.
  unfold AppComponent.getFilteredTasksByStatus.
  destruct (strict_equal _ _); [apply List_filter_sublist|].
  destruct (strict_equal _ _); [apply List_filter_sublist|reflexivity].
Qed.


(** ** Running a method *)

Lemma Method_bind_return {A B} (m : Component.Method A) (f : A -> Component.Method B)
    s a s' :
  m s = (Return a, s') -> (m ≫= f) s = f a s'.
Proof. intros Hm. unfold mbind, Component.Method_bind. by rewrite Hm. Qed.

Lemma Method_bind_throw {A B} (m : Component.Method A) (f : A -> Component.Method B)
    s e s' :
  m s = (Throw e, s') -> (m ≫= f) s = (Throw e, s').
Proof. intros Hm. unfold mbind, Component.Method_bind. by rewrite Hm. Qed.

Lemma call_run {A} (m : M A) c w o w' :
  m w = (o, w') -> Component.call m (c, w) = (o, (c, w')).
Proof. intros Hm. unfold Component.call. simpl. by rewrite Hm. Qed.

Lemma try_catch_return {A} (m : Component.Method A) h s a s' :
  m s = (Return a, s') -> Component.try_catch m h s = (Return a, s').
Proof. intros Hm. unfold Component.try_catch. by rewrite Hm. Qed.

Lemma try_catch_throw {A} (m : Component.Method A) h s e s' :
  m s = (Throw e, s') -> Component.try_catch m h s = h e s'.
Proof. intros Hm. unfold Component.try_catch. by rewrite Hm. Qed.

Lemma set_view_view f c : Component.view (Component.set_view f c) = f (Component.view c).
Proof. reflexivity. Qed.

Lemma reordered_refl c : reordered c c.
Proof. by repeat split. Qed.

Lemma reordered_trans c1 c2 c3 : reordered c1 c2 -> reordered c2 c3 -> reordered c1 c3.
Proof.
  intros (H1 & H2 & H3 & H4 & H5 & H6) (G1 & G2 & G3 & G4 & G5 & G6).
  repeat split; try congruence. by rewrite G1.
Qed.

(** ** Rendering *)

Section rendering.
Context `{Host} `{Browser}.

Lemma renderTaskCard_renderable t :
  Component.renderTaskCard t = Return tt <-> renderable t.
Proof.
  unfold Component.renderTaskCard, renderable. split.
  - destruct (get t "status") as [| | | |s]; try discriminate.
    destruct (get t "priority") as [| | | |p]; try discriminate.
    intros _. by exists s, p.
  - intros (s & p & -> & ->). reflexivity.
Qed.

Lemma renderTaskCard_cases t :
  Component.renderTaskCard t = Return tt \/ Component.renderTaskCard t = Throw TypeError.
Proof.
  unfold Component.renderTaskCard.
  destruct (get t "status"); auto. destruct (get t "priority"); auto.
Qed.

Lemma render_cards_renderable l :
  Component.render_cards l = Return tt <-> Forall renderable l.
Proof.
  induction l as [|t l IH]; simpl.
  - split; [constructor|done].
  - destruct (renderTaskCard_cases t) as [Ht|Ht]; rewrite Ht.
    + rewrite IH. split; [intros Hl; constructor; [by apply renderTaskCard_renderable|done]|].
      intros Hl. by inversion Hl.
    + split; [discriminate|]. intros Hl. inversion Hl as [|? ? Hr _].
      apply renderTaskCard_renderable in Hr. congruence.
Qed.

Lemma render_cards_cases l :
  Component.render_cards l = Return tt \/ Component.render_cards l = Throw TypeError.
Proof.
  induction l as [|t l IH]; simpl; [by left|].
  destruct (renderTaskCard_cases t) as [Ht|Ht]; rewrite Ht; auto.
Qed.

Lemma renderTasks_run s :
  (Component.renderTasks s = (Return tt, s) \/
   Component.renderTasks s = (Throw TypeError, s)) /\
  (Forall renderable (Component.filteredTasks (fst s)) ->
   Component.renderTasks s = (Return tt, s)).
Proof.
  destruct s as [c w]. unfold Component.renderTasks, Component.this, Component.result,
    mbind, Component.Method_bind, mret, Component.Method_ret. simpl.
  destruct (negb (has_element "tasks-container") || negb (has_element "empty-state"));
    [by auto|].
  destruct (length (Component.filteredTasks c) =? 0)%nat; [by auto|].
  split.
  - destruct (render_cards_cases (Component.filteredTasks c)) as [-> | ->]; auto.
  - intros Hl. apply render_cards_renderable in Hl. by rewrite Hl.
Qed.

Lemma renderDashboard_run c w :
  let c' := Component.set_tasks (sort_recent (Component.tasks c)) c in
  (Component.renderDashboard (c, w) = (Return tt, (c', w)) \/
   Component.renderDashboard (c, w) = (Throw TypeError, (c', w))) /\
  (Forall renderable (Component.tasks c) ->
   Component.renderDashboard (c, w) = (Return tt, (c', w))).
Proof.
  unfold Component.renderDashboard, Component.this, Component.result, Component.assign,
    mbind, Component.Method_bind, mret, Component.Method_ret. simpl.
  destruct (has_element "recent-tasks-container"); [|by auto].
  split.
  - destruct (render_cards_cases (take 3 (sort_recent (Component.tasks c))))
      as [-> | ->]; auto.
  - intros Hl.
    assert (Forall renderable (take 3 (sort_recent (Component.tasks c)))) as Hl'.
    { apply Forall_take. by rewrite sort_recent_Permutation. }
    apply render_cards_renderable in Hl'. by rewrite Hl'.
Qed.

Lemma reordered_set_tasks c l : l ≡ₚ Component.tasks c -> reordered c (Component.set_tasks l c).
Proof. intros Hl. by repeat split. Qed.

Lemma renderDashboard_reordered c w :
  exists o c', Component.renderDashboard (c, w) = (o, (c', w)) /\ reordered c c'.
Proof.
  destruct (renderDashboard_run c w) as [[Hr|Hr] _]; rewrite Hr; eexists _, _;
    (split; [reflexivity|]); apply reordered_set_tasks, sort_recent_Permutation.
Qed.

Lemma applyCurrentFilter_run c w :
  let c' := Component.set_view AppComponent.refiltered c in
  (Component.applyCurrentFilter (c, w) = (Return tt, (c', w)) \/
   Component.applyCurrentFilter (c, w) = (Throw TypeError, (c', w)) /\
   Component.currentPage c = "tasks" /\
   ~ Forall renderable (Component.filteredTasks c')) /\
  (Component.currentPage c = "tasks" -> Forall renderable (Component.filteredTasks c') ->
   Component.applyCurrentFilter (c, w) = (Return tt, (c', w))) /\
  (Component.currentPage c <> "tasks" ->
   Component.applyCurrentFilter (c, w) = (Return tt, (c', w))).
Proof.
  intros c'.
  assert (Component.applyCurrentFilter (c, w) =
          if String.eqb (Component.currentPage c) "tasks"
          then Component.renderTasks (c', w) else (Return tt, (c', w))) as ->.
  { unfold Component.applyCurrentFilter, Component.assign, Component.this, mbind,
      Component.Method_bind, mret, Component.Method_ret. simpl.
    by destruct (String.eqb _ "tasks"). }
  destruct (String.eqb_spec (Component.currentPage c) "tasks") as [Hp|Hp].
  - destruct (renderTasks_run (c', w)) as [Hcases Hok].
    split; [|split; [by auto|done]].
    destruct Hcases as [Hr|Hr]; [by left|right]. repeat split; try done.
    intros Hl. apply Hok in Hl. congruence.
  - by auto.
Qed.

Lemma render_current_page_reordered c w :
  exists o c', Component.render_current_page (c, w) = (o, (c', w)) /\ reordered c c'.
Proof.
  assert (Component.render_current_page (c, w) =
          if String.eqb (Component.currentPage c) "tasks" then Component.renderTasks (c, w)
          else if String.eqb (Component.currentPage c) "dashboard"
               then Component.renderDashboard (c, w) else (Return tt, (c, w))) as ->.
  { unfold Component.render_current_page, Component.this, mbind,
      Component.Method_bind, mret, Component.Method_ret. simpl.
    by repeat destruct (String.eqb _ _). }
  destruct (String.eqb (Component.currentPage c) "tasks").
  - destruct (renderTasks_run (c, w)) as [[Hr|Hr] _]; rewrite Hr; eexists _, _;
      (split; [reflexivity|apply reordered_refl]).
  - destruct (String.eqb (Component.currentPage c) "dashboard").
    + apply renderDashboard_reordered.
    + eexists _, _. split; [reflexivity|apply reordered_refl].
Qed.

End rendering.

Lemma Forall_renderable_sublist l l' :
  sublist l l' -> Forall renderable l' -> Forall renderable l.
Proof.
  intros Hsub Hl'. rewrite Forall_forall in *. intros t Ht.
  apply Hl'. by eapply elem_of_sublist.
Qed.

Section filtering.
Context `{Browser}.


Lemma searchTasks_run c w query :
  match AppComponent.searched query (Component.view c) with
  | Return v =>
      exists o,
        Component.searchTasks query (c, w) = (o, (Component.set_view (fun _ => v) c, w)) /\
        (o = Return tt \/ o = Throw TypeError) /\
        (Forall renderable (AppComponent.filteredTasks v) -> o = Return tt)
  | Throw e => Component.searchTasks query (c, w) = (Throw e, (c, w))
  end.
Proof.
  unfold AppComponent.searched, Component.searchTasks.
  destruct (blank query).
  - destruct (applyCurrentFilter_run c w) as (Hcases & Hok & Hother).
    cbv zeta in Hcases, Hok, Hother.
    destruct Hcases as [Hr|(Hr & Hpage & _)].
    + exists (Return tt). split; [exact Hr|]. split; [by left|done].
    + exists (Throw TypeError). split; [exact Hr|]. split; [by right|].
      intros Hall. rewrite (Hok Hpage Hall) in Hr. congruence.
  - unfold mbind, Component.Method_bind, Component.this, Component.result,
      Component.assign. simpl.
    destruct (AppComponent.filter_throwing _ _) as [filtered|e]; [|done].
    destruct (renderTasks_run (Component.set_filteredTasks filtered c, w))
      as [[Hr|Hr] Hok]; rewrite Hr.
    + exists (Return tt). split; [done|]. split; [by left|done].
    + exists (Throw TypeError). split; [done|]. split; [by right|].
      intros Hall. rewrite (Hok Hall) in Hr. congruence.
Qed.


End filtering.


Example parseInt_examples :
  parseInt (Str "12abc") = Int 12 /\ parseInt (Str "  -7") = Int (-7) /\
  parseInt (Str "0x1A") = Int 26 /\ parseInt (Str "abc") = NaN /\
  parseInt (Str "") = NaN /\ parseInt (Num (Int 42)) = Int 42 /\
  parseInt (Num (Int (-3))) = Int (-3) /\ parseInt (Num (Int 0)) = Int 0 /\
  parseInt Undefined = NaN /\ parseInt (Str "0x") = NaN /\
  parseInt (Str "+5") = Int 5 /\ parseInt (Str "-") = NaN /\
  parseInt (Str "007") = Int 7 /\ parseInt Null = NaN.
Proof. vm_compute. repeat split. Qed.

(** ** Ids given as strings *)

Lemma of_uint_acc_value d acc :
  Z.pos (Pos.of_uint_acc d acc) = uint_value d (Z.pos acc).
Proof.
  revert acc. induction d; intros acc; simpl; [done|..];
    rewrite IHd; f_equal; lia.
Qed.

Lemma of_uint_value d : Z.of_N (Pos.of_uint d) = uint_value d 0.
Proof.
  induction d; simpl; try done;
    by rewrite of_uint_acc_value.
Qed.

Lemma to_uint_value p : uint_value (Pos.to_uint p) 0 = Z.pos p.
Proof. by rewrite <- of_uint_value, DecimalPos.Unsigned.of_to. Qed.

Lemma digits_prefix_stop s acc : no_digit_head s -> digits_prefix 10 s acc = acc.
Proof. destruct s as [|c r]; simpl; [done|]. by intros ->. Qed.

Lemma digits_prefix_uint d rest acc :
  d <> Nil ->
  digits_prefix 10 (NilEmpty.string_of_uint d +:+ rest) acc =
  digits_prefix 10 rest (Some (uint_value d (default 0 acc))).
Proof.
  intros Hd.
  assert (forall d a, digits_prefix 10 (NilEmpty.string_of_uint d +:+ rest) (Some a) =
                      digits_prefix 10 rest (Some (uint_value d a))) as Hsome.
  { clear. induction d; intros a; simpl; [done|..]; rewrite IHd; do 3 f_equal;
      vm_compute (code _); lia. }
  destruct d; [done|..]; simpl; rewrite Hsome; do 3 f_equal;
    vm_compute (code _); destruct acc; simpl; lia.
Qed.

Lemma read_radix_uint d rest :
  d <> Nil -> d <> zero -> 
  read_radix (NilEmpty.string_of_uint d +:+ rest) =
  (10, NilEmpty.string_of_uint d +:+ rest).
Proof.
  intros Hnil Hzero. destruct d as [|d|d|d|d|d|d|d|d|d|d]; try done;
    by destruct d; [destruct rest|..].
Qed.

Lemma read_radix_zero rest :
  no_x_head rest -> read_radix ("0" +:+ rest) = (10, "0" +:+ rest).
Proof. destruct rest as [|c r]; simpl; [done|]. by intros ->. Qed.

Lemma skip_white_space_blank pad s :
  blank pad = true -> skip_white_space (pad +:+ s) = skip_white_space s.
Proof.
  induction pad as [|c pad IH]; simpl; [done|].
  intros [Hc Hpad]%andb_true_iff. rewrite Hc. by apply IH.
Qed.

Lemma uint_head_digit d rest :
  d <> Nil ->
  exists c r, NilEmpty.string_of_uint d +:+ rest = String c r /\
              is_white_space c = false /\
              Ascii.eqb c "-" = false /\ Ascii.eqb c "+" = false.
Proof. destruct d; [done|..]; intros _; simpl; by eexists _, _. Qed.

Lemma read_sign_head c r :
  is_white_space c = false -> Ascii.eqb c "-" = false -> Ascii.eqb c "+" = false ->
  read_sign (skip_white_space (String c r)) = (1, String c r).
Proof. intros Hws Hm Hp. simpl. rewrite Hws. simpl. by rewrite Hm, Hp. Qed.

Lemma read_sign_minus r : read_sign (skip_white_space (String "-" r)) = (-1, r).
Proof. done. Qed.

Lemma string_of_uint_nonnil d :
  d <> Nil -> NilZero.string_of_uint d = NilEmpty.string_of_uint d.
Proof. by destruct d. Qed.

(** A string id that starts, after white space, with the decimal numeral of
    [k] parses to the Number of [k]; the case of [0] followed by [x] is the
    prefix of a hexadecimal numeral. *)
Lemma parseInt_decimal_prefix (k : Z) (pad rest : string) :
  blank pad = true ->
  no_digit_head rest ->
  (k = 0 -> no_x_head rest) ->
  parseInt (Str (pad +:+ numeral k +:+ rest)) = nearest_double k.
Proof.
  intros Hpad Hrest Hx. unfold parseInt, parseInt_string, numeral. simpl ToString.
  rewrite skip_white_space_blank by done.
  destruct k as [|p|p].
  - change (NilZero.string_of_int (Z.to_int 0) +:+ rest) with (String "0" rest).
    rewrite read_sign_head by done.
    change (String "0" rest) with ("0" +:+ rest).
    rewrite read_radix_zero by auto.
    change ("0" +:+ rest) with (NilEmpty.string_of_uint (D0 Nil) +:+ rest).
    by rewrite digits_prefix_uint, digits_prefix_stop.
  - pose proof (DecimalPos.Unsigned.to_uint_nonnil p) as Hnil.
    pose proof (DecimalPos.Unsigned.to_uint_nonzero p) as Hz.
    change (NilZero.string_of_int (Z.to_int (Z.pos p)))
      with (NilZero.string_of_uint (Pos.to_uint p)).
    rewrite string_of_uint_nonnil by done.
    destruct (uint_head_digit (Pos.to_uint p) rest Hnil) as (c & r & Hcr & Hws & Hm & Hp).
    rewrite Hcr, read_sign_head by done. rewrite <- Hcr.
    rewrite read_radix_uint by done.
    rewrite digits_prefix_uint, digits_prefix_stop by done.
    simpl default. rewrite to_uint_value. f_equal; lia.
  - pose proof (DecimalPos.Unsigned.to_uint_nonnil p) as Hnil.
    pose proof (DecimalPos.Unsigned.to_uint_nonzero p) as Hz.
    change (NilZero.string_of_int (Z.to_int (Z.neg p)))
      with (String "-" (NilZero.string_of_uint (Pos.to_uint p))).
    rewrite string_of_uint_nonnil by done.
    change (String "-" (NilEmpty.string_of_uint (Pos.to_uint p)) +:+ rest)
      with (String "-" (NilEmpty.string_of_uint (Pos.to_uint p) +:+ rest)).
    rewrite read_sign_minus, read_radix_uint by done.
    rewrite digits_prefix_uint, digits_prefix_stop by done.
    simpl default. rewrite to_uint_value. f_equal; lia.
Qed.

Lemma append_empty_r s : s +:+ "" = s.
Proof.
  induction s as [|a s IH]; [done|].
  change (String a (s +:+ "") = String a s). by rewrite IH.
Qed.

Lemma Number_toString_exact k : - two_53 <= k <= two_53 -> Number_toString k = numeral k.
Proof.
  intros Hk. unfold Number_toString.
  replace (Z.abs k <=? two_53) with true; [done|].
  symmetry. apply Z.leb_le. lia.
Qed.

(** An id given as an integer up to [2^53] parses to itself. *)
Lemma parseInt_Int k : - two_53 <= k <= two_53 -> parseInt (Num (Int k)) = Int k.
Proof.
  intros Hk.
  pose proof (parseInt_decimal_prefix k "" "" eq_refl I (fun _ => I)) as Hparsed.
  unfold parseInt in *. simpl ToString in *.
  rewrite append_empty_r in Hparsed. change ("" +:+ numeral k) with (numeral k) in Hparsed.
  rewrite Number_toString_exact, Hparsed by done. by apply nearest_double_exact.
Qed.

Lemma has_id_parsed id k t : parseInt id = Int k ->
  TaskDB.has_id id t = true <-> id_is k t.
Proof.
  intros Hk. unfold TaskDB.has_id, id_is, get. rewrite Hk. split.
  - intros Heq%strict_equal_Int. by destruct (t !! "id") as [v|]; simplify_eq/=.
  - intros ->. simpl. apply Z.eqb_refl.
Qed.

Lemma has_id_not_Int id t :
  (forall k, parseInt id <> Int k) -> storable (get t "id") -> TaskDB.has_id id t = false.
Proof.
  intros Hk Hst. unfold TaskDB.has_id.
  destruct (parseInt id) as [| | |k]; [..|by destruct (Hk k)];
    by destruct (get t "id") as [| | |[]|].
Qed.

Lemma stored_id_storable w ts t :
  TaskDB.getAllTasks w = (Return ts, w) -> t ∈ ts ->
  t !! "id" = None \/ storable (get t "id").
Proof.
  intros Hget Ht. unfold get. destruct (t !! "id") as [v|] eqn:Hv; [right|by left].
  apply (getAllTasks_storable w ts t Hget Ht "id" v Hv).
Qed.

Lemma has_id_stored w ts id t :
  TaskDB.getAllTasks w = (Return ts, w) -> t ∈ ts ->
  TaskDB.has_id id t = true <-> exists k, parseInt id = Int k /\ id_is k t.
Proof.
  intros Hget Ht. split.
  - intros Hid. destruct (parseInt id) as [| | |k] eqn:Hk.
    + unfold TaskDB.has_id in Hid. by rewrite Hk, strict_equal_NaN in Hid.
    + apply has_id_get in Hid. rewrite Hk in Hid.
      destruct (stored_id_storable w ts t Hget Ht) as [Hnone|Hst];
        [unfold get in Hid; by rewrite Hnone in Hid|by rewrite Hid in Hst].
    + apply has_id_get in Hid. rewrite Hk in Hid.
      destruct (stored_id_storable w ts t Hget Ht) as [Hnone|Hst];
        [unfold get in Hid; by rewrite Hnone in Hid|by rewrite Hid in Hst].
    + exists k. split; [done|]. by apply (has_id_parsed id k).
  - intros (k & Hk & Hid). by apply (has_id_parsed id k).
Qed.

Lemma has_id_NaN id t : parseInt id = NaN -> TaskDB.has_id id t = false.
Proof. intros Hk. unfold TaskDB.has_id. by rewrite Hk, strict_equal_NaN. Qed.

Lemma has_id_none_stored w ts id :
  TaskDB.getAllTasks w = (Return ts, w) -> (forall k, parseInt id <> Int k) ->
  forall t, t ∈ ts -> TaskDB.has_id id t = false.
Proof.
  intros Hget Hk t Ht. destruct (TaskDB.has_id id t) eqn:Hid; [|done].
  apply (has_id_stored w ts id t Hget Ht) in Hid as (k & Hk' & _). by destruct (Hk k).
Qed.

(** C10, amended: the three operations compare the id property of each
    stored task with [parseInt(id)]. An id that parses to the integer [k], a
    string included, reaches the first task whose id is [k]: [getTaskById]
    returns it, [updateTask] replaces it, [deleteTask] removes the tasks
    with that id. An id that parses to no integer reaches no task, and
    nothing is thrown. A string that starts, after white space, with the
    decimal numeral of [k] and goes on with no digit parses to the Number of
    [k], which is [k] up to [2^53], as does the integer [k] itself; after
    the numeral of 0 the string must not go on with [x] or [X], the prefix
    of a hexadecimal numeral. *)
Theorem C10_ids_are_parsed (w : world) (ts : list object) (id : value) (fields : object) :
  TaskDB.getAllTasks w = (Return ts, w) ->
  (forall t, t ∈ ts ->
     (TaskDB.has_id id t = true <-> exists k, parseInt id = Int k /\ id_is k t)) /\
  (forall k i t, parseInt id = Int k -> ts !! i = Some t -> id_is k t ->
     (forall j u, (j < i)%nat -> ts !! j = Some u -> ~ id_is k u) ->
     TaskDB.getTaskById id w = (Return (Some t), w) /\
     (exists w', 
        TaskDB.updateTask id fields w =
          (Return (Some (<["updatedAt" := Str (clock w (ticks w))]> (fields ∪ t))), w') /\
        TaskDB.getAllTasks w' =
          (Return (<[i := persisted (<["updatedAt" := Str (clock w (ticks w))]> (fields ∪ t))]> ts),
           w')) /\
     (exists w', TaskDB.deleteTask id w = (Return true, w') /\
        TaskDB.getAllTasks w' = (Return (filter (fun u => ~ id_is k u) ts), w'))) /\
  ((forall k, parseInt id <> Int k) ->
     TaskDB.getTaskById id w = (Return None, w) /\
     TaskDB.updateTask id fields w = (Return None, w) /\
     exists w', TaskDB.deleteTask id w = (Return true, w') /\
                TaskDB.getAllTasks w' = (Return ts, w')) /\
  (forall k pad rest, blank pad = true -> no_digit_head rest -> (k = 0 -> no_x_head rest) ->
     parseInt (Str (pad +:+ numeral k +:+ rest)) = nearest_double k /\
     (- two_53 <= k <= two_53 -> parseInt (Str (pad +:+ numeral k +:+ rest)) = Int k)) /\
  (forall k, - two_53 <= k <= two_53 -> parseInt (Num (Int k)) = Int k).
Proof.
  intros Hget. split; [intros t Ht; by apply (has_id_stored w ts)|].
  split; [|split; [|split]].
  - intros k i t Hk Hi Ht Hmin.
    assert (TaskDB.has_id id t = true) as Hidt by by apply (has_id_parsed id k).
    assert (forall j u, (j < i)%nat -> ts !! j = Some u -> TaskDB.has_id id u = false) as Hmin'.
    { intros j u Hj Hu. destruct (TaskDB.has_id id u) eqn:Hidu; [|done].
      apply (has_id_parsed id k) in Hidu; [|done]. by destruct (Hmin j u). }
    split; [|split].
    + by apply (getTaskById_at w ts id i t).
    + eexists. split; [by apply (updateTask_at w ts id fields i t)|].
      rewrite getAllTasks_written, list_fmap_insert.
      by rewrite (getAllTasks_persisted w ts Hget).
    + exists (written (JSON_stringify
                (List.filter (fun u => negb (TaskDB.has_id id u)) ts)) w).
      split; [unfold TaskDB.deleteTask; by run_with Hget|].
      rewrite getAllTasks_written.
      rewrite (List_filter_decide _ (fun u => ~ id_is k u)).
      * f_equal. f_equal. rewrite <- (list_fmap_id (filter _ ts)) at 2.
        apply list_fmap_ext. intros j u Hu. simpl.
        apply (fmap_fixed_elem _ ts); [by apply (getAllTasks_persisted w)|].
        apply list_elem_of_lookup_2 in Hu. by apply list_elem_of_filter in Hu as [_ ?].
      * intros u. rewrite negb_true_iff, <- not_true_iff_false.
        by rewrite (has_id_parsed id k u Hk).
  - intros Hnone.
    destruct (operations_without_match w ts id fields Hget) as (Hg & Hu & w' & Hd & Hget' & _).
    { by apply (has_id_none_stored w ts). }
    repeat split; try done. by exists w'.
  - intros k pad rest Hpad Hrest Hx. split; [by apply parseInt_decimal_prefix|].
    intros Hk. rewrite parseInt_decimal_prefix by done. by apply nearest_double_exact.
  - apply parseInt_Int.
Qed.

(** C10, as stated, fails: the numeric prefix of the string [0x3] is the
    numeral of 0, and the string reaches the task 3 and not a task 0, being
    read as a hexadecimal numeral; and the string [9007199254740993] is the
    numeral of [2^53 + 1] and parses to [2^53]. *)
Lemma C10_hexadecimal_reaches_another_task :
  "0x3" = "" +:+ numeral 0 +:+ "x3" /\ no_digit_head "x3" /\
  parseInt (Str "0x3") = Int 3 /\
  (exists t, TaskDB.getTaskById (Str "0x3") seeded = (Return (Some t), seeded) /\
             id_is 3 t /\ ~ id_is 0 t) /\
  "9007199254740993" = "" +:+ numeral (two_53 + 1) +:+ "" /\
  parseInt (Str "9007199254740993") = Int two_53.
Proof.
  split; [reflexivity|]. split; [reflexivity|]. split; [by vm_compute|].
  split; [|split; [reflexivity|by vm_compute]].
  exists (TaskDB.task 3 "Setup Development Environment"
    "Install Node.js, MongoDB, Angular CLI, and VS Code with necessary extensions"
    "High" "2025-08-22" "Completed" "2025-08-17T11:20:00Z" "2025-08-19T16:45:00Z").
  split; [|split; [reflexivity|discriminate]].
  apply (getTaskById_at seeded TaskDB.sampleTasks (Str "0x3") 2);
    [apply getAllTasks_seeded|reflexivity|reflexivity|].
  intros [|[|j]] u Hj Hu; [| |lia]; by injection Hu as <-.
Qed.

(** ** The theorems at the seeded store *)

Lemma unique_ids_sampleTasks : unique_ids TaskDB.sampleTasks.
Proof. unfold unique_ids. apply (bool_decide_unpack _). by vm_compute. Qed.

Lemma no_sample_has_id_99 :
  forall t, t ∈ TaskDB.sampleTasks -> TaskDB.has_id (Str "99") t = false.
Proof.
  apply elem_of_sampleTasks. unfold TaskDB.sampleTasks.
  repeat (constructor; [reflexivity|]). constructor.
Qed.

Lemma sample_has_id (id : value) (n : nat) :
  match TaskDB.sampleTasks !! n with
  | Some t => TaskDB.has_id id t = true
  | None => False
  end ->
  exists t, t ∈ TaskDB.sampleTasks /\ TaskDB.has_id id t = true.
Proof.
  destruct (TaskDB.sampleTasks !! n) as [t|] eqn:Hn; [|done].
  intros Hid. exists t. split; [by apply list_elem_of_lookup_2 in Hn|done].
Qed.

(** C1 at the seeded store, for the id ["1"]. *)
Lemma C1_update_status_witness :
  TaskDB.getAllTasks seeded = (Return TaskDB.sampleTasks, seeded) /\
  (exists t, t ∈ TaskDB.sampleTasks /\ TaskDB.has_id (Str "1") t = true) /\
  exists (i : nat) (old new : object) (w' : world),
    TaskDB.sampleTasks !! i = Some old /\
    TaskDB.updateTask (Str "1") completed seeded = (Return (Some new), w') /\
    new !! "status" = Some (Str "Completed") /\
    new !! "title" = old !! "title" /\
    TaskDB.getAllTasks w' = (Return (<[i := new]> TaskDB.sampleTasks), w').
Proof.
  split; [apply getAllTasks_seeded|].
  split; [apply (sample_has_id (Str "1") 0); reflexivity|].
  destruct (C1_update_status seeded TaskDB.sampleTasks (Str "1") getAllTasks_seeded
              (sample_has_id (Str "1") 0 eq_refl))
    as (i & old & new & w' & Hi & _ & _ & Hrun & _ & Hstatus & _ & Hframe & _ & Hget & _).
  exists i, old, new, w'. repeat split; try assumption.
  apply Hframe; discriminate.
Defined.

(** C5 at the seeded store: the next id is 6. *)
Lemma C5_create_next_id_witness :
  TaskDB.getAllTasks seeded = (Return TaskDB.sampleTasks, seeded) /\
  ({["title" := Str "Write report"]} : object) !! "id" = None /\
  exists (new : object) (w' : world),
    @TaskDB.createTask example_host {["title" := Str "Write report"]} seeded =
      (Return new, w') /\
    new !! "id" = Some (Num (Int 6)).
Proof.
  assert (({["title" := Str "Write report"]} : object) !! "id" = None) as Hfields
    by reflexivity.
  split; [apply getAllTasks_seeded|]. split; [exact Hfields|].
  destruct (@C5_create_next_id example_host seeded TaskDB.sampleTasks
              {["title" := Str "Write report"]} getAllTasks_seeded Hfields)
    as (new & w' & Hrun & _ & Hmax & _).
  exists new, w'. split; [assumption|].
  apply (Hmax 5 max_id_sampleTasks). unfold two_53. lia.
Defined.

(** C6 at the seeded store, for the id ["99"]. *)
Lemma C6_absent_id_witness :
  TaskDB.getAllTasks seeded = (Return TaskDB.sampleTasks, seeded) /\
  (forall t, t ∈ TaskDB.sampleTasks -> TaskDB.has_id (Str "99") t = false) /\
  TaskDB.getTaskById (Str "99") seeded = (Return None, seeded) /\
  TaskDB.updateTask (Str "99") completed seeded = (Return None, seeded) /\
  exists w', TaskDB.deleteTask (Str "99") seeded = (Return true, w') /\
             TaskDB.getAllTasks w' = (Return TaskDB.sampleTasks, w').
Proof.
  split; [apply getAllTasks_seeded|]. split; [apply no_sample_has_id_99|].
  destruct (C6_absent_id seeded TaskDB.sampleTasks (Str "99") completed
              getAllTasks_seeded no_sample_has_id_99)
    as (Hg & Hu & w' & Hd & Hget & _).
  repeat split; try assumption. exists w'. split; assumption.
Defined.

(** C7 at the seeded store, for the id 2. *)
Lemma C7_delete_idempotent_witness :
  TaskDB.getAllTasks seeded = (Return TaskDB.sampleTasks, seeded) /\
  (exists t, t ∈ TaskDB.sampleTasks /\ TaskDB.has_id (Num (Int 2)) t = true) /\
  exists (w1 : world) (ts1 : list object),
    TaskDB.deleteTask (Num (Int 2)) seeded = (Return true, w1) /\
    TaskDB.getAllTasks w1 = (Return ts1, w1) /\
    length ts1 = 4%nat /\
    TaskDB.deleteTask (Num (Int 2)) w1 = (Return true, w1).
Proof.
  split; [apply getAllTasks_seeded|].
  split; [apply (sample_has_id (Num (Int 2)) 1); reflexivity|].
  destruct (C7_delete_idempotent seeded TaskDB.sampleTasks (Num (Int 2))
              getAllTasks_seeded (sample_has_id (Num (Int 2)) 1 eq_refl))
    as (w1 & ts1 & Hd & Hget & _ & _ & Hlen & Hd2).
  exists w1, ts1. repeat split; try assumption.
  specialize (Hlen unique_ids_sampleTasks). simpl in Hlen. congruence.
Defined.


(** C9 at the seeded store, for fields that carry timestamps and an id. *)
Lemma C9_create_stamps_witness :
  TaskDB.getAllTasks seeded = (Return TaskDB.sampleTasks, seeded) /\
  exists (new : object) (w' : world),
    @TaskDB.createTask example_host
      (<["id" := Num (Int 42)]> (<["createdAt" := Str "1999-12-31T23:59:59.000Z"]> ∅))
      seeded = (Return new, w') /\
    new !! "createdAt" = Some (Str "2026-01-01T00:00:00.000Z") /\
    new !! "id" = Some (Num (Int 42)).
Proof.
  split; [apply getAllTasks_seeded|].
  destruct (@C9_create_stamps example_host seeded TaskDB.sampleTasks
              (<["id" := Num (Int 42)]> (<["createdAt" := Str "1999-12-31T23:59:59.000Z"]> ∅))
              getAllTasks_seeded)
    as (new & w' & Hrun & Hc & _ & _ & Hid & _).
  exists new, w'. repeat split; try assumption. apply Hid. reflexivity.
Defined.

(** C10 at the seeded store, for the id [" 3abc"]. *)
Lemma C10_ids_are_parsed_witness :
  TaskDB.getAllTasks seeded = (Return TaskDB.sampleTasks, seeded) /\
  exists t, TaskDB.getTaskById (Str " 3abc") seeded = (Return (Some t), seeded) /\
            get t "title" = Str "Setup Development Environment".
Proof.
  split; [apply getAllTasks_seeded|].
  exists (TaskDB.task 3 "Setup Development Environment"
    "Install Node.js, MongoDB, Angular CLI, and VS Code with necessary extensions"
    "High" "2025-08-22" "Completed" "2025-08-17T11:20:00Z" "2025-08-19T16:45:00Z").
  split; [|reflexivity].
  apply (proj1 (proj2 (C10_ids_are_parsed seeded TaskDB.sampleTasks (Str " 3abc") ∅
                         getAllTasks_seeded)) 3 2%nat); try reflexivity.
  intros [|[|j]] u Hj Hu; [| |lia]; injection Hu as <-; discriminate.
Defined.

(** * Further properties of the storage layer *)

(** ** What the operations touch, and faults *)

Lemma getAllTasks_cases w :
  (exists ts, TaskDB.getAllTasks w = (Return ts, w)) \/
  TaskDB.getAllTasks w = (Throw SyntaxError, w).
Proof.
  rewrite getAllTasks_unfold.
  destruct (localStorage w !! TaskDB.storageKey) as [[| |l]|]; eauto.
Qed.

(** A fault of [getAllTasks] is the fault of every operation, and nothing
    was read from the clock or written by then. *)
Lemma operations_throw `{Host} w e id fields :
  TaskDB.getAllTasks w = (Throw e, w) ->
  TaskDB.getTaskById id w = (Throw e, w) /\
  TaskDB.createTask fields w = (Throw e, w) /\
  TaskDB.updateTask id fields w = (Throw e, w) /\
  TaskDB.deleteTask id w = (Throw e, w).
Proof.
  intros Hget. repeat split.
  - unfold TaskDB.getTaskById. by run_with Hget.
  - unfold TaskDB.createTask. by run_with Hget.
  - unfold TaskDB.updateTask. by run_with Hget.
  - unfold TaskDB.deleteTask. by run_with Hget.
Qed.

Lemma has_id_found_or_not id (ts : list object) :
  (exists t, t ∈ ts /\ TaskDB.has_id id t = true) \/
  (forall t, t ∈ ts -> TaskDB.has_id id t = false).
Proof.
  destruct (existsb (TaskDB.has_id id) ts) eqn:He.
  - left. by apply has_id_existsb.
  - right. intros t Ht. destruct (TaskDB.has_id id t) eqn:Hid; [|done].
    assert (existsb (TaskDB.has_id id) ts = true) as He'; [|congruence].
    apply existsb_exists. exists t. by rewrite <- list_elem_of_In.
Qed.

Lemma only_slot_refl w : only_slot w w.
Proof. by repeat split. Qed.

Lemma only_slot_written v w n :
  only_slot w (written v (Nat.iter n ticked w)).
Proof.
  assert (forall m, localStorage (Nat.iter m ticked w) = localStorage w /\
                    clock (Nat.iter m ticked w) = clock w /\
                    ticks (Nat.iter m ticked w) = (m + ticks w)%nat) as Hiter.
  { induction m as [|m (Hl & Hc & Ht)]; simpl; [done|]. rewrite Hl, Hc, Ht. done. }
  destruct (Hiter n) as (Hl & Hc & Ht). repeat split; simpl.
  - intros k Hk. by rewrite lookup_insert_ne, Hl.
  - done.
  - rewrite Ht. lia.
Qed.

(** X1: no storage operation touches a key of the storage other than the
    slot of the tasks, or the clock's future; the two reads and
    [initializeDatabase] and [deleteTask] never read the clock, [createTask]
    reads it at most twice and [updateTask] at most once. This holds in
    every state of the storage, whether the operation returns or throws. *)
Theorem storage_operations_frame `{Host} (w : world) (id : value) (fields : object) :
  snd (TaskDB.getAllTasks w) = w /\
  snd (TaskDB.getTaskById id w) = w /\
  (only_slot w (snd (TaskDB.initializeDatabase w)) /\
   ticks (snd (TaskDB.initializeDatabase w)) = ticks w) /\
  (only_slot w (snd (TaskDB.createTask fields w)) /\
   (ticks (snd (TaskDB.createTask fields w)) <= ticks w + 2)%nat) /\
  (only_slot w (snd (TaskDB.updateTask id fields w)) /\
   (ticks (snd (TaskDB.updateTask id fields w)) <= ticks w + 1)%nat) /\
  (only_slot w (snd (TaskDB.deleteTask id w)) /\
   ticks (snd (TaskDB.deleteTask id w)) = ticks w).
Proof.
  split; [by rewrite getAllTasks_unfold|].
  split; [|split].
  { destruct (getAllTasks_cases w) as [[ts Hget] | Hget].
    - unfold TaskDB.getTaskById. by run_with Hget.
    - by rewrite (proj1 (operations_throw w _ id fields Hget)). }
  { rewrite initializeDatabase_unfold. simpl.
    destruct (truthy _); [split; [apply only_slot_refl|done]|].
    split; [apply (only_slot_written _ w 0)|done]. }
  destruct (getAllTasks_cases w) as [[ts Hget] | Hget].
  - split; [|split].
    + rewrite (createTask_run w ts fields Hget). simpl.
      split; [apply (only_slot_written _ w 2)|lia].
    + destruct (has_id_found_or_not id ts) as [Hin | Hout].
      * destruct (updateTask_found w ts id fields Hget Hin) as (i & old & _ & _ & _ & Hrun).
        rewrite Hrun. simpl. split; [apply (only_slot_written _ w 1)|lia].
      * destruct (operations_without_match w ts id fields Hget Hout) as (_ & Hu & _).
        rewrite Hu. simpl. split; [apply only_slot_refl|lia].
    + destruct (deleteTask_run w ts id Hget) as [Hdel _]. rewrite Hdel. simpl.
      split; [apply (only_slot_written _ w 0)|done].
  - destruct (operations_throw w _ id fields Hget) as (_ & -> & -> & ->). simpl.
    repeat split; try apply only_slot_refl; lia.
Qed.

(** X2: while the slot holds a non-empty string that is no JSON text, every
    operation on the tasks throws [SyntaxError] and leaves the world as it
    was, and [initializeDatabase] leaves the string in place: the program
    never repairs the slot. *)
Theorem malformed_slot_is_permanent `{Host} (w : world) (id : value) (fields : object) :
  localStorage w !! TaskDB.storageKey = Some TMalformed ->
  TaskDB.initializeDatabase w = (Return tt, w) /\
  TaskDB.getAllTasks w = (Throw SyntaxError, w) /\
  TaskDB.getTaskById id w = (Throw SyntaxError, w) /\
  TaskDB.createTask fields w = (Throw SyntaxError, w) /\
  TaskDB.updateTask id fields w = (Throw SyntaxError, w) /\
  TaskDB.deleteTask id w = (Throw SyntaxError, w).
Proof.
  intros Hslot.
  assert (TaskDB.getAllTasks w = (Throw SyntaxError, w)) as Hget
    by (by rewrite getAllTasks_unfold, Hslot).
  split; [by rewrite initializeDatabase_unfold, Hslot|].
  split; [done|]. by apply operations_throw.
Qed.

(** ** How the operations compose *)

Lemma getTaskById_run w ts id :
  TaskDB.getAllTasks w = (Return ts, w) ->
  TaskDB.getTaskById id w = (Return (List.find (TaskDB.has_id id) ts), w).
Proof. intros Hget. unfold TaskDB.getTaskById. by run_with Hget. Qed.

Lemma find_app_found {A} (f : A -> bool) (l l' : list A) x :
  List.find f l = Some x -> List.find f (l ++ l') = Some x.
Proof.
  induction l as [|a r IH]; simpl; [done|]. by destruct (f a).
Qed.

Lemma find_app_missing {A} (f : A -> bool) (l l' : list A) :
  (forall x, x ∈ l -> f x = false) -> List.find f (l ++ l') = List.find f l'.
Proof.
  induction l as [|a r IH]; intros Hl; simpl; [done|].
  rewrite (Hl a) by apply list_elem_of_here.
  apply IH. intros y Hy. apply Hl. by apply list_elem_of_further.
Qed.

Lemma has_id_Int n t :
  - two_53 <= n <= two_53 ->
  TaskDB.has_id (Num (Int n)) t = true <-> get t "id" = Num (Int n).
Proof.
  intros Hn. unfold TaskDB.has_id. rewrite parseInt_Int by done.
  split; [apply strict_equal_Int|].
  intros ->. simpl. apply Z.eqb_refl.
Qed.

Lemma safe_ids_integer ts : safe_ids ts -> integer_ids ts.
Proof. intros Hsafe t Ht. destruct (Hsafe t Ht) as (n & Hn & _). by exists n. Qed.

Lemma get_persisted_Int o k n :
  get o k = Num (Int n) -> get (persisted o) k = Num (Int n).
Proof.
  unfold get. rewrite persisted_lookup.
  destruct (o !! k) as [v|]; simpl; [|done]. by intros ->.
Qed.

Lemma max_id_exists (ts : list object) :
  ts <> [] -> integer_ids ts -> exists k, max_id ts k.
Proof.
  induction ts as [|a r IH]; intros Hne Hint; [done|].
  destruct (Hint a) as [n Hn]; [apply list_elem_of_here|].
  destruct r as [|b r'].
  - exists n. split; [exists a; split; [apply list_elem_of_here|done]|].
    intros t Ht. apply list_elem_of_singleton in Ht as ->. exists n. split; [done|lia].
  - destruct IH as (k & (t & Ht & Hk) & Hall); [done| |].
    { intros t Ht. apply Hint. by apply list_elem_of_further. }
    exists (Z.max n k). split.
    + destruct (Z.max_spec n k) as [[_ ->] | [_ ->]].
      * exists t. split; [by apply list_elem_of_further|done].
      * exists a. split; [apply list_elem_of_here|done].
    + intros u Hu. apply elem_of_cons in Hu as [-> | Hu].
      * exists n. split; [done|lia].
      * destruct (Hall u Hu) as (m & Hm & Hle). exists m. split; [done|lia].
Qed.

(** The id of a task that [createTask] builds from fields without an id,
    on a collection of ids from [-2^53], below [2^53]: greater than every
    id, or 1. *)
Lemma generated_fresh `{Host} (ts : list object) :
  safe_ids ts ->
  exists n, generated ts = Int n /\ - two_53 < n <= two_53 /\
            (forall t m, t ∈ ts -> get t "id" = Num (Int m) -> m < n) /\
            (ts = [] -> n = 1) /\ (forall k, max_id ts k -> n = k + 1).
Proof.
  intros Hsafe. destruct ts as [|a r].
  - exists 1. split; [done|]. split; [unfold two_53; lia|]. repeat split; try done.
    + intros t m Ht. by apply elem_of_nil in Ht.
    + intros k [(t & Ht & _) _]. by apply elem_of_nil in Ht.
  - destruct (max_id_exists (a :: r)) as [k Hk]; [done|by apply safe_ids_integer|].
    assert (- two_53 <= k < two_53) as Hbound.
    { destruct Hk as [(t & Ht & Htk) _]. destruct (Hsafe t Ht) as (m & Hm & Hb).
      rewrite Htk in Hm. by injection Hm as ->. }
    exists (k + 1). rewrite (generated_max_id _ k Hk).
    split; [apply nearest_double_exact; lia|]. split; [lia|]. repeat split; try done.
    + intros t m Ht Hm. destruct Hk as [_ Hall].
      destruct (Hall t Ht) as (m' & Hm' & Hle). rewrite Hm in Hm'.
      injection Hm' as ->. lia.
    + intros k' Hk'. destruct Hk as [(t & Ht & Htk) Hall], Hk' as [(t' & Ht' & Htk') Hall'].
      destruct (Hall t' Ht') as (m & Hm & Hle). rewrite Htk' in Hm. injection Hm as <-.
      destruct (Hall' t Ht) as (m' & Hm' & Hle'). rewrite Htk in Hm'. injection Hm' as <-.
      lia.
Qed.

(** X3: on a collection whose ids are integers from [-2^53], below [2^53],
    [createTask] with fields that carry no id gives the new task an id that
    no task of the collection has; [getTaskById] of that id then returns the
    new task as it was stored, every lookup that found a task before finds
    the same task after, unique ids stay unique, and the new id is the
    greatest of the new collection. *)
Theorem create_then_lookup `{Host} (w : world) (ts : list object) (fields : object) :
  TaskDB.getAllTasks w = (Return ts, w) ->
  safe_ids ts ->
  fields !! "id" = None ->
  exists (n : Z) (new : object) (w' : world),
    TaskDB.createTask fields w = (Return new, w') /\
    get new "id" = Num (Int n) /\
    (forall t, t ∈ ts -> get t "id" <> Num (Int n)) /\
    TaskDB.getAllTasks w' = (Return (ts ++ [persisted new])%list, w') /\
    TaskDB.getTaskById (Num (Int n)) w' = (Return (Some (persisted new)), w') /\
    (forall id t, TaskDB.getTaskById id w = (Return (Some t), w) ->
                  TaskDB.getTaskById id w' = (Return (Some t), w')) /\
    (unique_ids ts -> unique_ids (ts ++ [persisted new])) /\
    max_id (ts ++ [persisted new]) n.
Proof.
  intros Hget Hsafe Hid.
  pose proof (safe_ids_integer ts Hsafe) as Hint.
  destruct (generated_fresh ts Hsafe) as (n & Hn & Hbound & Hfresh & _).
  assert (- two_53 <= n <= two_53) as Hbound' by lia.
  pose proof (createTask_run w ts fields Hget) as Hrun. cbv zeta in Hrun.
  set (new := <["updatedAt" := _]> _ : object) in Hrun.
  assert (get new "id" = Num (Int n)) as Hnew.
  { unfold get, new. rewrite !lookup_insert_ne by done.
    rewrite lookup_union_r by done. by rewrite lookup_singleton_eq, Hn. }
  assert (forall t, t ∈ ts -> get t "id" <> Num (Int n)) as Hother.
  { intros t Ht Heq. pose proof (Hfresh t n Ht Heq). lia. }
  set (w' := written (JSON_stringify (ts ++ [new])) (ticked (ticked w))) in *.
  assert (TaskDB.getAllTasks w' = (Return (ts ++ [persisted new])%list, w')) as Hget'.
  { unfold w'. rewrite getAllTasks_written, fmap_app. simpl.
    by rewrite (getAllTasks_persisted w ts Hget). }
  exists n, new, w'. repeat split; try done.
  - rewrite (getTaskById_run w' _ _ Hget'). do 2 f_equal.
    rewrite find_app_missing.
    + simpl. by rewrite (proj2 (has_id_Int n _ Hbound') (get_persisted_Int _ _ _ Hnew)).
    + intros t Ht. destruct (TaskDB.has_id (Num (Int n)) t) eqn:Ht'; [|done].
      apply has_id_Int in Ht'; [|done]. by destruct (Hother t Ht).
  - intros id t. rewrite (getTaskById_run w ts id Hget), (getTaskById_run w' _ id Hget').
    intros [= Hfind]. do 2 f_equal. by apply find_app_found.
  - unfold unique_ids. rewrite fmap_app. simpl. intros Hnd.
    apply NoDup_app. split; [done|]. split; [|apply NoDup_singleton].
    intros v Hv Hv'. apply list_elem_of_singleton in Hv' as ->.
    apply list_elem_of_fmap in Hv as (t & Ht & Hin).
    rewrite (get_persisted_Int _ _ _ Hnew) in Ht. by destruct (Hother t Hin).
  - exists (persisted new). split; [|by apply get_persisted_Int].
    apply elem_of_app. right. apply list_elem_of_here.
  - intros t Ht. apply elem_of_app in Ht as [Ht | Ht].
    + destruct (Hint t Ht) as [m Hm]. exists m. split; [done|].
      pose proof (Hfresh t m Ht Hm). lia.
    + apply list_elem_of_singleton in Ht as ->. exists n.
      split; [by apply get_persisted_Int|lia].
Qed.

Lemma find_filter_other {A} (f g : A -> bool) (l : list A) :
  (forall x, x ∈ l -> g x = true -> f x = true) ->
  List.find g (List.filter f l) = List.find g l.
Proof.
  induction l as [|a r IH]; intros Hl; simpl; [done|].
  assert (forall x, x ∈ r -> g x = true -> f x = true) as Hr.
  { intros x Hx. apply Hl. by apply list_elem_of_further. }
  destruct (f a) eqn:Hfa; simpl.
  - destruct (g a); [done|by apply IH].
  - destruct (g a) eqn:Hga; [|by apply IH].
    rewrite (Hl a) in Hfa; [done|apply list_elem_of_here|done].
Qed.

(** X4: [updateTask] with any fields, on a collection that has a task with
    the id, returns the first such task with each property of the fields
    written over it, [createdAt] and [id] included, and with [updatedAt]
    set from the clock whatever the fields say; the collection keeps its
    length and the task its place; and when the fields carry no id,
    [getTaskById] of the same id then returns the task as it was stored. *)
Theorem update_merges_fields (w : world) (ts : list object) (id : value) (fields : object) :
  TaskDB.getAllTasks w = (Return ts, w) ->
  (exists t, t ∈ ts /\ TaskDB.has_id id t = true) ->
  exists (i : nat) (old new : object) (w' : world),
    ts !! i = Some old /\ TaskDB.has_id id old = true /\
    (forall j t, (j < i)%nat -> ts !! j = Some t -> TaskDB.has_id id t = false) /\
    TaskDB.updateTask id fields w = (Return (Some new), w') /\
    new !! "updatedAt" = Some (Str (clock w (ticks w))) /\
    (forall k v, k <> "updatedAt" -> fields !! k = Some v -> new !! k = Some v) /\
    (forall k, k <> "updatedAt" -> fields !! k = None -> new !! k = old !! k) /\
    TaskDB.getAllTasks w' = (Return (<[i := persisted new]> ts), w') /\
    length (<[i := persisted new]> ts) = length ts /\
    ticks w' = S (ticks w) /\
    (fields !! "id" = None ->
     TaskDB.getTaskById id w' = (Return (Some (persisted new)), w')).
Proof.
  intros Hget Hin.
  destruct (updateTask_found w ts id fields Hget Hin)
    as (i & old & Hold & Hid & Hmin & Hrun).
  cbv zeta in Hrun. set (new := <["updatedAt" := _]> _ : object) in Hrun.
  set (w' := written (JSON_stringify (<[i := new]> ts)) (ticked w)) in *.
  assert (TaskDB.getAllTasks w' = (Return (<[i := persisted new]> ts), w')) as Hget'.
  { unfold w'. rewrite getAllTasks_written, list_fmap_insert.
    by rewrite (getAllTasks_persisted w ts Hget). }
  exists i, old, new, w'. repeat split; try done.
  - unfold new. by rewrite lookup_insert_eq.
  - intros k v Hk Hv. unfold new. rewrite lookup_insert_ne by done.
    by apply lookup_union_Some_l.
  - intros k Hk Hv. unfold new. rewrite lookup_insert_ne by done.
    by rewrite lookup_union_r.
  - apply length_insert.
  - intros Hnoid.
    apply (getTaskById_at w' (<[i := persisted new]> ts) id i); [done| | |].
    + apply list_lookup_insert_eq. by apply lookup_lt_Some in Hold.
    + unfold TaskDB.has_id in *.
      replace (get (persisted new) "id") with (get old "id"); [done|].
      unfold get. rewrite persisted_lookup. unfold new.
      rewrite lookup_insert_ne by done. rewrite lookup_union_r by done.
      destruct (old !! "id") as [v|] eqn:Hv; simpl; [|done].
      pose proof (getAllTasks_storable w ts old Hget) as Hst.
      specialize (Hst ltac:(by apply list_elem_of_lookup_2 in Hold) "id" v Hv).
      by destruct v as [| | |[]|].
    + intros j t Hj. rewrite list_lookup_insert_ne by lia. by apply Hmin.
Qed.

(** X5: after [deleteTask(id)] on a readable store, [getTaskById(id)]
    returns [undefined] and [updateTask(id, ...)] returns [null] and writes
    nothing, while the lookup of an id that parses to another Number
    returns what it returned before. *)
Theorem delete_then_lookup (w : world) (ts : list object) (id : value) (fields : object) :
  TaskDB.getAllTasks w = (Return ts, w) ->
  exists w1,
    TaskDB.deleteTask id w = (Return true, w1) /\
    TaskDB.getTaskById id w1 = (Return None, w1) /\
    TaskDB.updateTask id fields w1 = (Return None, w1) /\
    (forall id', parseInt id' <> parseInt id ->
       fst (TaskDB.getTaskById id' w1) = fst (TaskDB.getTaskById id' w)).
Proof.
  intros Hget. destruct (deleteTask_run w ts id Hget) as [Hdel Hget1].
  cbv zeta in Hdel, Hget1.
  set (ts1 := List.filter (fun t => negb (TaskDB.has_id id t)) ts) in *.
  set (w1 := written (JSON_stringify ts1) w) in *.
  assert (forall t, t ∈ ts1 -> TaskDB.has_id id t = false) as Hgone.
  { intros t Ht. apply list_elem_of_In, filter_In in Ht as [_ Ht].
    by apply negb_true_iff in Ht. }
  destruct (operations_without_match w1 ts1 id fields Hget1 Hgone) as (Hg & Hu & _).
  exists w1. repeat split; try done.
  intros id' Hne.
  rewrite (getTaskById_run w1 ts1 id' Hget1), (getTaskById_run w ts id' Hget). simpl.
  f_equal. apply find_filter_other. intros t Ht Hid'.
  apply negb_true_iff. destruct (TaskDB.has_id id t) eqn:Hid; [|done].
  apply has_id_get in Hid, Hid'. rewrite Hid in Hid'. congruence.
Qed.

(** X6: once [createTask] or [deleteTask] has written the slot, the seed
    data never come back: [initializeDatabase] changes nothing, even when
    the collection that was written is empty. In particular [deleteTask] on
    a store with nothing under the key leaves an empty collection where
    [initializeDatabase] would have put the five seed tasks. *)
Theorem written_slot_is_never_seeded `{Host} (w : world) (ts : list object)
    (id : value) (fields : object) :
  TaskDB.getAllTasks w = (Return ts, w) ->
  (exists new w1, TaskDB.createTask fields w = (Return new, w1) /\
                  TaskDB.initializeDatabase w1 = (Return tt, w1)) /\
  (exists w1 ts1, TaskDB.deleteTask id w = (Return true, w1) /\
                  TaskDB.initializeDatabase w1 = (Return tt, w1) /\
                  TaskDB.getAllTasks w1 = (Return ts1, w1) /\
                  (localStorage w !! TaskDB.storageKey = None -> ts1 = [])).
Proof.
  intros Hget. split.
  - eexists _, _. split; [by apply createTask_run|].
    rewrite initializeDatabase_unfold. unfold written at 1. simpl.
    by rewrite lookup_insert_eq.
  - destruct (deleteTask_run w ts id Hget) as [Hdel Hget1].
    eexists _, _. split; [exact Hdel|]. split; [|split; [exact Hget1|]].
    + rewrite initializeDatabase_unfold. unfold written at 1. simpl.
      by rewrite lookup_insert_eq.
    + intros Hnone. rewrite getAllTasks_unfold, Hnone in Hget.
      by injection Hget as <-.
Qed.

Lemma Math_max_NaN (l : list number) : NaN ∈ l -> Math_max l = NaN.
Proof.
  induction l as [|x r IH]; intros Hin; [by apply elem_of_nil in Hin|].
  simpl. apply elem_of_cons in Hin as [<- | Hin]; [done|].
  rewrite IH by done. by destruct x.
Qed.

(** X7: when a task of the collection has no id property, [createTask] with
    fields that carry no id gives the new task the id [NaN], which is stored
    as [null]; no id given to [getTaskById], [updateTask] or [deleteTask]
    matches the new task, as returned or as stored. *)
Theorem missing_id_poisons_generateId `{Host} (w : world) (ts : list object)
    (fields : object) :
  TaskDB.getAllTasks w = (Return ts, w) ->
  (exists t, t ∈ ts /\ t !! "id" = None) ->
  fields !! "id" = None ->
  exists (new : object) (w' : world),
    TaskDB.createTask fields w = (Return new, w') /\
    new !! "id" = Some (Num NaN) /\
    persisted new !! "id" = Some Null /\
    TaskDB.getAllTasks w' = (Return (ts ++ [persisted new])%list, w') /\
    (forall id, TaskDB.has_id id new = false /\ TaskDB.has_id id (persisted new) = false).
Proof.
  intros Hget (t & Ht & Hnoid) Hid.
  assert (generated ts = NaN) as Hgen.
  { unfold generated. destruct ts as [|a r]; [by apply elem_of_nil in Ht|].
    replace (0 <? Z.of_nat (length (a :: r))) with true
      by (symmetry; apply Z.ltb_lt; simpl; lia).
    rewrite Math_max_NaN; [done|]. apply list_elem_of_fmap. exists t.
    split; [|done]. unfold get. by rewrite Hnoid. }
  pose proof (createTask_run w ts fields Hget) as Hrun. cbv zeta in Hrun.
  set (new := <["updatedAt" := _]> _ : object) in Hrun.
  assert (new !! "id" = Some (Num NaN)) as Hnew.
  { unfold new. rewrite !lookup_insert_ne by done.
    rewrite lookup_union_r by done. by rewrite lookup_singleton_eq, Hgen. }
  assert (persisted new !! "id" = Some Null) as Hstored
    by (by rewrite persisted_lookup, Hnew).
  eexists new, _. split; [exact Hrun|]. repeat split; try done.
  - rewrite getAllTasks_written, fmap_app. simpl.
    by rewrite (getAllTasks_persisted w ts Hget).
  - unfold TaskDB.has_id, get. rewrite Hnew. simpl. by destruct (parseInt id).
  - unfold TaskDB.has_id, get. rewrite Hstored. simpl. by destruct (parseInt id).
Qed.

(** X8: ids are reused. On a collection whose ids are integers from
    [-2^53], below [2^53], after [deleteTask] of the greatest id [k], the
    next [createTask] with fields that carry no id gives the new task one
    more than the greatest id that is left, which is at most [k], and 1 when
    no task is left. *)
Theorem deleted_greatest_id_is_reused `{Host} (w : world) (ts : list object)
    (k : Z) (fields : object) :
  TaskDB.getAllTasks w = (Return ts, w) ->
  safe_ids ts ->
  max_id ts k ->
  fields !! "id" = None ->
  exists (w1 w2 : world) (ts1 : list object) (new : object) (n : Z),
    TaskDB.deleteTask (Num (Int k)) w = (Return true, w1) /\
    TaskDB.getAllTasks w1 = (Return ts1, w1) /\
    TaskDB.createTask fields w1 = (Return new, w2) /\
    get new "id" = Num (Int n) /\
    (ts1 = [] -> n = 1) /\
    (forall k', max_id ts1 k' -> n = k' + 1 /\ n <= k).
Proof.
  intros Hget Hsafe Hmax Hid.
  destruct (deleteTask_run w ts (Num (Int k)) Hget) as [Hdel Hget1].
  cbv zeta in Hdel, Hget1.
  set (ts1 := List.filter (fun t => negb (TaskDB.has_id (Num (Int k)) t)) ts) in *.
  assert (- two_53 <= k <= two_53) as Hbound.
  { destruct Hmax as [(t & Ht & Htk) _]. destruct (Hsafe t Ht) as (m & Hm & Hb).
    rewrite Htk in Hm. injection Hm as ->. lia. }
  assert (forall t, t ∈ ts1 -> exists m, get t "id" = Num (Int m) /\ m < k) as Hless.
  { intros t Ht. apply list_elem_of_In, filter_In in Ht as [Ht Hne].
    apply list_elem_of_In in Ht. destruct Hmax as [_ Hall].
    destruct (Hall t Ht) as (m & Hm & Hle). exists m. split; [done|].
    destruct (decide (m = k)) as [-> | Hmk]; [|lia].
    apply has_id_Int in Hm; [|done]. by rewrite Hm in Hne. }
  assert (safe_ids ts1) as Hsafe1.
  { intros t Ht. apply Hsafe. apply list_elem_of_In, filter_In in Ht as [Ht _].
    by apply list_elem_of_In. }
  destruct (generated_fresh ts1 Hsafe1) as (n & Hn & _ & _ & Hempty & Hnext).
  pose proof (createTask_run _ ts1 fields Hget1) as Hrun. cbv zeta in Hrun.
  set (new := <["updatedAt" := _]> _ : object) in Hrun.
  eexists _, _, ts1, new, n. split; [exact Hdel|]. split; [exact Hget1|].
  split; [exact Hrun|]. split; [|split; [done|]].
  - unfold get, new. rewrite !lookup_insert_ne by done.
    rewrite lookup_union_r by done. by rewrite lookup_singleton_eq, Hn.
  - intros k' Hk'. split; [by apply Hnext|]. rewrite (Hnext k' Hk').
    destruct Hk' as [(t & Ht & Htk) _]. destruct (Hless t Ht) as (m & Hm & Hlt).
    rewrite Htk in Hm. injection Hm as <-. lia.
Qed.

(** * Further properties of the facade *)

(** X9: on a readable store no operation of the facade rejects. [getTasks]
    answers with the whole collection; [getTask] and [updateTask] answer
    [success: false] with [Task not found] exactly when no task has the id,
    and nothing is written then; [deleteTask] answers [success: true]
    whether a task has the id or not; [createTask] answers with the task
    the storage returned. *)
Theorem facade_responses `{Host} (w : world) (ts : list object) (id : value)
    (fields : object) :
  TaskDB.getAllTasks w = (Return ts, w) ->
  TaskAPI.getTasks w =
    (Return (TaskAPI.Response true (Some (TaskAPI.TaskList ts))
               "Tasks retrieved successfully"), w) /\
  ((forall t, t ∈ ts -> TaskDB.has_id id t = false) ->
     TaskAPI.getTask id w = (Return (TaskAPI.Response false None "Task not found"), w) /\
     TaskAPI.updateTask id fields w =
       (Return (TaskAPI.Response false None "Task not found"), w)) /\
  ((exists t, t ∈ ts /\ TaskDB.has_id id t = true) ->
     exists (t new : object) (w' : world),
       t ∈ ts /\ TaskDB.has_id id t = true /\
       TaskAPI.getTask id w =
         (Return (TaskAPI.Response true (Some (TaskAPI.OneTask t))
                    "Task retrieved successfully"), w) /\
       TaskDB.updateTask id fields w = (Return (Some new), w') /\
       TaskAPI.updateTask id fields w =
         (Return (TaskAPI.Response true (Some (TaskAPI.OneTask new))
                    "Task updated successfully"), w')) /\
  (exists w', TaskDB.deleteTask id w = (Return true, w') /\
     TaskAPI.deleteTask id w =
       (Return (TaskAPI.Response true None "Task deleted successfully"), w')) /\
  (exists new w', TaskDB.createTask fields w = (Return new, w') /\
     TaskAPI.createTask fields w =
       (Return (TaskAPI.Response true (Some (TaskAPI.OneTask new))
                  "Task created successfully"), w')).
Proof.
  intros Hget. split; [|split; [|split; [|split]]].
  - run_api. by rewrite Hget.
  - intros Hout.
    destruct (operations_without_match w ts id fields Hget Hout) as (Hg & Hu & _).
    split; run_api; [by rewrite Hg|by rewrite Hu].
  - intros Hin.
    destruct (updateTask_found w ts id fields Hget Hin) as (i & old & Hold & Hid & Hmin & Hrun).
    cbv zeta in Hrun. eexists old, _, _.
    split; [by apply list_elem_of_lookup_2 in Hold|]. split; [done|].
    split; [|split; [exact Hrun|]].
    + run_api. by rewrite (getTaskById_at w ts id i old).
    + run_api. by rewrite Hrun.
  - destruct (deleteTask_run w ts id Hget) as [Hdel _].
    eexists. split; [exact Hdel|]. run_api. by rewrite Hdel.
  - pose proof (createTask_run w ts fields Hget) as Hrun. cbv zeta in Hrun.
    eexists _, _. split; [exact Hrun|]. run_api. by rewrite Hrun.
Qed.

(** * Further properties of the component *)

(** ** The statistics *)

Lemma filter_length_le {A} (f : A -> bool) (l : list A) :
  (length (List.filter f l) <= length l)%nat.
Proof. apply sublist_length, List_filter_sublist. Qed.

Lemma two_filters_length {A} (f g : A -> bool) (l : list A) :
  (forall x, f x = true -> g x = false) ->
  (length (List.filter f l) + length (List.filter g l) <= length l)%nat /\
  ((length (List.filter f l) + length (List.filter g l))%nat = length l <->
   Forall (fun x => f x = true \/ g x = true) l).
Proof.
  intros Hfg. induction l as [|x r [Hle Heq]]; simpl.
  - split; [lia|]. split; [constructor|done].
  - destruct (f x) eqn:Hf; [rewrite (Hfg x Hf)|destruct (g x) eqn:Hg]; simpl.
    + split; [lia|]. rewrite Forall_cons. split.
      * intros Hs. split; [by left|]. apply Heq. lia.
      * intros [_ Hr]. apply Heq in Hr. lia.
    + split; [lia|]. rewrite Forall_cons. split.
      * intros Hs. split; [by right|]. apply Heq. lia.
      * intros [_ Hr]. apply Heq in Hr. lia.
    + split; [lia|]. rewrite Forall_cons. split; [lia|].
      intros [[Hx | Hx] _]; congruence.
Qed.

Lemma filter_length_Permutation {A} (f : A -> bool) (l l' : list A) :
  l ≡ₚ l' -> length (List.filter f l) = length (List.filter f l').
Proof.
  induction 1 as [|x l l' _ IH|x y l|l l' l'' _ IH1 _ IH2]; simpl.
  - done.
  - destruct (f x); simpl; by rewrite IH.
  - by destruct (f x), (f y).
  - by rewrite IH1.
Qed.

(** X10: in the statistics of the dashboard the total is the number of
    cached tasks; pending and completed together never exceed it, and make
    it up exactly when every task has the status [Pending] or [Completed];
    the high-priority count never exceeds it; and the statistics do not
    depend on the order of the cached tasks. *)
Theorem calculateStats_counts (this : AppComponent.state) :
  let s := Component.calculateStats this in
  Component.total s = length (AppComponent.tasks this) /\
  (Component.pending s + Component.completed s <= Component.total s)%nat /\
  ((Component.pending s + Component.completed s)%nat = Component.total s <->
   Forall (fun t => get t "status" = Str "Pending" \/ get t "status" = Str "Completed")
          (AppComponent.tasks this)) /\
  (Component.highPriority s <= Component.total s)%nat /\
  (forall this', AppComponent.tasks this' ≡ₚ AppComponent.tasks this ->
                 Component.calculateStats this' = s).
Proof.
  assert (forall t, AppComponent.has_status "Pending" t = true ->
                    AppComponent.has_status "Completed" t = false) as Hdisjoint.
  { intros t Hp%has_status_spec. unfold AppComponent.has_status. by rewrite Hp. }
  destruct (two_filters_length _ _ (AppComponent.tasks this) Hdisjoint) as [Hle Heq].
  simpl. split; [done|]. split; [done|]. split; [|split].
  - rewrite Heq. apply Forall_iff. intros t. by rewrite !has_status_spec.
  - apply filter_length_le.
  - intros this' Hperm. unfold Component.calculateStats.
    rewrite !(filter_length_Permutation _ _ _ Hperm).
    by rewrite (Permutation_length Hperm).
Qed.

(** ** Searching *)

Lemma append_assoc (a b c : string) : (a +:+ b) +:+ c = a +:+ (b +:+ c).
Proof.
  induction a as [|x a IH]; [done|].
  change (String x ((a +:+ b) +:+ c) = String x (a +:+ (b +:+ c))). by rewrite IH.
Qed.

Lemma toLowerCase_append (a b : string) :
  toLowerCase (a +:+ b) = toLowerCase a +:+ toLowerCase b.
Proof.
  induction a as [|x a IH]; [done|].
  change (String (lower x) (toLowerCase (a +:+ b)) =
          String (lower x) (toLowerCase a +:+ toLowerCase b)). by rewrite IH.
Qed.

Lemma occurs_in_trans (a b c : string) : occurs_in a b -> occurs_in b c -> occurs_in a c.
Proof.
  intros (p & q & ->) (p' & q' & ->). exists (p' +:+ p), (q +:+ q').
  by rewrite !append_assoc.
Qed.

Lemma occurs_in_toLowerCase (a b : string) :
  occurs_in a b -> occurs_in (toLowerCase a) (toLowerCase b).
Proof.
  intros (p & q & ->). exists (toLowerCase p), (toLowerCase q).
  by rewrite !toLowerCase_append.
Qed.

Lemma blank_append (a b : string) : blank (a +:+ b) = blank a && blank b.
Proof.
  induction a as [|x a IH]; [done|].
  change (is_white_space x && blank (a +:+ b) = is_white_space x && blank a && blank b).
  rewrite IH. by destruct (is_white_space x).
Qed.

Lemma blank_occurs_in (q1 q2 : string) :
  occurs_in q1 q2 -> blank q2 = true -> blank q1 = true.
Proof.
  intros (p & q & ->). rewrite !blank_append. intros Hall.
  apply andb_true_iff in Hall as [_ Hall]. by apply andb_true_iff in Hall as [Hall _].
Qed.

Lemma shown_refines (q1 q2 : string) (t : object) :
  occurs_in q1 q2 -> shown q2 t -> shown q1 t.
Proof.
  intros Hq (s & Hs & Hocc). exists s. split; [done|].
  eapply occurs_in_trans; [by apply occurs_in_toLowerCase|done].
Qed.

Lemma filter_sublist_filter {A} (f g : A -> bool) (l : list A) :
  (forall x, g x = true -> f x = true) ->
  sublist (List.filter g l) (List.filter f l).
Proof.
  intros Hgf. induction l as [|x r IH]; simpl; [constructor|].
  destruct (g x) eqn:Hg; [rewrite (Hgf x Hg); by constructor|].
  destruct (f x); [by constructor|done].
Qed.

Lemma searchTasks_searchable (this : AppComponent.state) (query : string) :
  Forall searchable (AppComponent.tasks this) ->
  AppComponent.searched query this =
  Return (AppComponent.State (AppComponent.tasks this)
            (if blank query then AppComponent.getFilteredTasksByStatus this
             else List.filter (shownb query) (AppComponent.getFilteredTasksByStatus this))
            (AppComponent.currentFilter this) (AppComponent.currentPage this)).
Proof.
  intros Hwf. unfold AppComponent.searched. destruct (blank query); [done|].
  rewrite filter_throwing_searchable; [done|].
  apply Forall_forall. intros t Ht. apply (proj1 (Forall_forall searchable _) Hwf).
  eapply elem_of_sublist; [done | apply getFilteredTasksByStatus_sublist].
Qed.

(** X11: a longer query never shows more. On a cached list of tasks whose
    title and description are strings, when the query [q1] occurs in the
    query [q2], the view that [searchTasks(q2)] leaves is a subsequence of
    the view that [searchTasks(q1)] leaves, a blank [q1] included; neither
    search changes the cached tasks or the store, and when every task of the
    view of [q1] is renderable neither throws. The strings are those of the
    model, of characters below U+0100. *)
Theorem search_refines `{Browser} (c : Component.component) (w : world)
    (q1 q2 : string) :
  Forall searchable (Component.tasks c) ->
  occurs_in q1 q2 ->
  exists (o1 o2 : outcome unit) (c1 c2 : Component.component),
    Component.searchTasks q1 (c, w) = (o1, (c1, w)) /\
    Component.searchTasks q2 (c, w) = (o2, (c2, w)) /\
    sublist (Component.filteredTasks c2) (Component.filteredTasks c1) /\
    Component.tasks c1 = Component.tasks c /\
    Component.tasks c2 = Component.tasks c /\
    (o1 = Return tt \/ o1 = Throw TypeError) /\
    (o2 = Return tt \/ o2 = Throw TypeError) /\
    (Forall renderable (Component.filteredTasks c1) -> o1 = Return tt /\ o2 = Return tt).
Proof.
  intros Hwf Hocc.
  pose proof (searchTasks_run c w q1) as Hrun1.
  pose proof (searchTasks_run c w q2) as Hrun2.
  rewrite (searchTasks_searchable (Component.view c) q1 Hwf) in Hrun1.
  rewrite (searchTasks_searchable (Component.view c) q2 Hwf) in Hrun2.
  destruct Hrun1 as (o1 & Hrun1 & Hcases1 & Hok1).
  destruct Hrun2 as (o2 & Hrun2 & Hcases2 & Hok2).
  simpl in Hok1, Hok2.
  assert (sublist (if blank q2 then AppComponent.getFilteredTasksByStatus (Component.view c)
                   else List.filter (shownb q2)
                          (AppComponent.getFilteredTasksByStatus (Component.view c)))
                  (if blank q1 then AppComponent.getFilteredTasksByStatus (Component.view c)
                   else List.filter (shownb q1)
                          (AppComponent.getFilteredTasksByStatus (Component.view c))))
    as Hsub.
  { destruct (blank q1) eqn:Hb1.
    - destruct (blank q2); [done|apply List_filter_sublist].
    - destruct (blank q2) eqn:Hb2.
      + rewrite (blank_occurs_in q1 q2 Hocc Hb2) in Hb1. done.
      + apply filter_sublist_filter. intros t Ht. apply shownb_spec.
        apply (shown_refines q1 q2); [done|]. by apply shownb_spec. }
  eexists o1, o2, _, _. split; [exact Hrun1|]. split; [exact Hrun2|].
  split; [exact Hsub|]. split; [done|]. split; [done|].
  split; [done|]. split; [done|].
  intros Hall. split; [by apply Hok1|].
  apply Hok2. by apply (Forall_renderable_sublist _ _ Hsub).
Qed.

Lemma is_white_space_lower c : is_white_space (lower c) = is_white_space c.
Proof. by destruct c as [[] [] [] [] [] [] [] []]. Qed.

Lemma blank_toLowerCase q : blank (toLowerCase q) = blank q.
Proof.
  induction q as [|c q IH]; simpl; [done|]. by rewrite is_white_space_lower, IH.
Qed.

Lemma filter_throwing_ext {A} (f g : A -> outcome bool) (l : list A) :
  (forall x, f x = g x) ->
  AppComponent.filter_throwing f l = AppComponent.filter_throwing g l.
Proof.
  intros Hfg. induction l as [|x r IH]; simpl; [done|]. by rewrite Hfg, IH.
Qed.

(** X12: the search ignores the case of the query. Two queries with the
    same lower-case form leave the component in the same state, and return
    or throw the same, on every cached list and every page; so do the
    assignments of the search taken alone. *)
Theorem search_ignores_case `{Browser} (c : Component.component) (w : world)
    (q1 q2 : string) :
  toLowerCase q1 = toLowerCase q2 ->
  Component.searchTasks q1 (c, w) = Component.searchTasks q2 (c, w) /\
  (forall this, AppComponent.searched q1 this = AppComponent.searched q2 this).
Proof.
  intros Hq.
  assert (blank q1 = blank q2) as Hblank.
  { by rewrite <- (blank_toLowerCase q1), <- (blank_toLowerCase q2), Hq. }
  assert (forall l, AppComponent.filter_throwing (AppComponent.matches_query q1) l =
                    AppComponent.filter_throwing (AppComponent.matches_query q2) l)
    as Hfilter.
  { intros l. apply filter_throwing_ext.
    intros t. unfold AppComponent.matches_query. by rewrite Hq. }
  split.
  - unfold Component.searchTasks. rewrite Hblank.
    destruct (blank q2); [done|].
    unfold mbind, Component.Method_bind, Component.this, Component.result. simpl.
    by rewrite Hfilter.
  - intros this. unfold AppComponent.searched. rewrite Hblank.
    destruct (blank q2); [done|]. by rewrite Hfilter.
Qed.

(** * The further properties at closed stores *)

(** X2 at the store whose slot holds no JSON text. *)
Lemma malformed_slot_is_permanent_witness :
  localStorage malformed_store !! TaskDB.storageKey = Some TMalformed /\
  @TaskDB.createTask example_host completed malformed_store =
    (Throw SyntaxError, malformed_store) /\
  TaskDB.initializeDatabase malformed_store = (Return tt, malformed_store).
Proof.
  assert (localStorage malformed_store !! TaskDB.storageKey = Some TMalformed) as Hslot
    by reflexivity.
  split; [exact Hslot|].
  destruct (@malformed_slot_is_permanent example_host malformed_store Null completed Hslot)
    as (Hinit & _ & _ & Hcreate & _).
  split; assumption.
Defined.

(** X3 at the seeded store. *)
Lemma safe_ids_sampleTasks : safe_ids TaskDB.sampleTasks.
Proof.
  unfold safe_ids.
  apply (elem_of_sampleTasks
           (fun t => exists n, get t "id" = Num (Int n) /\ - two_53 <= n < two_53)).
  unfold TaskDB.sampleTasks.
  repeat (constructor; [eexists; split; [reflexivity|unfold two_53; lia]|]). constructor.
Qed.

Lemma create_then_lookup_witness :
  TaskDB.getAllTasks seeded = (Return TaskDB.sampleTasks, seeded) /\
  safe_ids TaskDB.sampleTasks /\
  ({["title" := Str "Write report"]} : object) !! "id" = None /\
  exists (n : Z) (new : object) (w' : world),
    @TaskDB.createTask example_host {["title" := Str "Write report"]} seeded =
      (Return new, w') /\
    TaskDB.getTaskById (Num (Int n)) w' = (Return (Some (persisted new)), w') /\
    unique_ids (TaskDB.sampleTasks ++ [persisted new]).
Proof.
  assert (({["title" := Str "Write report"]} : object) !! "id" = None) as Hfields
    by reflexivity.
  split; [apply getAllTasks_seeded|]. split; [apply safe_ids_sampleTasks|].
  split; [exact Hfields|].
  destruct (@create_then_lookup example_host seeded TaskDB.sampleTasks
              {["title" := Str "Write report"]} getAllTasks_seeded
              safe_ids_sampleTasks Hfields)
    as (n & new & w' & Hrun & _ & _ & _ & Hget & _ & Huniq & _).
  exists n, new, w'. repeat split; try assumption.
  apply Huniq, unique_ids_sampleTasks.
Defined.

(** X4 at the seeded store, for the id ["4"]. *)
Lemma update_merges_fields_witness :
  TaskDB.getAllTasks seeded = (Return TaskDB.sampleTasks, seeded) /\
  (exists t, t ∈ TaskDB.sampleTasks /\ TaskDB.has_id (Str "4") t = true) /\
  exists (new : object) (w' : world),
    TaskDB.updateTask (Str "4") completed seeded = (Return (Some new), w') /\
    new !! "status" = Some (Str "Completed") /\
    TaskDB.getTaskById (Str "4") w' = (Return (Some (persisted new)), w').
Proof.
  split; [apply getAllTasks_seeded|].
  split; [apply (sample_has_id (Str "4") 3); reflexivity|].
  destruct (update_merges_fields seeded TaskDB.sampleTasks (Str "4") completed
              getAllTasks_seeded (sample_has_id (Str "4") 3 eq_refl))
    as (i & old & new & w' & _ & _ & _ & Hrun & _ & Hfields & _ & _ & _ & _ & Hget).
  exists new, w'. split; [assumption|]. split.
  - apply Hfields; [discriminate|reflexivity].
  - apply Hget. reflexivity.
Defined.

(** X5 at the seeded store, for the id 2. *)
Lemma delete_then_lookup_witness :
  TaskDB.getAllTasks seeded = (Return TaskDB.sampleTasks, seeded) /\
  exists w1,
    TaskDB.deleteTask (Num (Int 2)) seeded = (Return true, w1) /\
    TaskDB.getTaskById (Num (Int 2)) w1 = (Return None, w1) /\
    fst (TaskDB.getTaskById (Num (Int 3)) w1) =
      fst (TaskDB.getTaskById (Num (Int 3)) seeded).
Proof.
  split; [apply getAllTasks_seeded|].
  destruct (delete_then_lookup seeded TaskDB.sampleTasks (Num (Int 2)) completed
              getAllTasks_seeded)
    as (w1 & Hd & Hget & _ & Hother).
  exists w1. repeat split; try assumption. apply Hother. discriminate.
Defined.

(** X6 at the seeded store. *)
Lemma written_slot_is_never_seeded_witness :
  TaskDB.getAllTasks seeded = (Return TaskDB.sampleTasks, seeded) /\
  exists w1 ts1,
    TaskDB.deleteTask (Num (Int 2)) seeded = (Return true, w1) /\
    TaskDB.initializeDatabase w1 = (Return tt, w1) /\
    TaskDB.getAllTasks w1 = (Return ts1, w1).
Proof.
  split; [apply getAllTasks_seeded|].
  destruct (@written_slot_is_never_seeded example_host seeded TaskDB.sampleTasks
              (Num (Int 2)) completed getAllTasks_seeded)
    as (_ & w1 & ts1 & Hd & Hinit & Hget & _).
  exists w1, ts1. repeat split; assumption.
Defined.

(** X7 at the store that holds one task without an id. *)
Lemma getAllTasks_without_id :
  TaskDB.getAllTasks without_id = (Return [persisted hello], without_id).
Proof. apply (getAllTasks_written [hello] fresh). Qed.

Lemma missing_id_poisons_generateId_witness :
  TaskDB.getAllTasks without_id = (Return [persisted hello], without_id) /\
  (exists t, t ∈ [persisted hello] /\ t !! "id" = None) /\
  (completed : object) !! "id" = None /\
  exists (new : object) (w' : world),
    @TaskDB.createTask example_host completed without_id = (Return new, w') /\
    new !! "id" = Some (Num NaN) /\
    persisted new !! "id" = Some Null.
Proof.
  assert (exists t, t ∈ [persisted hello] /\ t !! "id" = None) as Hmissing.
  { exists (persisted hello). split; [apply list_elem_of_here|reflexivity]. }
  assert ((completed : object) !! "id" = None) as Hfields by reflexivity.
  split; [apply getAllTasks_without_id|]. split; [exact Hmissing|].
  split; [exact Hfields|].
  destruct (@missing_id_poisons_generateId example_host without_id [persisted hello]
              completed getAllTasks_without_id Hmissing Hfields)
    as (new & w' & Hrun & Hid & Hnull & _).
  exists new, w'. repeat split; assumption.
Defined.

(** X8 at the seeded store: task 5 is deleted and the next task is task 5. *)
Lemma deleted_greatest_id_is_reused_witness :
  TaskDB.getAllTasks seeded = (Return TaskDB.sampleTasks, seeded) /\
  safe_ids TaskDB.sampleTasks /\
  max_id TaskDB.sampleTasks 5 /\
  (completed : object) !! "id" = None /\
  exists (w1 w2 : world) (new : object) (n : Z),
    TaskDB.deleteTask (Num (Int 5)) seeded = (Return true, w1) /\
    @TaskDB.createTask example_host completed w1 = (Return new, w2) /\
    get new "id" = Num (Int n).
Proof.
  assert ((completed : object) !! "id" = None) as Hfields by reflexivity.
  split; [apply getAllTasks_seeded|]. split; [apply safe_ids_sampleTasks|].
  split; [apply max_id_sampleTasks|]. split; [exact Hfields|].
  destruct (@deleted_greatest_id_is_reused example_host seeded TaskDB.sampleTasks 5
              completed getAllTasks_seeded safe_ids_sampleTasks max_id_sampleTasks Hfields)
    as (w1 & w2 & ts1 & new & n & Hd & _ & Hc & Hid & _).
  exists w1, w2, new, n. repeat split; assumption.
Defined.

(** X9 at the seeded store. *)
Lemma facade_responses_witness :
  TaskDB.getAllTasks seeded = (Return TaskDB.sampleTasks, seeded) /\
  TaskAPI.getTasks seeded =
    (Return (TaskAPI.Response true (Some (TaskAPI.TaskList TaskDB.sampleTasks))
               "Tasks retrieved successfully"), seeded) /\
  TaskAPI.getTask (Str "99") seeded =
    (Return (TaskAPI.Response false None "Task not found"), seeded).
Proof.
  split; [apply getAllTasks_seeded|].
  destruct (@facade_responses example_host seeded TaskDB.sampleTasks (Str "99")
              completed getAllTasks_seeded)
    as (Hlist & Habsent & _).
  split; [assumption|]. apply (Habsent no_sample_has_id_99).
Defined.

(** X11 on the list of one task: [or] occurs in [World]. *)
Lemma search_refines_witness :
  Forall searchable (Component.tasks one_task_shown) /\
  occurs_in "or" "World" /\
  exists (o1 o2 : outcome unit) (c1 c2 : Component.component),
    @Component.searchTasks (example_browser "1" "Report") "or" (one_task_shown, fresh) =
      (o1, (c1, fresh)) /\
    @Component.searchTasks (example_browser "1" "Report") "World" (one_task_shown, fresh) =
      (o2, (c2, fresh)) /\
    sublist (Component.filteredTasks c2) (Component.filteredTasks c1).
Proof.
  assert (Forall searchable (Component.tasks one_task_shown)) as Hwf.
  { repeat constructor. exists "Hello", "World". split; reflexivity. }
  assert (occurs_in "or" "World") as Hocc by (exists "W", "ld"; reflexivity).
  split; [exact Hwf|]. split; [exact Hocc|].
  destruct (@search_refines (example_browser "1" "Report") one_task_shown fresh
              "or" "World" Hwf Hocc)
    as (o1 & o2 & c1 & c2 & H1 & H2 & Hsub & _).
  exists o1, o2, c1, c2. repeat split; assumption.
Defined.

(** X12 on the list of one task. *)
Lemma search_ignores_case_witness :
  toLowerCase "WORLD" = toLowerCase "world" /\
  @Component.searchTasks (example_browser "1" "Report") "WORLD" (one_task_shown, fresh) =
  @Component.searchTasks (example_browser "1" "Report") "world" (one_task_shown, fresh).
Proof.
  split; [reflexivity|].
  apply (@search_ignores_case (example_browser "1" "Report") one_task_shown fresh
           "WORLD" "world").
  reflexivity.
Defined.

(** * Further properties of the handlers *)

(** ** The facade under the handlers *)

Lemma api_getTasks_run w :
  TaskAPI.getTasks w =
  (match fst (TaskDB.getAllTasks w) with
   | Return ts => Return (TaskAPI.Response true (Some (TaskAPI.TaskList ts))
                            "Tasks retrieved successfully")
   | Throw e => Throw e
   end, w).
Proof.
  destruct (getAllTasks_cases w) as [[ts Hget]|Hget]; run_api; by rewrite Hget.
Qed.

Lemma api_deleteTask_run w ts id :
  TaskDB.getAllTasks w = (Return ts, w) ->
  TaskAPI.deleteTask id w =
    (Return (TaskAPI.Response true None "Task deleted successfully"),
     snd (TaskDB.deleteTask id w)).
Proof.
  intros Hget. destruct (deleteTask_run w ts id Hget) as [Hd _].
  run_api. by rewrite Hd.
Qed.

Lemma api_createTask_run `{Host} w ts fields :
  TaskDB.getAllTasks w = (Return ts, w) ->
  exists new,
    TaskDB.createTask fields w = (Return new, snd (TaskDB.createTask fields w)) /\
    TaskAPI.createTask fields w =
      (Return (TaskAPI.Response true (Some (TaskAPI.OneTask new))
                 "Task created successfully"),
       snd (TaskDB.createTask fields w)).
Proof.
  intros Hget. pose proof (createTask_run w ts fields Hget) as Hc. simpl in Hc.
  eexists. split; [by rewrite Hc|]. run_api. by rewrite Hc.
Qed.

Lemma api_updateTask_found w ts id fields :
  TaskDB.getAllTasks w = (Return ts, w) ->
  (exists t, t ∈ ts /\ TaskDB.has_id id t = true) ->
  exists new,
    TaskDB.updateTask id fields w = (Return (Some new), snd (TaskDB.updateTask id fields w)) /\
    TaskAPI.updateTask id fields w =
      (Return (TaskAPI.Response true (Some (TaskAPI.OneTask new))
                 "Task updated successfully"),
       snd (TaskDB.updateTask id fields w)).
Proof.
  intros Hget Hex.
  destruct (updateTask_found w ts id fields Hget Hex) as (i & old & _ & _ & _ & Hu).
  simpl in Hu. eexists. split; [by rewrite Hu|]. run_api. by rewrite Hu.
Qed.

Lemma api_updateTask_missing w ts id fields :
  TaskDB.getAllTasks w = (Return ts, w) ->
  (forall t, t ∈ ts -> TaskDB.has_id id t = false) ->
  TaskAPI.updateTask id fields w =
    (Return (TaskAPI.Response false None "Task not found"), w).
Proof.
  intros Hget Hno.
  destruct (operations_without_match w ts id fields Hget Hno) as (_ & Hu & _).
  run_api. by rewrite Hu.
Qed.

Lemma api_writes_fail `{Host} w e id fields :
  TaskDB.getAllTasks w = (Throw e, w) ->
  TaskAPI.createTask fields w = (Return (failure "Failed to create task"), w) /\
  TaskAPI.updateTask id fields w = (Return (failure "Failed to update task"), w) /\
  TaskAPI.deleteTask id w = (Return (failure "Failed to delete task"), w).
Proof.
  intros Hget. destruct (operations_throw w e id fields Hget) as (_ & Hc & Hu & Hd).
  repeat split; run_api; by rewrite ?Hc, ?Hu, ?Hd.
Qed.


(** ** Loading the cache *)

Section handlers.
Context `{Host} `{Browser}.

Ltac step_method :=
  unfold mbind, Component.Method_bind, mret, Component.Method_ret, Component.assign,
    Component.this, Component.result, Component.showToast; simpl.

Lemma loadTasks_readable c w ts :
  TaskDB.getAllTasks w = (Return ts, w) ->
  exists b,
    Component.loadTasks (c, w) = (Return b, (loaded ts c, w)) /\
    (b = false ->
     Component.currentPage c = "tasks" /\
     ~ Forall renderable (Component.filteredTasks (loaded ts c))) /\
    ((Component.currentPage c = "tasks" ->
      Forall renderable (Component.filteredTasks (loaded ts c))) -> b = true).
Proof.
  intros Hget.
  assert (Component.call TaskAPI.getTasks (c, w) =
          (Return (TaskAPI.Response true (Some (TaskAPI.TaskList ts))
                     "Tasks retrieved successfully"), (c, w))) as Hcall.
  { apply call_run. rewrite api_getTasks_run. by rewrite Hget. }
  pose proof (applyCurrentFilter_run (Component.set_tasks ts c) w) as Hrender.
  simpl in Hrender. fold (loaded ts c) in Hrender.
  destruct Hrender as (Hcases & Hok & Hother).
  unfold Component.loadTasks, Component.try_catch.
  rewrite (Method_bind_return _ _ _ _ _ Hcall).
  cbn [TaskAPI.success]. step_method.
  change (Component.data_list _) with ts.
  destruct Hcases as [Hr|(Hr & Hp & Hl)]; rewrite Hr.
  - exists true. repeat split; done.
  - exists false. split; [done|]. split; [done|]. intros Hl'. destruct Hl. by apply Hl'.
Qed.

Lemma loadTasks_unreadable c w e :
  TaskDB.getAllTasks w = (Throw e, w) ->
  Component.loadTasks (c, w) = (Return false, (c, w)).
Proof.
  intros Hget.
  assert (Component.call TaskAPI.getTasks (c, w) = (Throw e, (c, w))) as Hcall.
  { apply call_run. rewrite api_getTasks_run. by rewrite Hget. }
  unfold Component.loadTasks, Component.try_catch.
  by rewrite (Method_bind_throw _ _ _ _ _ Hcall).
Qed.

Lemma loaded_fields ts c :
  Component.tasks (loaded ts c) = ts /\
  Component.filteredTasks (loaded ts c) =
    AppComponent.getFilteredTasksByStatus (Component.view (loaded ts c)) /\
  sublist (Component.filteredTasks (loaded ts c)) ts /\
  Component.currentFilter (loaded ts c) = Component.currentFilter c /\
  Component.currentPage (loaded ts c) = Component.currentPage c /\
  Component.editingTaskId (loaded ts c) = Component.editingTaskId c /\
  Component.deleteTaskId (loaded ts c) = Component.deleteTaskId c.
Proof.
  repeat split.
  apply (getFilteredTasksByStatus_sublist
           (AppComponent.State ts (Component.filteredTasks c) (Component.currentFilter c)
              (Component.currentPage c))).
Qed.

(** X13. [loadTasks] never throws and never writes to the store. When the
    slot cannot be read it returns false and the component is as it was. When
    the slot holds a collection, the cache becomes that collection and the
    filtered list the status filter of it, the other fields being kept; it
    returns true if every stored task is renderable, and when it returns
    false the page of the tasks is shown and some filtered task has a status
    or a priority that is no string. *)
Theorem loadTasks_mirrors_the_store (c : Component.component) (w : world) :
  exists (b : bool) (c' : Component.component),
    Component.loadTasks (c, w) = (Return b, (c', w)) /\
    (forall e, TaskDB.getAllTasks w = (Throw e, w) -> b = false /\ c' = c) /\
    (forall ts, TaskDB.getAllTasks w = (Return ts, w) ->
       Component.tasks c' = ts /\
       Component.filteredTasks c' =
         AppComponent.getFilteredTasksByStatus (Component.view c') /\
       sublist (Component.filteredTasks c') ts /\
       Component.currentFilter c' = Component.currentFilter c /\
       Component.currentPage c' = Component.currentPage c /\
       Component.editingTaskId c' = Component.editingTaskId c /\
       Component.deleteTaskId c' = Component.deleteTaskId c /\
       (Forall renderable ts -> b = true) /\
       (b = false ->
        Component.currentPage c = "tasks" /\
        ~ Forall renderable (Component.filteredTasks c'))).
Proof.
  destruct (getAllTasks_cases w) as [[ts Hget]|Hget].
  - destruct (loadTasks_readable c w ts Hget) as (b & Hrun & Hfalse & Htrue).
    exists b, (loaded ts c). split; [done|]. split; [intros e He; congruence|].
    intros ts' Hts'. assert (ts' = ts) as -> by congruence.
    destruct (loaded_fields ts c) as (H1 & H2 & H3 & H4 & H5 & H6 & H7).
    repeat split; try done.
    + intros Hall. apply Htrue. intros _. by eapply Forall_renderable_sublist.
    + by apply Hfalse.
    + by apply Hfalse.
  - exists false, c. split; [by eapply loadTasks_unreadable|].
    split; [done|]. intros ts Hts. congruence.
Qed.

Lemma calculateStats_Permutation this this' :
  AppComponent.tasks this' ≡ₚ AppComponent.tasks this ->
  Component.calculateStats this' = Component.calculateStats this.
Proof.
  intros Hperm. unfold Component.calculateStats.
  rewrite !(filter_length_Permutation _ _ _ Hperm).
  by rewrite (Permutation_length Hperm).
Qed.

(** X14. [renderDashboard] writes nothing to the store and changes the
    component in one way only: the cached tasks are left in the order of the
    sort. The statistics of the dashboard are the same before and after. It
    throws only a [TypeError], and not when every cached task is
    renderable. *)
Theorem renderDashboard_reorders_the_cache (c : Component.component) (w : world) :
  exists (o : outcome unit) (c' : Component.component),
    Component.renderDashboard (c, w) = (o, (c', w)) /\
    reordered c c' /\
    Component.tasks c' = sort_recent (Component.tasks c) /\
    Component.calculateStats (Component.view c') =
      Component.calculateStats (Component.view c) /\
    (o = Return tt \/ o = Throw TypeError) /\
    (Forall renderable (Component.tasks c) -> o = Return tt).
Proof.
  destruct (renderDashboard_run c w) as [Hcases Hok]. cbv zeta in Hcases, Hok.
  set (c' := Component.set_tasks (sort_recent (Component.tasks c)) c) in *.
  assert (reordered c c') as Hre by apply reordered_set_tasks, sort_recent_Permutation.
  assert (Component.calculateStats (Component.view c') =
          Component.calculateStats (Component.view c)) as Hstats.
  { apply calculateStats_Permutation, sort_recent_Permutation. }
  destruct Hcases as [Hr|Hr].
  - exists (Return tt), c'. repeat split; try done; try apply Hre; auto.
  - exists (Throw TypeError), c'. repeat split; try done; try apply Hre; auto.
    intros Hall. specialize (Hok Hall). congruence.
Qed.

Lemma navigateTo_run page c w :
  exists o c', Component.navigateTo page (c, w) = (o, (c', w)) /\
               reordered (Component.set_currentPage page c) c'.
Proof.
  set (c1 := Component.set_currentPage page c).
  assert (Component.navigateTo page (c, w) =
          if String.eqb page "tasks" then Component.renderTasks (c1, w)
          else if String.eqb page "add-task" then (Return tt, (c1, w))
          else if String.eqb page "dashboard" then Component.renderDashboard (c1, w)
          else (Return tt, (c1, w))) as ->.
  { unfold Component.navigateTo. step_method. by repeat destruct (String.eqb page _). }
  destruct (String.eqb page "tasks").
  { destruct (renderTasks_run (c1, w)) as [[Hr|Hr] _]; rewrite Hr; eexists _, _;
      (split; [reflexivity|apply reordered_refl]). }
  destruct (String.eqb page "add-task").
  { eexists _, _. split; [reflexivity|apply reordered_refl]. }
  destruct (String.eqb page "dashboard").
  { apply renderDashboard_reordered. }
  eexists _, _. split; [reflexivity|apply reordered_refl].
Qed.

(** X15. The rendering that follows a change of the filter or a search never
    alters what the filter computed: after [setFilter] and after
    [applyCurrentFilter] the component holds the state that the filter alone
    gives, whether the rendering threw or not; [searchTasks] leaves the
    filtered list that the search alone gives, and when the search itself
    throws, the component is as it was. None of them writes to the store. *)
Theorem rendering_keeps_the_filters (c : Component.component) (w : world)
    (filter : value) (query : string) :
  snd (Component.setFilter filter (c, w)) =
    (Component.set_view (AppComponent.filtered_by filter) c, w) /\
  snd (Component.applyCurrentFilter (c, w)) =
    (Component.set_view AppComponent.refiltered c, w) /\
  match AppComponent.searched query (Component.view c) with
  | Return v => snd (Component.searchTasks query (c, w)) =
                  (Component.set_view (fun _ => v) c, w)
  | Throw e => Component.searchTasks query (c, w) = (Throw e, (c, w))
  end.
Proof.
  assert (forall c, snd (Component.applyCurrentFilter (c, w)) =
            (Component.set_view AppComponent.refiltered c, w)) as Happly.
  { intros c0. destruct (applyCurrentFilter_run c0 w) as [[Hr|[Hr _]] _]; by rewrite Hr. }
  split; [|split].
  - unfold Component.setFilter.
    rewrite (Method_bind_return _ _ (c, w) tt (Component.set_currentFilter filter c, w))
      by reflexivity.
    by rewrite Happly.
  - apply Happly.
  - unfold AppComponent.searched, Component.searchTasks.
    destruct (blank query); [apply Happly|].
    step_method.
    destruct (AppComponent.filter_throwing _ _) as [filtered|e]; [|done].
    destruct (renderTasks_run (Component.set_filteredTasks filtered c, w)) as [[Hr|Hr] _];
      by rewrite Hr.
Qed.

(** ** Changing the store from the page *)

Lemma caught_with_a_toast (m : Component.Method unit) message type s o s' :
  m s = (o, s') ->
  Component.try_catch m (fun _ => Component.showToast message type) s = (Return tt, s').
Proof.
  intros Hm. unfold Component.try_catch. rewrite Hm. by destruct o as [[]|e].
Qed.

Lemma updateTask_stored w ts id fields :
  TaskDB.getAllTasks w = (Return ts, w) ->
  (exists t, t ∈ ts /\ TaskDB.has_id id t = true) ->
  exists (i : nat) (old : object),
    ts !! i = Some old /\ TaskDB.has_id id old = true /\
    (forall j t, (j < i)%nat -> ts !! j = Some t -> TaskDB.has_id id t = false) /\
    let new : object := <["updatedAt" := Str (clock w (ticks w))]> (fields ∪ old) in
    let w' := snd (TaskDB.updateTask id fields w) in
    TaskDB.updateTask id fields w = (Return (Some new), w') /\
    TaskDB.getAllTasks w' = (Return (<[i := persisted new]> ts), w') /\
    only_slot w w'.
Proof.
  intros Hget Hin.
  destruct (updateTask_found w ts id fields Hget Hin)
    as (i & old & Hold & Hid & Hmin & Hrun).
  cbv zeta in Hrun. exists i, old.
  split; [done|]. split; [done|]. split; [done|].
  cbv zeta. rewrite Hrun. simpl. split; [done|]. split.
  - rewrite getAllTasks_written, list_fmap_insert.
    by rewrite (getAllTasks_persisted w ts Hget).
  - apply (only_slot_written _ w 1).
Qed.

Lemma step_after_load (k : Component.Method unit) c w ts :
  TaskDB.getAllTasks w = (Return ts, w) ->
  (forall c0, exists o c', k (c0, w) = (o, (c', w)) /\ reordered c0 c') ->
  exists o c',
    (_ ← Component.loadTasks; k) (c, w) = (o, (c', w)) /\
    reordered (loaded ts c) c'.
Proof.
  intros Hget Hk.
  destruct (loadTasks_readable c w ts Hget) as (b & Hload & _).
  destruct (Hk (loaded ts c)) as (o & c' & Hrun & Hre).
  exists o, c'. split; [|done].
  by rewrite (Method_bind_return _ _ _ _ _ Hload).
Qed.

(** X16. [toggleTaskStatus] never throws. On a store that holds a
    collection: with no cached task of the id nothing changes, and neither
    when no stored task has the id; otherwise the first stored task of the id
    gets the status that is the opposite of the one the cached task has, the
    cached status deciding and not the stored one, anything but "Completed"
    giving "Completed". Only the status and [updatedAt] of that task change
    in the store, and the cache is then the stored collection in some
    order. *)
Theorem toggle_follows_the_cache (c : Component.component) (w : world)
    (ts : list object) (taskId : value) :
  TaskDB.getAllTasks w = (Return ts, w) ->
  (List.find (TaskDB.has_id taskId) (Component.tasks c) = None ->
   Component.toggleTaskStatus taskId (c, w) = (Return tt, (c, w))) /\
  ((forall t, t ∈ ts -> TaskDB.has_id taskId t = false) ->
   Component.toggleTaskStatus taskId (c, w) = (Return tt, (c, w))) /\
  (forall cached,
     List.find (TaskDB.has_id taskId) (Component.tasks c) = Some cached ->
     (exists t, t ∈ ts /\ TaskDB.has_id taskId t = true) ->
     exists (i : nat) (old new : object) (c' : Component.component) (w' : world),
       ts !! i = Some old /\ TaskDB.has_id taskId old = true /\
       (forall j t, (j < i)%nat -> ts !! j = Some t -> TaskDB.has_id taskId t = false) /\
       Component.toggleTaskStatus taskId (c, w) = (Return tt, (c', w')) /\
       TaskDB.getAllTasks w' = (Return (<[i := persisted new]> ts), w') /\
       new !! "status" = Some (Str (toggled (get cached "status"))) /\
       (forall k, k <> "status" -> k <> "updatedAt" -> new !! k = old !! k) /\
       Component.tasks c' ≡ₚ <[i := persisted new]> ts /\
       Component.currentFilter c' = Component.currentFilter c /\
       Component.currentPage c' = Component.currentPage c /\
       Component.deleteTaskId c' = Component.deleteTaskId c /\
       only_slot w w').
Proof.
  intros Hget.
  split; [|split].
  - intros Hnone. unfold Component.toggleTaskStatus.
    rewrite (Method_bind_return _ _ (c, w) c (c, w)) by reflexivity.
    by rewrite Hnone.
  - intros Hno. unfold Component.toggleTaskStatus.
    rewrite (Method_bind_return _ _ (c, w) c (c, w)) by reflexivity.
    destruct (List.find _ _) as [cached|]; [|done].
    apply (caught_with_a_toast _ _ _ _ (Return tt)).
    rewrite (Method_bind_return _ _ _ _ _
               (call_run _ c w _ _ (api_updateTask_missing w ts taskId _ Hget Hno))).
    reflexivity.
  - intros cached Hcached Hin.
    set (fields := {["status" := Str (toggled (get cached "status"))]} : object).
    destruct (updateTask_stored w ts taskId fields Hget Hin)
      as (i & old & Hold & Hid & Hmin & Hrun & Hget' & Hslot).
    cbv zeta in Hrun, Hget', Hslot.
    set (new := <["updatedAt" := _]> _ : object) in *.
    set (w' := snd (TaskDB.updateTask taskId fields w)) in *.
    destruct (api_updateTask_found w ts taskId fields Hget Hin) as (new' & Hrun' & Hapi).
    assert (new' = new) as -> by congruence. fold w' in Hapi.
    destruct (step_after_load Component.render_current_page c w' _ Hget'
                (fun c0 => render_current_page_reordered c0 w'))
      as (o & c' & Hrest & Hre).
    destruct (loaded_fields (<[i := persisted new]> ts) c)
      as (L1 & _ & _ & L4 & L5 & _ & L7).
    destruct Hre as (R1 & _ & R3 & R4 & _ & R6).
    exists i, old, new, c', w'.
    split; [done|]. split; [done|]. split; [done|].
    split; [|split; [done|]; split; [|split; [|split; [|repeat split; try congruence; apply Hslot]]]].
    + unfold Component.toggleTaskStatus.
      rewrite (Method_bind_return _ _ (c, w) c (c, w)) by reflexivity.
      rewrite Hcached.
      apply (caught_with_a_toast _ _ _ _ o).
      rewrite (Method_bind_return _ _ _ _ _ (call_run _ c w _ _ Hapi)).
      cbn [TaskAPI.success].
      rewrite (Method_bind_return _ _ (c, w') tt (c, w')) by reflexivity.
      exact Hrest.
    + unfold new. rewrite lookup_insert_ne by done.
      apply lookup_union_Some_l. apply lookup_singleton_eq.
    + intros k Hk Hk'. unfold new. rewrite lookup_insert_ne by done.
      apply lookup_union_r. by apply lookup_singleton_ne.
    + by rewrite R1, L1.
Qed.

Lemma hideDeleteModal_run c w :
  Component.hideDeleteModal (c, w) = (Return tt, (Component.set_deleteTaskId Null c, w)).
Proof. reflexivity. Qed.

Lemma try_finally_hide {A} (m : Component.Method A) s o c' w' :
  m s = (o, (c', w')) ->
  Component.try_finally m Component.hideDeleteModal s =
    (o, (Component.set_deleteTaskId Null c', w')).
Proof. intros Hm. unfold Component.try_finally. by rewrite Hm. Qed.

Lemma method_result {A} (m : Component.Method A) s :
  exists o c' w', m s = (o, (c', w')).
Proof. destruct (m s) as [o [c' w']]. by exists o, c', w'. Qed.

Lemma confirmDelete_falsy c w :
  truthy_value (Component.deleteTaskId c) = false ->
  Component.confirmDelete (c, w) = (Return tt, (c, w)).
Proof.
  intros Hid. unfold Component.confirmDelete.
  rewrite (Method_bind_return _ _ (c, w) c (c, w)) by reflexivity.
  by rewrite Hid.
Qed.

Lemma confirmDelete_truthy c w c' w' o
    (m := (response ← Component.call (TaskAPI.deleteTask (Component.deleteTaskId c));
           if TaskAPI.success response then
             _ ← Component.showToast "Task deleted successfully!" "success";
             _ ← Component.loadTasks;
             Component.render_current_page
           else Component.showToast (TaskAPI.message response) "error")) :
  truthy_value (Component.deleteTaskId c) = true ->
  m (c, w) = (o, (c', w')) ->
  Component.confirmDelete (c, w) = (Return tt, (Component.set_deleteTaskId Null c', w')).
Proof.
  intros Hid Hm. unfold Component.confirmDelete.
  rewrite (Method_bind_return _ _ (c, w) c (c, w)) by reflexivity.
  rewrite Hid. simpl negb. cbv iota.
  apply try_finally_hide. by apply (caught_with_a_toast _ _ _ _ o).
Qed.

(** X17. [confirmDelete] never throws, and once it has run no task is marked
    for deletion: [deleteTaskId] is then falsy, so that a second
    [confirmDelete] changes nothing, neither in the component nor in the
    store. With nothing marked it changes nothing at all. *)
Theorem confirmDelete_runs_once (c : Component.component) (w : world) :
  exists (c' : Component.component) (w' : world),
    Component.confirmDelete (c, w) = (Return tt, (c', w')) /\
    truthy_value (Component.deleteTaskId c') = false /\
    Component.confirmDelete (c', w') = (Return tt, (c', w')) /\
    (truthy_value (Component.deleteTaskId c) = false -> c' = c /\ w' = w) /\
    (truthy_value (Component.deleteTaskId c) = true ->
     Component.deleteTaskId c' = Null).
Proof.
  destruct (truthy_value (Component.deleteTaskId c)) eqn:Hid.
  - assert (exists o c' w',
              (response ← Component.call (TaskAPI.deleteTask (Component.deleteTaskId c));
               if TaskAPI.success response then
                 _ ← Component.showToast "Task deleted successfully!" "success";
                 _ ← Component.loadTasks;
                 Component.render_current_page
               else Component.showToast (TaskAPI.message response) "error") (c, w) =
              (o, (c', w'))) as (o & c' & w' & Hm).
    { apply method_result. }
    exists (Component.set_deleteTaskId Null c'), w'.
    split; [by apply (confirmDelete_truthy c w c' w' o)|].
    split; [done|]. split; [by apply confirmDelete_falsy|]. split; done.
  - exists c, w. rewrite confirmDelete_falsy by done. repeat split; done.
Qed.

(** X18. [confirmDelete] with a task marked, on a store that holds a
    collection: every stored task that has the marked id is removed from the
    store and the other tasks stay, in their order; the cache is then the
    stored collection in some order, so that no cached task has the id; the
    mark is cleared, and the filter and the page are as they were. *)
Theorem confirmDelete_deletes (c : Component.component) (w : world) (ts : list object) :
  TaskDB.getAllTasks w = (Return ts, w) ->
  truthy_value (Component.deleteTaskId c) = true ->
  let id := Component.deleteTaskId c in
  let ts1 := List.filter (fun t => negb (TaskDB.has_id id t)) ts in
  exists (c' : Component.component) (w' : world),
    Component.confirmDelete (c, w) = (Return tt, (c', w')) /\
    TaskDB.getAllTasks w' = (Return ts1, w') /\
    Component.tasks c' ≡ₚ ts1 /\
    (forall t, t ∈ Component.tasks c' -> TaskDB.has_id id t = false) /\
    sublist (Component.filteredTasks c') ts1 /\
    Component.deleteTaskId c' = Null /\
    Component.currentFilter c' = Component.currentFilter c /\
    Component.currentPage c' = Component.currentPage c /\
    only_slot w w'.
Proof.
  intros Hget Hid id ts1.
  destruct (deleteTask_run w ts id Hget) as [Hdel Hget1]. cbv zeta in Hdel, Hget1.
  fold ts1 in Hdel, Hget1.
  set (w' := written (JSON_stringify ts1) w) in *.
  pose proof (api_deleteTask_run w ts id Hget) as Hapi. rewrite Hdel in Hapi.
  change (snd _) with w' in Hapi.
  destruct (step_after_load Component.render_current_page c w' _ Hget1
              (fun c0 => render_current_page_reordered c0 w'))
    as (o & c' & Hrest & Hre).
  destruct (loaded_fields ts1 c) as (L1 & _ & L3 & L4 & L5 & _ & _).
  destruct Hre as (R1 & R2 & R3 & R4 & _ & _).
  exists (Component.set_deleteTaskId Null c'), w'.
  split.
  { apply (confirmDelete_truthy c w c' w' o Hid).
    rewrite (Method_bind_return _ _ _ _ _ (call_run _ c w _ _ Hapi)).
    cbn [TaskAPI.success].
    rewrite (Method_bind_return _ _ (c, w') tt (c, w')) by reflexivity.
    exact Hrest. }
  split; [done|].
  assert (Component.tasks (Component.set_deleteTaskId Null c') ≡ₚ ts1) as Hperm.
  { change (Component.tasks c' ≡ₚ ts1). by rewrite R1, L1. }
  split; [done|]. split.
  { intros t Ht. rewrite Hperm in Ht.
    apply list_elem_of_In, filter_In in Ht as [_ Ht]. by apply negb_true_iff in Ht. }
  split; [change (sublist (Component.filteredTasks c') ts1); by rewrite R2|].
  split; [done|]. split; [change (Component.currentFilter c' = Component.currentFilter c); congruence|].
  split; [change (Component.currentPage c' = Component.currentPage c); congruence|].
  apply (only_slot_written _ w 0).
Qed.

(** ** The forms *)

Lemma trimEnd_blank s : trimEnd s = "" <-> blank s = true.
Proof.
  induction s as [|a s IH]; simpl; [done|].
  destruct (trimEnd s) as [|b r].
  - destruct (is_white_space a); simpl; [|done].
    split; intros _; [by apply IH|done].
  - destruct (is_white_space a); simpl; [|done].
    split; [done|]. intros Hs. by apply IH in Hs.
Qed.

Lemma blank_skip_white_space s : blank (skip_white_space s) = blank s.
Proof.
  induction s as [|a s IH]; simpl; [done|].
  destruct (is_white_space a) eqn:Ha; simpl; [done|]. by rewrite Ha.
Qed.

Lemma trim_blank s : trim s = "" <-> blank s = true.
Proof. unfold trim. by rewrite trimEnd_blank, blank_skip_white_space. Qed.

Lemma truthy_trim s : truthy_value (Str (trim s)) = negb (blank s).
Proof.
  simpl. destruct (blank s) eqn:Hs.
  - apply trim_blank in Hs. by rewrite Hs.
  - destruct (String.eqb_spec (trim s) "") as [He|He]; [|done].
    apply trim_blank in He. congruence.
Qed.

Lemma get_form_data title description priority dueDate status :
  let data := Component.form_data title description priority dueDate status in
  get data "title" = Str title /\ get data "description" = Str description /\
  get data "priority" = Str priority /\ get data "dueDate" = Str dueDate /\
  get data "status" = Str status /\
  (forall k, k <> "title" -> k <> "description" -> k <> "priority" -> k <> "dueDate" ->
             k <> "status" -> data !! k = None).
Proof.
  unfold Component.form_data, get. cbv zeta.
  repeat split;
    try (repeat (rewrite lookup_insert_ne by done); by rewrite lookup_insert_eq).
  intros k H1 H2 H3 H4 H5. by repeat (rewrite lookup_insert_ne by done).
Qed.

Lemma getTaskFormData_run c w title description priority dueDate :
  input_value "task-title" = Some title ->
  input_value "task-description" = Some description ->
  input_value "task-priority" = Some priority ->
  input_value "task-due-date" = Some dueDate ->
  Component.getTaskFormData (c, w) =
    (Return (Component.form_data (trim title) (trim description) priority dueDate "Pending"),
     (c, w)).
Proof.
  intros H1 H2 H3 H4.
  unfold Component.getTaskFormData, Component.element_value.
  by rewrite H1, H2, H3, H4.
Qed.

Lemma getTaskFormData_missing c w :
  input_value "task-title" = None \/ input_value "task-description" = None \/
  input_value "task-priority" = None \/ input_value "task-due-date" = None ->
  Component.getTaskFormData (c, w) = (Throw TypeError, (c, w)).
Proof.
  intros Hmissing.
  unfold Component.getTaskFormData, Component.element_value.
  destruct (input_value "task-title"); [|done].
  destruct (input_value "task-description"); [|done].
  destruct (input_value "task-priority"); [|done].
  destruct (input_value "task-due-date"); [|done].
  by destruct Hmissing as [?|[?|[?|?]]].
Qed.

Lemma handleTaskSubmit_valid c w data :
  Component.getTaskFormData (c, w) = (Return data, (c, w)) ->
  truthy_value (get data "title") = true ->
  Component.handleTaskSubmit (c, w) =
    Component.try_catch
      (response ← Component.call (TaskAPI.createTask data);
       if TaskAPI.success response then
         _ ← Component.showToast "Task created successfully!" "success";
         _ ← Component.loadTasks;
         _ ← Component.renderDashboard;
         Component.navigateTo "tasks"
       else Component.showToast (TaskAPI.message response) "error")
      (fun error => Component.showToast "Failed to create task" "error") (c, w).
Proof.
  intros Hdata Hvalid. unfold Component.handleTaskSubmit.
  rewrite (Method_bind_return _ _ _ _ _ Hdata).
  unfold Component.validateTaskForm.
  rewrite (Method_bind_return _ _ (c, w) (truthy_value (get data "title")) (c, w))
    by reflexivity.
  by rewrite Hvalid.
Qed.

(** X19. [handleTaskSubmit] changes nothing, neither the store nor the
    component, unless the page has the four inputs of the form and the title
    is not blank: without one of the inputs it throws a [TypeError], and with
    a title of white space only it returns. *)
Theorem submit_needs_a_title (c : Component.component) (w : world) :
  ~ form_filled ->
  snd (Component.handleTaskSubmit (c, w)) = (c, w) /\
  (fst (Component.handleTaskSubmit (c, w)) = Throw TypeError <->
   input_value "task-title" = None \/ input_value "task-description" = None \/
   input_value "task-priority" = None \/ input_value "task-due-date" = None).
Proof.
  intros Hnot. unfold Component.handleTaskSubmit.
  destruct (input_value "task-title") as [title|] eqn:H1;
    [|rewrite (Method_bind_throw _ _ _ _ _ (getTaskFormData_missing c w ltac:(auto)));
      split; [done|]; split; auto].
  destruct (input_value "task-description") as [description|] eqn:H2;
    [|rewrite (Method_bind_throw _ _ _ _ _ (getTaskFormData_missing c w ltac:(auto)));
      split; [done|]; split; auto].
  destruct (input_value "task-priority") as [priority|] eqn:H3;
    [|rewrite (Method_bind_throw _ _ _ _ _ (getTaskFormData_missing c w ltac:(auto)));
      split; [done|]; split; auto].
  destruct (input_value "task-due-date") as [dueDate|] eqn:H4;
    [|rewrite (Method_bind_throw _ _ _ _ _ (getTaskFormData_missing c w ltac:(auto)));
      split; [done|]; split; auto].
  assert (blank title = true) as Hblank.
  { destruct (blank title) eqn:Hb; [done|]. destruct Hnot.
    by exists title, description, priority, dueDate. }
  rewrite (Method_bind_return _ _ _ _ _
             (getTaskFormData_run c w _ _ _ _ H1 H2 H3 H4)).
  unfold Component.validateTaskForm.
  rewrite (Method_bind_return _ _ (c, w) false (c, w)).
  - split; [done|]. simpl. split; [done|]. by intros [?|[?|[?|?]]].
  - unfold mret, Component.Method_ret. do 2 f_equal.
    destruct (get_form_data (trim title) (trim description) priority dueDate "Pending")
      as [-> _].
    rewrite truthy_trim. by rewrite Hblank.
Qed.

Lemma get_persisted_Str o k s :
  get o k = Str s -> get (persisted o) k = Str s.
Proof.
  unfold get. rewrite persisted_lookup.
  destruct (o !! k) as [v|]; simpl; [|done]. by intros ->.
Qed.

Lemma renderable_persisted t : renderable t -> renderable (persisted t).
Proof.
  intros (s & p & Hs & Hp). exists s, p. split; by apply get_persisted_Str.
Qed.

Lemma createTask_stored w ts fields :
  TaskDB.getAllTasks w = (Return ts, w) ->
  let new : object :=
    <["updatedAt" := Str (clock w (S (ticks w)))]> (
    <["createdAt" := Str (clock w (ticks w))]> (
      fields ∪ {["id" := Num (generated ts)]})) in
  let w' := snd (TaskDB.createTask fields w) in
  TaskDB.createTask fields w = (Return new, w') /\
  TaskDB.getAllTasks w' = (Return (ts ++ [persisted new])%list, w') /\
  only_slot w w'.
Proof.
  intros Hget. pose proof (createTask_run w ts fields Hget) as Hrun.
  cbv zeta in *. rewrite Hrun. simpl. split; [done|]. split.
  - rewrite getAllTasks_written, fmap_app.
    by rewrite (getAllTasks_persisted w ts Hget).
  - apply (only_slot_written _ w 2).
Qed.

(** X20. [handleTaskSubmit] with the four inputs present and a title that is
    not blank, on a store that holds a collection: it returns, and one task
    is appended to the stored collection, whose title and description are the
    trimmed inputs, whose priority and due date are the inputs as they are,
    whose status is "Pending" and whose id is the generated one; the stored
    title is never empty. The cache is then the stored collection in some
    order, and the page of the tasks is shown if every task is renderable. *)
Theorem submit_creates_a_pending_task (c : Component.component) (w : world)
    (ts : list object) (title description priority dueDate : string) :
  TaskDB.getAllTasks w = (Return ts, w) ->
  input_value "task-title" = Some title ->
  input_value "task-description" = Some description ->
  input_value "task-priority" = Some priority ->
  input_value "task-due-date" = Some dueDate ->
  blank title = false ->
  exists (new : object) (c' : Component.component) (w' : world),
    Component.handleTaskSubmit (c, w) = (Return tt, (c', w')) /\
    TaskDB.getAllTasks w' = (Return (ts ++ [persisted new])%list, w') /\
    get new "title" = Str (trim title) /\ trim title <> "" /\
    get new "description" = Str (trim description) /\
    get new "priority" = Str priority /\
    get new "dueDate" = Str dueDate /\
    get new "status" = Str "Pending" /\
    new !! "id" = Some (Num (generated ts)) /\
    Component.tasks c' ≡ₚ (ts ++ [persisted new])%list /\
    sublist (Component.filteredTasks c') (ts ++ [persisted new])%list /\
    Component.currentFilter c' = Component.currentFilter c /\
    (Forall renderable ts -> Component.currentPage c' = "tasks") /\
    only_slot w w'.
Proof.
  intros Hget H1 H2 H3 H4 Hblank.
  set (data := Component.form_data (trim title) (trim description) priority dueDate
                 "Pending").
  destruct (get_form_data (trim title) (trim description) priority dueDate "Pending")
    as (D1 & D2 & D3 & D4 & D5 & D6). fold data in D1, D2, D3, D4, D5, D6.
  destruct (createTask_stored w ts data Hget) as (Hrun & Hget' & Hslot).
  cbv zeta in Hrun, Hget', Hslot.
  set (new := <["updatedAt" := _]> _ : object) in *.
  set (w' := snd (TaskDB.createTask data w)) in *.
  set (ts1 := (ts ++ [persisted new])%list) in *.
  destruct (api_createTask_run w ts data Hget) as (new' & Hrun' & Hapi).
  assert (new' = new) as -> by congruence. fold w' in Hapi.
  assert (forall k v, data !! k = Some v -> new !! k = Some v) as Hkept.
  { intros k v Hk. unfold new.
    assert (k <> "updatedAt" /\ k <> "createdAt") as [? ?].
    { split; intros ->; by rewrite D6 in Hk. }
    rewrite !lookup_insert_ne by done. by apply lookup_union_Some_l. }
  assert (forall k s, get data k = Str s -> get new k = Str s) as Hget_kept.
  { intros k s. unfold get. destruct (data !! k) as [v|] eqn:Hk; simpl; [|done].
    intros ->. by rewrite (Hkept k (Str s) Hk). }
  destruct (loadTasks_readable c w' ts1 Hget') as (b & Hload & _).
  destruct (loaded_fields ts1 c) as (L1 & _ & L3 & L4 & L5 & _ & _).
  destruct (renderDashboard_run (loaded ts1 c) w') as [Hdash Hdash_ok].
  cbv zeta in Hdash, Hdash_ok.
  set (c2 := Component.set_tasks (sort_recent (Component.tasks (loaded ts1 c)))
               (loaded ts1 c)) in *.
  assert (Component.tasks c2 ≡ₚ ts1) as Hperm2.
  { unfold c2. change (sort_recent (Component.tasks (loaded ts1 c)) ≡ₚ ts1).
    by rewrite sort_recent_Permutation, L1. }
  destruct (navigateTo_run "tasks" c2 w') as (o3 & c3 & Hnav & R1 & R2 & R3 & R4 & _).
  assert (exists o c',
            (_ ← Component.renderDashboard; Component.navigateTo "tasks") (loaded ts1 c, w') =
              (o, (c', w')) /\
            Component.tasks c' ≡ₚ ts1 /\
            Component.filteredTasks c' = Component.filteredTasks (loaded ts1 c) /\
            Component.currentFilter c' = Component.currentFilter c /\
            (Forall renderable ts -> Component.currentPage c' = "tasks"))
    as (o & c' & Hrest & P1 & P2 & P3 & P4).
  { destruct Hdash as [Hd|Hd].
    - exists o3, c3. rewrite (Method_bind_return _ _ _ _ _ Hd).
      split; [done|]. split; [by rewrite R1|]. split; [by rewrite R2|].
      split; [by rewrite R3|]. intros _. by rewrite R4.
    - exists (Throw TypeError), c2. rewrite (Method_bind_throw _ _ _ _ _ Hd).
      split; [done|]. split; [done|]. split; [done|]. split; [done|].
      intros Hall. rewrite Hdash_ok in Hd; [done|].
      rewrite L1. unfold ts1. apply Forall_app. split; [done|].
      constructor; [|constructor]. apply renderable_persisted.
      exists "Pending", priority. split; by apply Hget_kept. }
  exists new, c', w'.
  split.
  { rewrite (handleTaskSubmit_valid c w data).
    - apply (caught_with_a_toast _ _ _ _ o).
      rewrite (Method_bind_return _ _ _ _ _ (call_run _ c w _ _ Hapi)).
      cbn [TaskAPI.success].
      rewrite (Method_bind_return _ _ (c, w') tt (c, w')) by reflexivity.
      by rewrite (Method_bind_return _ _ _ _ _ Hload).
    - by apply getTaskFormData_run.
    - rewrite D1, truthy_trim. by rewrite Hblank. }
  split; [done|]. split; [by apply Hget_kept|].
  split; [intros He%trim_blank; congruence|].
  split; [by apply Hget_kept|]. split; [by apply Hget_kept|].
  split; [by apply Hget_kept|]. split; [by apply Hget_kept|].
  split.
  { unfold new. rewrite !lookup_insert_ne by done.
    rewrite lookup_union_r by (by apply D6). apply lookup_singleton_eq. }
  split; [done|]. split; [by rewrite P2|]. split; [done|]. split; done.
Qed.

Lemma handleEditTaskSubmit_valid c w id title description priority dueDate status
    (data := Component.form_data (trim title) (trim description) priority dueDate status) :
  input_value "edit-task-id" = Some id ->
  input_value "edit-task-title" = Some title ->
  input_value "edit-task-description" = Some description ->
  input_value "edit-task-priority" = Some priority ->
  input_value "edit-task-due-date" = Some dueDate ->
  input_value "edit-task-status" = Some status ->
  blank title = false ->
  Component.handleEditTaskSubmit (c, w) =
    Component.try_catch
      (response ← Component.call (TaskAPI.updateTask (Str id) data);
       if TaskAPI.success response then
         _ ← Component.showToast "Task updated successfully!" "success";
         _ ← Component.loadTasks;
         _ ← Component.renderDashboard;
         Component.navigateTo "tasks"
       else Component.showToast (TaskAPI.message response) "error")
      (fun error => Component.showToast "Failed to update task" "error") (c, w).
Proof.
  intros H0' H1 H2 H3 H4 H5 Hblank.
  unfold Component.handleEditTaskSubmit, Component.getEditTaskFormData,
    Component.element_value, Component.validateEditTaskForm.
  rewrite H0', H1, H2, H3, H4, H5.
  rewrite (Method_bind_return _ _ (c, w) id (c, w)) by reflexivity.
  rewrite (Method_bind_return _ _ (c, w) data (c, w)) by reflexivity.
  rewrite (Method_bind_return _ _ (c, w) true (c, w)); [done|].
  unfold mret, Component.Method_ret. do 2 f_equal.
  destruct (get_form_data (trim title) (trim description) priority dueDate status)
    as [Ht _].
  fold data in Ht. rewrite Ht, truthy_trim. by rewrite Hblank.
Qed.

(** X21. [handleEditTaskSubmit] with the six inputs present and a title that
    is not blank, on a store that holds a collection. When no stored task has
    the id of the hidden input, nothing changes. Otherwise the first stored
    task of that id gets the trimmed title and description and the priority,
    the due date and the status of the inputs, whatever strings these are,
    and a new [updatedAt]; every other property, its id and its [createdAt]
    among them, is kept, and the other tasks are untouched. The cache is then
    the stored collection in some order. *)
Theorem edit_keeps_id_and_createdAt (c : Component.component) (w : world)
    (ts : list object) (id title description priority dueDate status : string) :
  TaskDB.getAllTasks w = (Return ts, w) ->
  input_value "edit-task-id" = Some id ->
  input_value "edit-task-title" = Some title ->
  input_value "edit-task-description" = Some description ->
  input_value "edit-task-priority" = Some priority ->
  input_value "edit-task-due-date" = Some dueDate ->
  input_value "edit-task-status" = Some status ->
  blank title = false ->
  ((forall t, t ∈ ts -> TaskDB.has_id (Str id) t = false) ->
   Component.handleEditTaskSubmit (c, w) = (Return tt, (c, w))) /\
  ((exists t, t ∈ ts /\ TaskDB.has_id (Str id) t = true) ->
   exists (i : nat) (old new : object) (c' : Component.component) (w' : world),
     ts !! i = Some old /\ TaskDB.has_id (Str id) old = true /\
     (forall j t, (j < i)%nat -> ts !! j = Some t -> TaskDB.has_id (Str id) t = false) /\
     Component.handleEditTaskSubmit (c, w) = (Return tt, (c', w')) /\
     TaskDB.getAllTasks w' = (Return (<[i := persisted new]> ts), w') /\
     get new "title" = Str (trim title) /\
     get new "description" = Str (trim description) /\
     get new "priority" = Str priority /\
     get new "dueDate" = Str dueDate /\
     get new "status" = Str status /\
     new !! "id" = old !! "id" /\
     new !! "createdAt" = old !! "createdAt" /\
     (forall k, k <> "title" -> k <> "description" -> k <> "priority" ->
                k <> "dueDate" -> k <> "status" -> k <> "updatedAt" ->
                new !! k = old !! k) /\
     Component.tasks c' ≡ₚ <[i := persisted new]> ts /\
     only_slot w w').
Proof.
  intros Hget H0' H1 H2 H3 H4 H5 Hblank.
  rewrite (handleEditTaskSubmit_valid c w id title description priority dueDate status)
    by done.
  set (data := Component.form_data (trim title) (trim description) priority dueDate
                 status).
  destruct (get_form_data (trim title) (trim description) priority dueDate status)
    as (D1 & D2 & D3 & D4 & D5 & D6). fold data in D1, D2, D3, D4, D5, D6.
  split.
  { intros Hno. apply (caught_with_a_toast _ _ _ _ (Return tt)).
    rewrite (Method_bind_return _ _ _ _ _
               (call_run _ c w _ _ (api_updateTask_missing w ts (Str id) _ Hget Hno))).
    reflexivity. }
  intros Hin.
  destruct (updateTask_stored w ts (Str id) data Hget Hin)
    as (i & old & Hold & Hid & Hmin & Hrun & Hget' & Hslot).
  cbv zeta in Hrun, Hget', Hslot.
  set (new := <["updatedAt" := _]> _ : object) in *.
  set (w' := snd (TaskDB.updateTask (Str id) data w)) in *.
  set (ts1 := <[i := persisted new]> ts) in *.
  destruct (api_updateTask_found w ts (Str id) data Hget Hin) as (new' & Hrun' & Hapi).
  assert (new' = new) as -> by congruence. fold w' in Hapi.
  assert (forall k s, get data k = Str s -> get new k = Str s) as Hget_kept.
  { intros k s. unfold get. destruct (data !! k) as [v|] eqn:Hk; simpl; [|done].
    intros ->. unfold new.
    assert (k <> "updatedAt") by (intros ->; by rewrite D6 in Hk).
    rewrite lookup_insert_ne by done. by rewrite (lookup_union_Some_l _ _ _ _ Hk). }
  assert (forall k, k <> "title" -> k <> "description" -> k <> "priority" ->
                    k <> "dueDate" -> k <> "status" -> k <> "updatedAt" ->
                    new !! k = old !! k) as Hframe.
  { intros k K1 K2 K3 K4 K5 K6. unfold new. rewrite lookup_insert_ne by done.
    apply lookup_union_r. by apply D6. }
  destruct (loadTasks_readable c w' ts1 Hget') as (b & Hload & _).
  destruct (loaded_fields ts1 c) as (L1 & _).
  destruct (renderDashboard_run (loaded ts1 c) w') as [Hdash _]. cbv zeta in Hdash.
  set (c2 := Component.set_tasks (sort_recent (Component.tasks (loaded ts1 c)))
               (loaded ts1 c)) in *.
  assert (Component.tasks c2 ≡ₚ ts1) as Hperm2.
  { unfold c2. change (sort_recent (Component.tasks (loaded ts1 c)) ≡ₚ ts1).
    by rewrite sort_recent_Permutation, L1. }
  destruct (navigateTo_run "tasks" c2 w') as (o3 & c3 & Hnav & R1 & _).
  assert (exists o c',
            (_ ← Component.renderDashboard; Component.navigateTo "tasks") (loaded ts1 c, w') =
              (o, (c', w')) /\
            Component.tasks c' ≡ₚ ts1) as (o & c' & Hrest & P1).
  { destruct Hdash as [Hd|Hd].
    - exists o3, c3. rewrite (Method_bind_return _ _ _ _ _ Hd).
      split; [done|]. by rewrite R1.
    - exists (Throw TypeError), c2. by rewrite (Method_bind_throw _ _ _ _ _ Hd). }
  exists i, old, new, c', w'.
  split; [done|]. split; [done|]. split; [done|]. split.
  { apply (caught_with_a_toast _ _ _ _ o).
    rewrite (Method_bind_return _ _ _ _ _ (call_run _ c w _ _ Hapi)).
    cbn [TaskAPI.success].
    rewrite (Method_bind_return _ _ (c, w') tt (c, w')) by reflexivity.
    by rewrite (Method_bind_return _ _ _ _ _ Hload). }
  split; [done|].
  split; [by apply Hget_kept|]. split; [by apply Hget_kept|].
  split; [by apply Hget_kept|]. split; [by apply Hget_kept|].
  split; [by apply Hget_kept|].
  split; [by apply Hframe|]. split; [by apply Hframe|].
  split; [done|]. split; done.
Qed.

(** ** Starting the application *)

Lemma sampleTasks_renderable : Forall renderable TaskDB.sampleTasks.
Proof.
  unfold TaskDB.sampleTasks.
  repeat (constructor; [eexists _, _; split; reflexivity|]). constructor.
Qed.

(** X22. [new AppComponent()], on whatever the component held before: the
    store is as [initializeDatabase] leaves it, the dashboard is the page and
    "all" the filter, and nothing is marked for deleting or editing. When the
    slot cannot be read the cache is empty and nothing is thrown; otherwise
    the filtered list is the stored collection and the cache is that
    collection in the order of the sort. The first start, on a store without
    the slot, ends with the five sample tasks in both and throws nothing. *)
Theorem start_mirrors_the_store (c : Component.component) (w : world) :
  exists (o : outcome unit) (c' : Component.component),
    let w' := snd (TaskDB.initializeDatabase w) in
    Component.constructor (c, w) = (o, (c', w')) /\
    (o = Return tt \/ o = Throw TypeError) /\
    Component.currentPage c' = "dashboard" /\
    Component.currentFilter c' = Str "all" /\
    Component.editingTaskId c' = Null /\
    Component.deleteTaskId c' = Null /\
    (forall e, TaskDB.getAllTasks w' = (Throw e, w') ->
               o = Return tt /\ Component.tasks c' = [] /\
               Component.filteredTasks c' = []) /\
    (forall ts, TaskDB.getAllTasks w' = (Return ts, w') ->
                Component.tasks c' = sort_recent ts /\
                Component.filteredTasks c' = ts /\
                (Forall renderable ts -> o = Return tt)) /\
    (localStorage w !! TaskDB.storageKey = None ->
     o = Return tt /\
     Component.tasks c' = sort_recent TaskDB.sampleTasks /\
     Component.filteredTasks c' = TaskDB.sampleTasks).
Proof.
  pose proof (initializeDatabase_unfold w) as Hinit.
  set (w' := snd (TaskDB.initializeDatabase w)).
  assert (TaskDB.initializeDatabase w = (Return tt, w')) as Hinit'.
  { unfold w'. by rewrite Hinit. }
  assert (Component.constructor (c, w) =
          (_ ← Component.loadTasks; Component.renderDashboard)
            (Component.initial, w')) as Hstart.
  { unfold Component.constructor, Component.init.
    rewrite (Method_bind_return _ _ _ _ _ (call_run _ c w _ _ Hinit')).
    by rewrite (Method_bind_return _ _ (c, w') tt (Component.initial, w')). }
  assert (forall ts, TaskDB.getAllTasks w' = (Return ts, w') ->
            exists o,
              Component.constructor (c, w) =
                (o, (Component.set_tasks (sort_recent ts) (loaded ts Component.initial), w')) /\
              (o = Return tt \/ o = Throw TypeError) /\
              (Forall renderable ts -> o = Return tt)) as Hreadable.
  { intros ts Hget. rewrite Hstart.
    destruct (loadTasks_readable Component.initial w' ts Hget) as (b & Hload & _).
    rewrite (Method_bind_return _ _ _ _ _ Hload).
    destruct (renderDashboard_run (loaded ts Component.initial) w') as [Hcases Hok].
    cbv zeta in Hcases, Hok.
    change (Component.tasks (loaded ts Component.initial)) with ts in *.
    destruct Hcases as [Hr|Hr]; rewrite Hr; eexists; (split; [reflexivity|]);
      (split; [by auto|]); [done|].
    intros Hall. rewrite (Hok Hall) in Hr. congruence. }
  destruct (getAllTasks_cases w') as [[ts Hget]|Hget].
  - destruct (Hreadable ts Hget) as (o & Hrun & Hcases & Hok).
    exists o, (Component.set_tasks (sort_recent ts) (loaded ts Component.initial)).
    cbv zeta. fold w'.
    split; [done|]. split; [done|]. repeat (split; [reflexivity|]).
    split; [intros e He; congruence|]. split.
    + intros ts' Hts'. assert (ts' = ts) as -> by congruence. by repeat split.
    + intros Hnone.
      assert (w' = written (JSON_stringify TaskDB.sampleTasks) w) as Hw'.
      { unfold w'. rewrite Hinit. by rewrite Hnone. }
      assert (ts = TaskDB.sampleTasks) as ->.
      { rewrite Hw', getAllTasks_written, sampleTasks_persisted in Hget. congruence. }
      repeat split; try done. apply Hok, sampleTasks_renderable.
  - exists (Return tt), Component.initial. cbv zeta. fold w'.
    split.
    { rewrite Hstart.
      rewrite (Method_bind_return _ _ _ _ _
                 (loadTasks_unreadable Component.initial w' _ Hget)).
      destruct (renderDashboard_run Component.initial w') as [_ Hok].
      rewrite Hok by constructor. cbv zeta.
      change (Component.tasks Component.initial) with (@nil object).
      assert (sort_recent [] = []) as ->; [|done].
      apply Permutation_nil_r, sort_recent_Permutation. }
    split; [by left|]. repeat (split; [reflexivity|]).
    split; [done|]. split; [intros ts Hts; congruence|].
    intros Hnone.
    assert (w' = written (JSON_stringify TaskDB.sampleTasks) w) as Hw'.
    { unfold w'. rewrite Hinit. by rewrite Hnone. }
    rewrite Hw', getAllTasks_written in Hget. congruence.
Qed.

End handlers.

(** ** The handlers on the seeded store *)

(** X16 on the seeded store, for the id ["1"]. *)
Lemma toggle_follows_the_cache_witness :
  TaskDB.getAllTasks seeded = (Return TaskDB.sampleTasks, seeded) /\
  exists (cached new : object) (c' : Component.component) (w' : world),
    List.find (TaskDB.has_id (Str "1")) (Component.tasks sample_component) = Some cached /\
    @Component.toggleTaskStatus (example_browser "1" "Report") (Str "1")
      (sample_component, seeded) = (Return tt, (c', w')) /\
    new !! "status" = Some (Str (toggled (get cached "status"))) /\
    Component.tasks c' ≡ₚ <[0%nat := persisted new]> TaskDB.sampleTasks.
Proof.
  split; [apply getAllTasks_seeded|].
  destruct (List.find (TaskDB.has_id (Str "1")) (Component.tasks sample_component))
    as [cached|] eqn:Hcached; [|discriminate].
  destruct (proj2 (proj2 (@toggle_follows_the_cache (example_browser "1" "Report") sample_component seeded TaskDB.sampleTasks
              (Str "1") getAllTasks_seeded)) cached Hcached
              (sample_has_id (Str "1") 0 eq_refl))
    as (i & old & new & c' & w' & Hi & Hid & Hmin & Hrun & _ & Hstatus & _ & Hperm & _).
  assert (i = 0%nat) as ->.
  { destruct i as [|i]; [done|].
    by specialize (Hmin 0%nat _ ltac:(lia) eq_refl). }
  exists cached, new, c', w'. repeat split; assumption.
Defined.

(** X18 on the seeded store, with task 2 marked. *)
Lemma confirmDelete_deletes_witness :
  TaskDB.getAllTasks seeded = (Return TaskDB.sampleTasks, seeded) /\
  truthy_value (Component.deleteTaskId (Component.set_deleteTaskId (Str "2")
                                          sample_component)) = true /\
  exists (c' : Component.component) (w' : world),
    @Component.confirmDelete (example_browser "1" "Report")
      (Component.set_deleteTaskId (Str "2") sample_component, seeded) =
      (Return tt, (c', w')) /\
    Component.deleteTaskId c' = Null /\
    (forall t, t ∈ Component.tasks c' -> TaskDB.has_id (Str "2") t = false).
Proof.
  split; [apply getAllTasks_seeded|]. split; [reflexivity|].
  destruct (@confirmDelete_deletes (example_browser "1" "Report")
              (Component.set_deleteTaskId (Str "2") sample_component) seeded
              TaskDB.sampleTasks getAllTasks_seeded eq_refl)
    as (c' & w' & Hrun & _ & _ & Hgone & _ & Hid & _).
  exists c', w'. repeat split; assumption.
Defined.

(** X19 on a page whose title is three spaces. *)
Lemma blank_title_is_not_filled : ~ @form_filled (example_browser "1" "   ").
Proof.
  intros (title & description & priority & dueDate & Htitle & _ & _ & _ & Hblank).
  assert (title = "   ") as ->.
  { change (Some "   " = Some title) in Htitle. congruence. }
  discriminate.
Qed.

Lemma submit_needs_a_title_witness :
  ~ @form_filled (example_browser "1" "   ") /\
  snd (@Component.handleTaskSubmit example_host (example_browser "1" "   ")
         (sample_component, seeded)) = (sample_component, seeded).
Proof.
  split; [apply blank_title_is_not_filled|].
  apply (@submit_needs_a_title example_host (example_browser "1" "   ")
           sample_component seeded blank_title_is_not_filled).
Defined.

(** X20 on the seeded store. *)
Lemma submit_creates_a_pending_task_witness :
  TaskDB.getAllTasks seeded = (Return TaskDB.sampleTasks, seeded) /\
  blank "  Write report " = false /\
  exists (new : object) (c' : Component.component) (w' : world),
    @Component.handleTaskSubmit example_host (example_browser "1" "  Write report ")
      (sample_component, seeded) = (Return tt, (c', w')) /\
    TaskDB.getAllTasks w' = (Return (TaskDB.sampleTasks ++ [persisted new])%list, w') /\
    get new "title" = Str "Write report" /\
    get new "description" = Str "Due on Friday" /\
    get new "status" = Str "Pending" /\
    Component.currentPage c' = "tasks".
Proof.
  split; [apply getAllTasks_seeded|]. split; [reflexivity|].
  destruct (@submit_creates_a_pending_task example_host
              (example_browser "1" "  Write report ") sample_component seeded
              TaskDB.sampleTasks "  Write report " " Due on Friday " "High" "2026-02-01"
              getAllTasks_seeded eq_refl eq_refl eq_refl eq_refl eq_refl)
    as (new & c' & w' & Hrun & Hget & Htitle & _ & Hdescription & _ & _ & Hstatus & _ & _ &
        _ & _ & Hpage & _).
  exists new, c', w'. repeat split; try assumption.
  apply Hpage, sampleTasks_renderable.
Defined.

(** X21 on the seeded store, for the task 3. *)
Lemma edit_keeps_id_and_createdAt_witness :
  TaskDB.getAllTasks seeded = (Return TaskDB.sampleTasks, seeded) /\
  blank "  Write report " = false /\
  exists (i : nat) (old new : object) (c' : Component.component) (w' : world),
    TaskDB.sampleTasks !! i = Some old /\
    @Component.handleEditTaskSubmit (example_browser "3" "  Write report ")
      (sample_component, seeded) = (Return tt, (c', w')) /\
    get new "title" = Str "Write report" /\
    get new "status" = Str "In Progress" /\
    new !! "id" = old !! "id" /\
    new !! "createdAt" = old !! "createdAt".
Proof.
  split; [apply getAllTasks_seeded|]. split; [reflexivity|].
  destruct (proj2 (@edit_keeps_id_and_createdAt (example_browser "3" "  Write report ") sample_component seeded
              TaskDB.sampleTasks "3" "  Write report " "Edited" "Low" "2026-03-01"
              "In Progress" getAllTasks_seeded eq_refl eq_refl eq_refl eq_refl eq_refl
              eq_refl eq_refl)
              (sample_has_id (Str "3") 2 eq_refl))
    as (i & old & new & c' & w' & Hi & _ & _ & Hrun & _ & Htitle & _ & _ & _ & Hstatus &
        Hid & Hcreated & _).
  exists i, old, new, c', w'. repeat split; assumption.
Defined.
